(** * Warehouse pick reservation: availability and booking-validity engine

    A shallow embedding of the engine functions of [pick-reservation.jsx]
    ([generateTimeSlots], [timeToMinutes], [getSlotOccupancy], [canBook],
    [getDateAvailability]) and of the event handlers of [App] that touch
    the reservation set and the selections ([handleConfirm],
    [handleCancel], the calendar's day buttons, the slot picker, the
    booking form, the administrator's delete button and settings editor).

    Conventions.
    - A JavaScript number that holds an integer is a [Z] (integers small
      enough to be exact and to print in plain decimal); the result of a
      parse that JavaScript reports as [NaN] is [None].
    - Time labels, dates, identifiers and statuses are strings, as in the
      source; [fmtTime] prints labels and [timeToMinutes] reads them.
    - The [while] loop of [generateTimeSlots] and the [for] loop of
      [canBook] take a [fuel] argument and return [None] when it runs out,
      so that termination is proved, not assumed.
    - Record fields carry a prefix where two records of the source share a
      field name: [p_] for products, [r_] for reservations, [i_] for the
      data of the booking form, [st_] for the state of [App].

    The definitions come first; the results follow, grouped by
    component. *)

From Stdlib Require Import ZArith QArith Lia List String Ascii.
From Stdlib Require Import Decimal DecimalString DecimalPos DecimalZ.
From stdpp Require Import base list strings.

Open Scope string_scope.
Open Scope Z_scope.

(** ** Strings and numbers *)

Module Js.

(** [String(n)] for an integer [n]: decimal digits, a leading minus sign
    for negative numbers. *)
Definition toString (n : Z) : string := NilZero.string_of_int (Z.to_int n).

(** [s.padStart(targetLength, c)] for a one-character filler [c]. *)
Definition padStart (targetLength : nat) (c : ascii) (s : string) : string :=
  string_of_list_ascii (repeat c (targetLength - String.length s)) ++ s.

(** [Number(s)] on the strings the program handles: the empty string is
    [0], an optionally signed run of decimal digits is its value, and every
    other string is [NaN] ([None]).  Literals with blanks, fractions,
    exponents or radix prefixes are never printed by [fmtTime] and are read
    as [NaN] here. *)
Definition toNumber (s : string) : option Z :=
  match s with
  | EmptyString => Some 0
  | String "+" s' => option_map Z.of_uint (NilZero.uint_of_string s')
  | _ => option_map Z.of_int (NilZero.int_of_string s)
  end.

(** [s.split(sep)] for a one-character separator. *)
Fixpoint split (sep : ascii) (s : string) : list string :=
  match s with
  | EmptyString => [EmptyString]
  | String c s' =>
      if Ascii.eqb c sep then EmptyString :: split sep s'
      else match split sep s' with
           | [] => [String c EmptyString]
           | p :: ps => String c p :: ps
           end
  end.

(** The quotient of two integer-valued numbers, as far as the engine looks
    at it: an exact rational when the divisor is not zero, and the three
    non-finite results of a division by zero. *)
Inductive quotient : Type :=
  | Finite (q : Q)
  | NaN
  | PosInfinity
  | NegInfinity.

Definition div (a b : Z) : quotient :=
  if b =? 0 then
    if a =? 0 then NaN else if 0 <? a then PosInfinity else NegInfinity
  else Finite (inject_Z a / inject_Z b)%Q.

End Js.

(** ** Data model *)

Record Product : Type := mkProduct {
  p_id : string;
  p_name : string;
  p_requiredSlots : Z;
  p_durationMin : Z
}.

Record Settings : Type := mkSettings {
  maxCapacity : Z;
  openHour : Z;
  openMin : Z;
  closeHour : Z;
  closeMin : Z;
  slotIntervalMin : Z;
  calendarMonths : Z;
  holidays : list string
}.

Record Reservation : Type := mkReservation {
  r_id : string;
  r_name : string;
  r_phone : string;
  r_note : string;
  r_startTime : string;
  r_endTime : string;
  r_date : string;
  r_productId : string;
  r_productName : string;
  r_requiredSlots : Z;
  r_durationMin : Z;
  r_status : string;
  r_createdAt : string
}.

Record Slot : Type := mkSlot {
  hour : Z;
  min : Z;
  label : string
}.

Definition PRODUCTS : list Product :=
  [ mkProduct "quarter" "クォーター" 1 60;
    mkProduct "half" "ハーフ" 3 120;
    mkProduct "full" "フル" 2 180;
    mkProduct "pick-guide-half" "ピック指導（ハーフ）" 3 180;
    mkProduct "pick-guide-full" "ピック指導（フル）" 2 240 ].

Definition DEFAULT_SETTINGS : Settings :=
  {| maxCapacity := 6; openHour := 9; openMin := 0;
     closeHour := 19; closeMin := 0; slotIntervalMin := 30;
     calendarMonths := 3; holidays := [] |}.

(** ** Utilities *)

Definition pad2 (n : Z) : string := Js.padStart 2 "0" (Js.toString n).

Definition fmtTime (h m : Z) : string := pad2 h ++ ":" ++ pad2 m.

(** [const [h, m] = t.split(":").map(Number); return h * 60 + m;]
    A missing or unreadable component makes the sum [NaN]. *)
Definition timeToMinutes (t : string) : option Z :=
  match map Js.toNumber (Js.split ":" t) with
  | Some h :: Some m :: _ => Some (h * 60 + m)
  | _ => None
  end.

(** The label [canBook] builds for the instant [m]:
    [fmtTime(Math.floor(m / 60), m % 60)].  JavaScript's [%] truncates
    towards zero ([Z.rem]); [Math.floor] of the quotient is [Z.div]. *)
Definition labelOfMinutes (m : Z) : string := fmtTime (m / 60) (Z.rem m 60).

(** ** The engine *)

(** One turn of the [while] loop of [generateTimeSlots]: push the slot,
    advance [m], and carry whole hours from [m] into [h]. *)
Fixpoint generateTimeSlots_loop (fuel : nat) (settings : Settings)
    (endTotal h m : Z) (slots : list Slot) : option (list Slot) :=
  match fuel with
  | O => None
  | S fuel' =>
      if h * 60 + m <? endTotal then
        let slots' := (slots ++ [mkSlot h m (fmtTime h m)])%list in
        let m' := m + slotIntervalMin settings in
        if m' >=? 60
        then generateTimeSlots_loop fuel' settings endTotal
               (h + m' / 60) (Z.rem m' 60) slots'
        else generateTimeSlots_loop fuel' settings endTotal h m' slots'
      else Some slots
  end.

Definition generateTimeSlots (fuel : nat) (settings : Settings)
    : option (list Slot) :=
  let endTotal := closeHour settings * 60 + closeMin settings in
  generateTimeSlots_loop fuel settings endTotal
    (openHour settings) (openMin settings) [].

(** The test of the [reduce] callback of [getSlotOccupancy]:
    [slotMin >= startIdx && slotMin < endIdx].  A comparison with [NaN] is
    false. *)
Definition coversSlot (slotLabel : string) (r : Reservation) : bool :=
  match timeToMinutes (r_startTime r), timeToMinutes (r_endTime r),
        timeToMinutes slotLabel with
  | Some startIdx, Some endIdx, Some slotMin =>
      (slotMin >=? startIdx) && (slotMin <? endIdx)
  | _, _, _ => false
  end.

Definition getSlotOccupancy (date slotLabel : string)
    (reservations : list Reservation) : Z :=
  fold_left
    (fun sum r => if coversSlot slotLabel r then sum + r_requiredSlots r else sum)
    (List.filter
       (fun r => String.eqb (r_date r) date && String.eqb (r_status r) "confirmed")
       reservations)
    0.

(** The [for] loop of [canBook], from the instant [m] on. *)
Fixpoint canBook_loop (fuel : nat) (date : string) (product : Product)
    (reservations : list Reservation) (settings : Settings)
    (endMin m : Z) : option bool :=
  match fuel with
  | O => None
  | S fuel' =>
      if m <? endMin then
        let slotLabel := fmtTime (m / 60) (Z.rem m 60) in
        let occ := getSlotOccupancy date slotLabel reservations in
        if occ + p_requiredSlots product >? maxCapacity settings
        then Some false
        else canBook_loop fuel' date product reservations settings endMin
               (m + slotIntervalMin settings)
      else Some true
  end.

(** [canBook].  When [startTime] does not read as a time, [startMin] and
    [endMin] are [NaN]: [endMin > closeMin] and [m < endMin] are both false
    and the function returns [true] without entering the loop. *)
Definition canBook (fuel : nat) (date startTime : string) (product : Product)
    (reservations : list Reservation) (settings : Settings) : option bool :=
  match timeToMinutes startTime with
  | None => Some true
  | Some startMin =>
      let endMin := startMin + p_durationMin product in
      let closeMin := closeHour settings * 60 + closeMin settings in
      if endMin >? closeMin then Some false
      else canBook_loop fuel date product reservations settings endMin startMin
  end.

(** The sum [getDateAvailability] accumulates over the slots. *)
Definition totalAvail (dateStr : string) (reservations : list Reservation)
    (settings : Settings) (slots : list Slot) : Z :=
  fold_left
    (fun total slot =>
       let occ := getSlotOccupancy dateStr (label slot) reservations in
       total + Z.max 0 (maxCapacity settings - occ))
    slots 0.

Definition getDateAvailability (fuel : nat) (dateStr : string)
    (reservations : list Reservation) (settings : Settings)
    : option Js.quotient :=
  match generateTimeSlots fuel settings with
  | None => None
  | Some slots =>
      let maxPossible := Z.of_nat (length slots) * maxCapacity settings in
      Some (Js.div (totalAvail dateStr reservations settings slots) maxPossible)
  end.

(** ** The application state and its event handlers *)

Inductive Tab : Type := TabReserve | TabList | TabAdmin.

(** The [useState] cells of [App] that the handlers read or write. *)
Record AppState : Type := mkAppState {
  st_reservations : list Reservation;
  st_settings : Settings;
  tab : Tab;
  selectedDate : option string;
  selectedProduct : option Product;
  selectedTime : option string
}.

(** The state [App] shows once the stored documents are loaded. *)
Definition initialState (res : list Reservation) (set : Settings) : AppState :=
  mkAppState res set TabReserve None None None.

(** A string state cell tested as a condition: [null] and the empty string
    are falsy. *)
Definition truthy (s : option string) : bool :=
  match s with
  | Some s' => negb (String.eqb s' "")
  | None => false
  end.

Definition persist (newRes : list Reservation) (st : AppState) : AppState :=
  mkAppState newRes (st_settings st) (tab st)
    (selectedDate st) (selectedProduct st) (selectedTime st).

Definition persistSettings (s : Settings) (st : AppState) : AppState :=
  mkAppState (st_reservations st) s (tab st)
    (selectedDate st) (selectedProduct st) (selectedTime st).

Definition setTab (t : Tab) (st : AppState) : AppState :=
  mkAppState (st_reservations st) (st_settings st) t
    (selectedDate st) (selectedProduct st) (selectedTime st).

Definition setSelectedDate (d : option string) (st : AppState) : AppState :=
  mkAppState (st_reservations st) (st_settings st) (tab st)
    d (selectedProduct st) (selectedTime st).

Definition setSelectedProduct (p : option Product) (st : AppState) : AppState :=
  mkAppState (st_reservations st) (st_settings st) (tab st)
    (selectedDate st) p (selectedTime st).

Definition setSelectedTime (t : option string) (st : AppState) : AppState :=
  mkAppState (st_reservations st) (st_settings st) (tab st)
    (selectedDate st) (selectedProduct st) t.

(** [{ ...r, status: "cancelled" }] *)
Definition withStatusCancelled (r : Reservation) : Reservation :=
  mkReservation (r_id r) (r_name r) (r_phone r) (r_note r)
    (r_startTime r) (r_endTime r) (r_date r) (r_productId r)
    (r_productName r) (r_requiredSlots r) (r_durationMin r)
    "cancelled" (r_createdAt r).

(** The list [handleCancel] persists:
    [reservations.map((r) => r.id === id ? { ...r, status: "cancelled" } : r)] *)
Definition markCancelled (id : string) (reservations : list Reservation)
    : list Reservation :=
  map (fun r => if String.eqb (r_id r) id then withStatusCancelled r else r)
    reservations.

Definition handleCancel (id : string) (st : AppState) : AppState :=
  persist (markCancelled id (st_reservations st)) st.

(** [<ReservationList onCancel={handleCancel} />] and
    [<AdminPanel onDeleteReservation={handleCancel} />]: the customer's
    cancel button and the administrator's delete button are wired to the
    same handler. *)
Definition onCancel : string -> AppState -> AppState := handleCancel.
Definition onDeleteReservation : string -> AppState -> AppState := handleCancel.

(** What [BookingForm] passes to [onConfirm]. *)
Record BookingInfo : Type := mkBookingInfo {
  i_name : string;
  i_phone : string;
  i_note : string;
  i_startTime : string;
  i_endTime : string;
  i_date : string;
  i_productId : string;
  i_productName : string;
  i_requiredSlots : Z;
  i_durationMin : Z
}.

(** [handleConfirm], run to its end; [newId] and [createdAt] stand for the
    values of [genId()] and [new Date().toISOString()].  The function is
    [async]: the record is appended before its [await] and the selections
    are cleared after it.  Here the two parts are one step, as when nothing
    happens while the set is saved; [confirmClicked] and [confirmSaved]
    below are the two parts, and [asyncStep] lets events land between
    them. *)
Definition handleConfirm (newId createdAt : string) (info : BookingInfo)
    (st : AppState) : AppState :=
  let newR :=
    mkReservation newId (i_name info) (i_phone info) (i_note info)
      (i_startTime info) (i_endTime info) (i_date info) (i_productId info)
      (i_productName info) (i_requiredSlots info) (i_durationMin info)
      "confirmed" createdAt in
  mkAppState (st_reservations st ++ [newR])%list (st_settings st) TabList
    None None None.

(** The [onClick] of a day button of [Calendar]; [past] is the value of
    [isPast(dateStr)], which depends on the clock. *)
Definition calendarDayClick (past : bool) (dateStr : string) (st : AppState)
    : AppState :=
  let holiday :=
    existsb (String.eqb dateStr) (holidays (st_settings st)) in
  let disabled := past || holiday in
  if negb disabled
  then setSelectedTime None (setSelectedDate (Some dateStr) st)
  else st.

(** The slots [TimeSlotPicker] offers for a product. *)
Definition validSlots (product : Product) (settings : Settings)
    (allSlots : list Slot) : list Slot :=
  let closeMin := closeHour settings * 60 + closeMin settings in
  List.filter
    (fun s =>
       let startMin := hour s * 60 + min s in
       startMin + p_durationMin product <=? closeMin)
    allSlots.

(** The end label [BookingForm] computes; ["NaN:NaN"] is what [fmtTime]
    prints when the start time does not read as a time. *)
Definition bookingEndTime (startTime : string) (product : Product) : string :=
  match timeToMinutes startTime with
  | Some startMin =>
      let endMin := startMin + p_durationMin product in
      fmtTime (endMin / 60) (Z.rem endMin 60)
  | None => "NaN:NaN"
  end.

(** What the user can do.  Each event names a control of the page together
    with the values that come from outside the state (typed text, the
    clock, the random identifier).  [ProductClick i] is the button of the
    [i]-th entry of [PRODUCTS], [SlotClick i] the button of the [i]-th
    offered slot, and [AdminSave] carries the fields the settings editor
    can change (it has no input for the slot interval). *)
Inductive Event : Type :=
  | DayClick (dateStr : string) (past : bool)
  | ProductClick (i : nat)
  | SlotClick (i : nat)
  | FormConfirm (name phone note newId createdAt : string)
  | FormBack
  | TabClick (t : Tab)
  | ListCancelClick (id : string) (past : bool)
  | AdminSave (maxCap oH oM cH cM months : Z) (hol : list string)
  | AdminDeleteClick (id : string).

(** [active] of [ReservationList] and [AdminPanel], as far as the buttons
    need it: is there a confirmed reservation with this identifier? *)
Definition isActive (id : string) (reservations : list Reservation) : bool :=
  existsb
    (fun r => String.eqb (r_status r) "confirmed" && String.eqb (r_id r) id)
    reservations.

(** The effect of one event on the state.  A control that the current
    screen does not show, or shows disabled, leaves the state as it is.
    [None] means that rendering the slot picker did not finish within
    [fuel].  The availability dots of the calendar are display only and do
    not appear here.  In [FormConfirm] the three texts are the trimmed
    inputs of the form. *)
Definition appStep (fuel : nat) (ev : Event) (st : AppState)
    : option AppState :=
  let reserveScreen :=
    match tab st with TabReserve => negb (truthy (selectedTime st)) | _ => false end in
  let formScreen :=
    match tab st with TabReserve => truthy (selectedTime st) | _ => false end in
  match ev with
  | DayClick dateStr past =>
      if reserveScreen then Some (calendarDayClick past dateStr st) else Some st
  | ProductClick i =>
      match PRODUCTS !! i with
      | Some p =>
          if reserveScreen
          then Some (setSelectedTime None (setSelectedProduct (Some p) st))
          else Some st
      | None => Some st
      end
  | SlotClick i =>
      if reserveScreen then
        match selectedDate st, selectedProduct st with
        | Some date, Some product =>
            if negb (String.eqb date "") then
              match generateTimeSlots fuel (st_settings st) with
              | None => None
              | Some allSlots =>
                  match validSlots product (st_settings st) allSlots !! i with
                  | None => Some st
                  | Some slot =>
                      match canBook fuel date (label slot) product
                              (st_reservations st) (st_settings st) with
                      | None => None
                      | Some available =>
                          if available
                          then Some (setSelectedTime (Some (label slot)) st)
                          else Some st
                      end
                  end
              end
            else Some st
        | _, _ => Some st
        end
      else Some st
  | FormConfirm name phone note newId createdAt =>
      if formScreen then
        match selectedDate st, selectedProduct st, selectedTime st with
        | Some date, Some product, Some startTime =>
            let valid := negb (String.eqb name "") && negb (String.eqb phone "") in
            if valid then
              Some (handleConfirm newId createdAt
                      (mkBookingInfo name phone note startTime
                         (bookingEndTime startTime product) date
                         (p_id product) (p_name product)
                         (p_requiredSlots product) (p_durationMin product))
                      st)
            else Some st
        | _, _, _ => Some st
        end
      else Some st
  | FormBack =>
      if formScreen then Some (setSelectedTime None st) else Some st
  | TabClick t =>
      match t with
      | TabReserve => Some (setSelectedTime None (setTab TabReserve st))
      | _ => Some (setTab t st)
      end
  | ListCancelClick id past =>
      match tab st with
      | TabList =>
          if isActive id (st_reservations st) && negb past
          then Some (onCancel id st) else Some st
      | _ => Some st
      end
  | AdminSave maxCap oH oM cH cM months hol =>
      match tab st with
      | TabAdmin =>
          let local :=
            mkSettings maxCap oH oM cH cM
              (slotIntervalMin (st_settings st)) months hol in
          Some (persistSettings local st)
      | _ => Some st
      end
  | AdminDeleteClick id =>
      match tab st with
      | TabAdmin =>
          if isActive id (st_reservations st)
          then Some (onDeleteReservation id st) else Some st
      | _ => Some st
      end
  end.

(** A session: the events handled one after the other. *)
Fixpoint appRun (fuel : nat) (evs : list Event) (st : AppState)
    : option AppState :=
  match evs with
  | [] => Some st
  | ev :: evs' =>
      match appStep fuel ev st with
      | None => None
      | Some st' => appRun fuel evs' st'
      end
  end.

(** ** Specification-level notions *)

Definition sumZ (l : list Z) : Z := fold_right Z.add 0 l.

(** The reservations a query for [date] looks at. *)
Definition onDateConfirmed (date : string) (r : Reservation) : bool :=
  String.eqb (r_date r) date && String.eqb (r_status r) "confirmed".

(** The occupancy in the words of the specification: the reservations that
    are confirmed, on the queried date, and whose interval
    [startTime, endTime) holds the instant, contribute their units. *)
Definition holdsInstant (instant : Z) (r : Reservation) : bool :=
  match timeToMinutes (r_startTime r), timeToMinutes (r_endTime r) with
  | Some startIdx, Some endIdx => (startIdx <=? instant) && (instant <? endIdx)
  | _, _ => false
  end.

Definition countedAt (date : string) (instant : Z) (r : Reservation) : bool :=
  String.eqb (r_status r) "confirmed" && String.eqb (r_date r) date
  && holdsInstant instant r.

Definition occupancyAt (date : string) (instant : Z)
    (reservations : list Reservation) : Z :=
  sumZ (map r_requiredSlots (List.filter (countedAt date instant) reservations)).

Definition nonNegativeUnits (reservations : list Reservation) : Prop :=
  Forall (fun r => 0 <= r_requiredSlots r) reservations.

(** What one reservation adds to the occupancy of the queried slot. *)
Definition contribution (date slotLabel : string) (r : Reservation) : Z :=
  if onDateConfirmed date r && coversSlot slotLabel r
  then r_requiredSlots r else 0.

(** A string without the separator of the time labels. *)
Definition colon_free (s : string) : Prop :=
  Forall (fun c => c <> ":"%char) (list_ascii_of_string s).

(** The minute of the day at which a slot starts. *)
Definition slotOffset (s : Slot) : Z := hour s * 60 + min s.

Definition openTotal (settings : Settings) : Z :=
  openHour settings * 60 + openMin settings.

Definition closeTotal (settings : Settings) : Z :=
  closeHour settings * 60 + closeMin settings.

(** A configuration with business hours and no step between slots. *)
Definition zeroIntervalSettings : Settings :=
  {| maxCapacity := 6; openHour := 9; openMin := 0;
     closeHour := 19; closeMin := 0; slotIntervalMin := 0;
     calendarMonths := 3; holidays := [] |}.

(** The free capacity of one slot, as [getDateAvailability] counts it. *)
Definition freeUnits (dateStr : string) (reservations : list Reservation)
    (settings : Settings) (s : Slot) : Z :=
  Z.max 0 (maxCapacity settings
           - occupancyAt dateStr (slotOffset s) reservations).

(** The reservations of the set that lie on a date, whatever their status. *)
Definition bookingsOn (dateStr : string) (reservations : list Reservation)
    : list Reservation :=
  List.filter (fun r => String.eqb (r_date r) dateStr) reservations.

(** An event after which [dateStr] is still among the holidays: every event
    but a save of the settings editor with a holiday list that lacks it. *)
Definition keepsHoliday (dateStr : string) (ev : Event) : bool :=
  match ev with
  | AdminSave _ _ _ _ _ _ hol => existsb (String.eqb dateStr) hol
  | _ => true
  end.

(** [{ ...s, holidays: hol }] *)
Definition withHolidays (hol : list string) (s : Settings) : Settings :=
  mkSettings (maxCapacity s) (openHour s) (openMin s) (closeHour s)
    (closeMin s) (slotIntervalMin s) (calendarMonths s) hol.

(** Concrete data for the examples. *)
Definition newYear : string := "2026-01-01".

Definition holidaySettings : Settings := withHolidays [newYear] DEFAULT_SETTINGS.

Definition halfProduct : Product := mkProduct "half" "ハーフ" 3 120.

Definition guideFullProduct : Product :=
  mkProduct "pick-guide-full" "ピック指導（フル）" 2 240.

Definition sampleReservation (id startTime endTime : string) (units : Z)
    (status : string) : Reservation :=
  mkReservation id "Sato" "06-0000-0000" "" startTime endTime newYear
    "half" "ハーフ" units 120 status "2025-12-01T00:00:00.000Z".

(** The administrator's screen with one confirmed reservation. *)
Definition adminState : AppState :=
  mkAppState [sampleReservation "a" "10:00" "12:00" 3 "confirmed"]
    DEFAULT_SETTINGS TabAdmin None None None.

(** A session in which a date is selected, then declared a holiday in the
    settings editor, then booked. *)
Definition lateHolidaySession : list Event :=
  [ ProductClick 1; DayClick newYear false; TabClick TabAdmin;
    AdminSave 6 9 0 19 0 3 [newYear]; TabClick TabReserve;
    SlotClick 2; FormConfirm "Sato" "06-0000-0000" "" "k3j9x0q2a" "t0" ].

(** The two parts of that session: up to the return to the reservation tab,
    where the selected date has become a holiday; and the booking request
    made from there, a click on the 10:00 slot and a filled-in form. *)
Definition selectedThenClosed : list Event :=
  [ ProductClick 1; DayClick newYear false; TabClick TabAdmin;
    AdminSave 6 9 0 19 0 3 [newYear]; TabClick TabReserve ].

Definition holidayRequest : list Event :=
  [ SlotClick 2; FormConfirm "Sato" "06-0000-0000" "" "k3j9x0q2a" "t0" ].

Definition quarterProduct : Product := mkProduct "quarter" "クォーター" 1 60.

(** A product whose duration is not a multiple of the slot interval. *)
Definition shortProduct : Product := mkProduct "short" "short" 1 45.

(** Two half-day bookings, at 10:00 and at 10:30. *)
Definition firstHalf : Reservation :=
  sampleReservation "a" "10:00" "12:00" 3 "confirmed".

Definition secondHalf : Reservation :=
  sampleReservation "b" "10:30" "12:30" 3 "confirmed".

(** A reservation that fills the capacity from 10:30 to 11:00. *)
Definition fullHalfHour : Reservation :=
  sampleReservation "c" "10:30" "11:00" 6 "confirmed".

(** The default configuration with no capacity at all. *)
Definition zeroCapacitySettings : Settings :=
  {| maxCapacity := 0; openHour := 9; openMin := 0;
     closeHour := 19; closeMin := 0; slotIntervalMin := 30;
     calendarMonths := 3; holidays := [] |}.

From Stdlib Require Import Sorted Permutation.

(** ** Further components of the page *)

(** [remaining] of [TimeSlotPicker]: the free units shown on the button of
    a slot. *)
Definition remaining (date : string) (reservations : list Reservation)
    (settings : Settings) (slot : Slot) : Z :=
  maxCapacity settings - getSlotOccupancy date (label slot) reservations.

(** [{ ...s, maxCapacity: n }] *)
Definition withMaxCapacity (n : Z) (s : Settings) : Settings :=
  mkSettings n (openHour s) (openMin s) (closeHour s)
    (closeMin s) (slotIntervalMin s) (calendarMonths s) (holidays s).

(** The colours of the availability dot of a calendar day. *)
Inductive DotColor : Type := Danger | Warn | Success.

(** [ratio <= 0 ? colors.danger : ratio < 0.3 ? colors.warn : colors.success].
    Comparisons with [NaN] are false.  The threshold is taken as the
    rational 3/10. *)
Definition dotColor (ratio : Js.quotient) : DotColor :=
  match ratio with
  | Js.Finite q =>
      if Qle_bool q 0 then Danger
      else if negb (Qle_bool (3 # 10) q) then Warn else Success
  | Js.NaN => Success
  | Js.PosInfinity => Success
  | Js.NegInfinity => Danger
  end.

(** [availDot] of a day cell of [Calendar]: no dot ([Some None]) on a
    disabled day, otherwise the colour for the day's ratio; [None] when the
    ratio is not computed within [fuel]. *)
Definition availDot (fuel : nat) (past : bool) (dateStr : string)
    (reservations : list Reservation) (settings : Settings)
    : option (option DotColor) :=
  let holiday := existsb (String.eqb dateStr) (holidays settings) in
  let disabled := past || holiday in
  if negb disabled then
    match getDateAvailability fuel dateStr reservations settings with
    | Some ratio => Some (Some (dotColor ratio))
    | None => None
    end
  else Some None.

(** [newR] of [handleConfirm]. *)
Definition newReservation (newId createdAt : string) (info : BookingInfo)
    : Reservation :=
  mkReservation newId (i_name info) (i_phone info) (i_note info)
    (i_startTime info) (i_endTime info) (i_date info) (i_productId info)
    (i_productName info) (i_requiredSlots info) (i_durationMin info)
    "confirmed" createdAt.

(** ** The holiday editor of the administrator's panel *)

(** [l.sort()] on a list of strings: the list in ascending order of the
    strings' character codes (for the plain ASCII strings of a date input,
    the order of their bytes).  The order is total and two strings that
    compare equal are the same string, so the sorted list does not depend
    on the sorting method; insertion is used here. *)
Fixpoint insertSorted (x : string) (l : list string) : list string :=
  match l with
  | [] => [x]
  | y :: l' => if String.leb x y then x :: l else y :: insertSorted x l'
  end.

Definition sortStrings (l : list string) : list string :=
  fold_right insertSorted [] l.

(** The state of [AdminPanel] that the holiday controls use: [local] and
    [holidayInput]. *)
Record HolidayEditor : Type := mkHolidayEditor {
  ed_local : Settings;
  ed_holidayInput : string
}.

(** [addHoliday]: a date that is typed and not yet listed is appended, the
    list is sorted, and the input is cleared. *)
Definition addHoliday (ed : HolidayEditor) : HolidayEditor :=
  if negb (String.eqb (ed_holidayInput ed) "")
     && negb (existsb (String.eqb (ed_holidayInput ed))
                (holidays (ed_local ed)))
  then
    mkHolidayEditor
      (withHolidays
         (sortStrings (holidays (ed_local ed) ++ [ed_holidayInput ed])%list)
         (ed_local ed))
      ""
  else ed.

(** [removeHoliday]: [s.holidays.filter((h) => h !== d)]. *)
Definition removeHoliday (d : string) (ed : HolidayEditor) : HolidayEditor :=
  mkHolidayEditor
    (withHolidays
       (List.filter (fun h => negb (String.eqb h d)) (holidays (ed_local ed)))
       (ed_local ed))
    (ed_holidayInput ed).

(** [handleSave], as far as the state of [App] goes:
    [onSettingsChange(local)] with [onSettingsChange={persistSettings}]. *)
Definition handleSave (ed : HolidayEditor) (st : AppState) : AppState :=
  persistSettings (ed_local ed) st.

(** Ascending order of a list of strings. *)
Definition ascending (l : list string) : Prop :=
  StronglySorted (fun a b => String.leb a b = true) l.

(** ** Sessions *)

(** A record as it may look later in a session: itself, or itself with
    status cancelled. *)
Definition laterRecord (r r' : Reservation) : Prop :=
  r' = r \/ r' = withStatusCancelled r.

(** A record that is the snapshot of a catalog product, confirmed or
    cancelled. *)
Definition fromCatalog (r : Reservation) : Prop :=
  (exists p : Product,
     In p PRODUCTS
     /\ r_productId r = p_id p /\ r_productName r = p_name p
     /\ r_requiredSlots r = p_requiredSlots p
     /\ r_durationMin r = p_durationMin p
     /\ r_endTime r = bookingEndTime (r_startTime r) p)
  /\ (r_status r = "confirmed" \/ r_status r = "cancelled").

(** The selections are complete when the booking form is shown: a date
    that is not empty and a product of the catalog. *)
Definition selectionsComplete (st : AppState) : Prop :=
  (forall p, selectedProduct st = Some p -> In p PRODUCTS)
  /\ (truthy (selectedTime st) = true ->
      exists d p,
        selectedDate st = Some d /\ d <> "" /\ selectedProduct st = Some p).

(** An event that leaves the settings as they are: every event but a save
    of the settings editor. *)
Definition keepsSettings (ev : Event) : bool :=
  match ev with
  | AdminSave _ _ _ _ _ _ _ => false
  | _ => true
  end.

(** A record that was booked on the grid of [settings]: its units are not
    negative, its times read as instants within the business hours, and
    its start is a whole number of intervals after opening time. *)
Definition bookedOnGrid (settings : Settings) (r : Reservation) : Prop :=
  0 <= r_requiredSlots r
  /\ exists startMin endMin : Z,
       timeToMinutes (r_startTime r) = Some startMin
       /\ timeToMinutes (r_endTime r) = Some endMin
       /\ openTotal settings <= startMin
       /\ startMin <= endMin
       /\ endMin <= closeTotal settings
       /\ (slotIntervalMin settings | startMin - openTotal settings).

(** No date has an instant at which the confirmed reservations need more
    than the capacity. *)
Definition withinCapacity (settings : Settings)
    (reservations : list Reservation) : Prop :=
  forall (date : string) (instant : Z),
    occupancyAt date instant reservations <= maxCapacity settings.

(** When a time is selected, it is a slot of the grid at which the
    selected product still fits, on the selected date, at every instant
    [canBook] steps through. *)
Definition pendingFits (settings : Settings) (st : AppState) : Prop :=
  truthy (selectedTime st) = true ->
  exists (d : string) (p : Product) (t : string) (startMin : Z),
    selectedDate st = Some d /\ selectedProduct st = Some p
    /\ selectedTime st = Some t
    /\ timeToMinutes t = Some startMin
    /\ openTotal settings <= startMin
    /\ (slotIntervalMin settings | startMin - openTotal settings)
    /\ startMin + p_durationMin p <= closeTotal settings
    /\ forall k : Z,
         0 <= k ->
         startMin + k * slotIntervalMin settings
           < startMin + p_durationMin p ->
         occupancyAt d (startMin + k * slotIntervalMin settings)
           (st_reservations st)
         + p_requiredSlots p <= maxCapacity settings.

(** What a session keeps true while the settings stay the same. *)
Definition sessionSound (settings : Settings) (st : AppState) : Prop :=
  st_settings st = settings
  /\ Forall (bookedOnGrid settings) (st_reservations st)
  /\ withinCapacity settings (st_reservations st)
  /\ (forall p, selectedProduct st = Some p -> In p PRODUCTS)
  /\ pendingFits settings st.

(** A session in which the half-day product is booked on New Year's Day
    at 10:00 and the booking is then cancelled from the list. *)
Definition bookingSession : list Event :=
  [ ProductClick 1; DayClick newYear false; SlotClick 2;
    FormConfirm "Sato" "06-0000-0000" "" "k3j9x0q2a" "t0";
    ListCancelClick "k3j9x0q2a" false ].

(** ** Confirming, in the two steps of the source *)

(** [handleConfirm] is an [async] function.  Up to its [await] it builds
    the record and hands the extended set to [persist], which sets the
    reservations of the state before it starts to save.  The selections
    and the tab are as they were: the form stays on the screen, and its
    confirm button is disabled by [!valid] only. *)
Definition confirmClicked (newId createdAt : string) (info : BookingInfo)
    (st : AppState) : AppState :=
  persist (st_reservations st ++ [newReservation newId createdAt info])%list
    st.

(** [handleConfirm] after its [await]: the three selections are cleared
    and the list is shown.  The setters are given constants, so they act
    on the state as it is when the save is done. *)
Definition confirmSaved (st : AppState) : AppState :=
  setTab TabList
    (setSelectedProduct None (setSelectedDate None (setSelectedTime None st))).

(** What the form's confirm button hands to [onConfirm]: the trimmed
    fields and what the form shows.  [None] when the form is not on the
    screen, or when the button is disabled. *)
Definition formInfo (name phone note : string) (st : AppState)
    : option BookingInfo :=
  match tab st with
  | TabReserve =>
      if truthy (selectedTime st) then
        match selectedDate st, selectedProduct st, selectedTime st with
        | Some date, Some product, Some startTime =>
            let valid :=
              negb (String.eqb name "") && negb (String.eqb phone "") in
            if valid then
              Some (mkBookingInfo name phone note startTime
                      (bookingEndTime startTime product) date
                      (p_id product) (p_name product)
                      (p_requiredSlots product) (p_durationMin product))
            else None
        | _, _, _ => None
        end
      else None
  | _ => None
  end.

(** The application with its saves: the state, and the number of calls of
    [handleConfirm] that wait for their save. *)
Record Running : Type := mkRunning {
  app : AppState;
  inFlight : nat
}.

(** What happens to the running application: an event of the screen, or
    the end of the oldest save that a confirmation waits for. *)
Inductive Happening : Type :=
  | Click (ev : Event)
  | SaveDone.

(** One happening.  A click on the confirm button runs [handleConfirm] up
    to its [await]; the end of a save runs the rest of it.  Every other
    event is handled as in [appStep]: what [handleCancel] and
    [persistSettings] do after their [await] is a toast, which the state
    does not hold. *)
Definition asyncStep (fuel : nat) (h : Happening) (r : Running)
    : option Running :=
  match h with
  | Click (FormConfirm name phone note newId createdAt) =>
      match formInfo name phone note (app r) with
      | Some info =>
          Some (mkRunning (confirmClicked newId createdAt info (app r))
                  (S (inFlight r)))
      | None => Some r
      end
  | Click ev =>
      match appStep fuel ev (app r) with
      | Some st' => Some (mkRunning st' (inFlight r))
      | None => None
      end
  | SaveDone =>
      match inFlight r with
      | O => Some r
      | S n => Some (mkRunning (confirmSaved (app r)) n)
      end
  end.

Fixpoint asyncRun (fuel : nat) (hs : list Happening) (r : Running)
    : option Running :=
  match hs with
  | [] => Some r
  | h :: hs' =>
      match asyncStep fuel h r with
      | None => None
      | Some r' => asyncRun fuel hs' r'
      end
  end.

(** The application as it starts: nothing is being saved. *)
Definition started (st : AppState) : Running := mkRunning st 0.

Definition isConfirm (h : Happening) : bool :=
  match h with
  | Click (FormConfirm _ _ _ _ _) => true
  | _ => false
  end.

Definition leavesSettings (h : Happening) : bool :=
  match h with
  | Click ev => keepsSettings ev
  | SaveDone => true
  end.

(** No click on the confirm button lands while a confirmation waits for
    its save. *)
Fixpoint oneConfirmAtATime (fuel : nat) (hs : list Happening) (r : Running)
    : bool :=
  match hs with
  | [] => true
  | h :: hs' =>
      (negb (isConfirm h) || Nat.eqb (inFlight r) 0)
      && match asyncStep fuel h r with
         | Some r' => oneConfirmAtATime fuel hs' r'
         | None => true
         end
  end.

(** A session in which every confirmation is saved before the next
    event. *)
Fixpoint savedAtOnce (evs : list Event) : list Happening :=
  match evs with
  | [] => []
  | FormConfirm name phone note newId createdAt :: evs' =>
      Click (FormConfirm name phone note newId createdAt) :: SaveDone
      :: savedAtOnce evs'
  | ev :: evs' => Click ev :: savedAtOnce evs'
  end.

(** The records of a session, without the selections. *)
Definition recordsSound (settings : Settings) (st : AppState) : Prop :=
  st_settings st = settings
  /\ Forall (bookedOnGrid settings) (st_reservations st)
  /\ withinCapacity settings (st_reservations st)
  /\ (forall p, selectedProduct st = Some p -> In p PRODUCTS).

(** The form on the screen: the half-day product on New Year's Day at
    10:00, with one half-day booking at that time already in the set. *)
Definition formShown : AppState :=
  mkAppState [firstHalf] DEFAULT_SETTINGS TabReserve
    (Some newYear) (Some halfProduct) (Some "10:00").

(** A session that starts with one half-day booking at 10:00 on New
    Year's Day: the half-day product is picked for the same time, and the
    confirm button is clicked twice before the first save is done. *)
Definition doubleClickSession : list Happening :=
  [ Click (ProductClick 1); Click (DayClick newYear false);
    Click (SlotClick 2);
    Click (FormConfirm "Sato" "06-0000-0000" "" "k3j9x0q2a" "t0");
    Click (FormConfirm "Sato" "06-0000-0000" "" "m7c1v5z8e" "t1");
    SaveDone; SaveDone ].

(** [bookingSession] with its save. *)
Definition savedSession : list Happening :=
  [ Click (ProductClick 1); Click (DayClick newYear false);
    Click (SlotClick 2);
    Click (FormConfirm "Sato" "06-0000-0000" "" "k3j9x0q2a" "t0");
    Click FormBack; SaveDone;
    Click (ListCancelClick "k3j9x0q2a" false) ].

(** ** Dates *)

(** [fmtDate], on the three numbers it reads from the date:
    [d.getFullYear()], [d.getMonth()] and [d.getDate()]. *)
Definition fmtDate (fullYear month date : Z) : string :=
  (Js.toString fullYear ++ "-" ++ pad2 (month + 1) ++ "-" ++ pad2 date)%string.

(** [parseDate], up to the construction of the date: the three arguments
    it hands to [new Date(y, m - 1, d)], or [None] when one of them is
    [NaN] (an invalid date). *)
Definition parseDate (s : string) : option (Z * Z * Z) :=
  match map Js.toNumber (Js.split "-" s) with
  | Some y :: Some m :: Some d :: _ => Some (y, m - 1, d)
  | _ => None
  end.

(** A string without the separator of the date strings. *)
Definition dash_free (s : string) : Prop :=
  Forall (fun c => c <> "-"%char) (list_ascii_of_string s).

(** ** Data for the examples of the further results *)

(** A configuration that closes when it opens. *)
Definition closedSettings : Settings :=
  {| maxCapacity := 6; openHour := 9; openMin := 0;
     closeHour := 9; closeMin := 0; slotIntervalMin := 30;
     calendarMonths := 3; holidays := [] |}.

Definition halfPastTen : Slot := mkSlot 10 30 "10:30".

Definition sampleInfo : BookingInfo :=
  mkBookingInfo "Sato" "06-0000-0000" "" "10:00" "12:00" newYear
    "half" "ハーフ" 3 120.

(** The state at the end of [bookingSession]. *)
Definition bookedAndCancelled : AppState :=
  mkAppState
    [ mkReservation "k3j9x0q2a" "Sato" "06-0000-0000" "" "10:00" "12:00"
        newYear "half" "ハーフ" 3 120 "cancelled" "t0" ]
    DEFAULT_SETTINGS TabList None None None.

Definition newYearEditor : HolidayEditor :=
  mkHolidayEditor DEFAULT_SETTINGS newYear.

(** ** Round trip of the time labels *)

Lemma uint_string_digits (d : uint) :
  colon_free (NilEmpty.string_of_uint d).
Proof.
  unfold colon_free.
  induction d; simpl; constructor; try assumption; discriminate.
Qed.

Lemma uint_string_nonempty (d : uint) :
  (1 <= String.length (NilZero.string_of_uint d))%nat.
Proof. destruct d; simpl; lia. Qed.

Lemma nilzero_digits (d : uint) :
  colon_free (NilZero.string_of_uint d).
Proof.
  destruct d; try apply uint_string_digits.
  unfold colon_free; simpl. constructor; [discriminate | constructor].
Qed.

Lemma toString_digits (n : Z) : colon_free (Js.toString n).
Proof.
  unfold Js.toString. destruct (Z.to_int n) as [d | d]; simpl.
  - apply nilzero_digits.
  - unfold colon_free. simpl. constructor; [discriminate |].
    apply nilzero_digits.
Qed.

Lemma colon_free_app (s t : string) :
  colon_free s -> colon_free t -> colon_free (s ++ t).
Proof.
  unfold colon_free. induction s as [| c s IH]; simpl; intros Hs Ht.
  - exact Ht.
  - inversion Hs; subst. constructor; auto.
Qed.

Lemma pad2_digits (n : Z) : colon_free (pad2 n).
Proof.
  unfold pad2, Js.padStart. apply colon_free_app.
  - generalize (2 - String.length (Js.toString n))%nat as k.
    unfold colon_free.
    induction k; simpl; constructor; [discriminate | assumption].
  - apply toString_digits.
Qed.

Lemma split_digits (s : string) :
  colon_free s -> Js.split ":" s = [s].
Proof.
  unfold colon_free. induction s as [| c s IH]; simpl; intros H.
  - reflexivity.
  - inversion H as [| ? ? Hc Hs]; subst.
    destruct (Ascii.eqb_spec c ":") as [-> | _]; [contradiction |].
    rewrite IH by assumption. reflexivity.
Qed.

Lemma split_colon (s t : string) :
  colon_free s -> Js.split ":" (s ++ ":" ++ t) = s :: Js.split ":" t.
Proof.
  unfold colon_free. induction s as [| c s IH]; simpl; intros H.
  - reflexivity.
  - inversion H as [| ? ? Hc Hs]; subst.
    destruct (Ascii.eqb_spec c ":") as [-> | _]; [contradiction |].
    simpl in IH. rewrite IH by assumption. reflexivity.
Qed.

(** Leading zeros do not change what [Number] reads. *)
Lemma toNumber_unsigned (d : uint) :
  d <> Nil ->
  Js.toNumber (NilEmpty.string_of_uint d) = Some (Z.of_uint d).
Proof.
  intros Hd. destruct d; try contradiction; simpl;
    rewrite NilEmpty.usu; reflexivity.
Qed.

Lemma toNumber_zero_unsigned (d : uint) :
  Js.toNumber (String "0" (NilEmpty.string_of_uint d)) = Some (Z.of_uint d).
Proof. simpl. rewrite NilEmpty.usu. reflexivity. Qed.

Lemma toNumber_pad2 (n : Z) : Js.toNumber (pad2 n) = Some n.
Proof.
  unfold pad2, Js.padStart, Js.toString.
  destruct n as [| p | p]; [reflexivity | |].
  - cbn [Z.to_int NilZero.string_of_int].
    pose proof (DecimalPos.Unsigned.to_uint_nonnil p) as Hnn.
    pose proof (DecimalPos.Unsigned.of_to p) as Hof.
    assert (Hz : Z.of_uint (Pos.to_uint p) = Z.pos p)
      by (unfold Z.of_uint; rewrite Hof; reflexivity).
    destruct (Pos.to_uint p) as [| d | d | d | d | d | d | d | d | d | d ] eqn:E;
      try contradiction; clear Hnn;
      cbn [NilZero.string_of_uint];
      match goal with
      | |- context [NilEmpty.string_of_uint ?u] =>
          change (NilEmpty.string_of_uint u)
            with (String (match u with D0 _ => "0" | D1 _ => "1" | D2 _ => "2"
                          | D3 _ => "3" | D4 _ => "4" | D5 _ => "5"
                          | D6 _ => "6" | D7 _ => "7" | D8 _ => "8"
                          | _ => "9" end)%char (NilEmpty.string_of_uint d))
      end;
      cbn [String.length];
      destruct (String.length (NilEmpty.string_of_uint d)) as [| k];
      cbn [Nat.sub repeat string_of_list_ascii String.append];
      rewrite <- Hz.
    all: try (rewrite <- toNumber_zero_unsigned; reflexivity).
    all: try (rewrite <- toNumber_unsigned by discriminate; reflexivity).
  - cbn [Z.to_int NilZero.string_of_int].
    pose proof (uint_string_nonempty (Pos.to_uint p)) as Hlen.
    cbn [String.length].
    replace (2 - S (String.length (NilZero.string_of_uint (Pos.to_uint p))))%nat
      with 0%nat by lia.
    cbn [repeat string_of_list_ascii].
    change (Js.toNumber (String "-" (NilZero.string_of_uint (Pos.to_uint p)))
            = Some (Z.neg p)).
    cbn [Js.toNumber NilZero.int_of_string Ascii.eqb Bool.eqb].
    rewrite NilZero.usu by apply DecimalPos.Unsigned.to_uint_nonnil.
    cbn [option_map Z.of_int]. unfold Z.of_uint.
    rewrite DecimalPos.Unsigned.of_to. reflexivity.
Qed.

Lemma timeToMinutes_fmtTime (h m : Z) :
  timeToMinutes (fmtTime h m) = Some (h * 60 + m).
Proof.
  unfold timeToMinutes, fmtTime.
  rewrite split_colon by apply pad2_digits.
  rewrite split_digits by apply pad2_digits.
  cbn [map]. rewrite !toNumber_pad2. reflexivity.
Qed.

(** For an instant that is not negative, the label [canBook] builds reads
    back as the instant. *)
Lemma timeToMinutes_labelOfMinutes (m : Z) :
  0 <= m -> timeToMinutes (labelOfMinutes m) = Some m.
Proof.
  intros Hm. unfold labelOfMinutes. rewrite timeToMinutes_fmtTime.
  f_equal. rewrite Z.rem_mod_nonneg by lia.
  pose proof (Z.div_mod m 60 ltac:(lia)). lia.
Qed.


(** ** Occupancy *)

Section Occupancy.

Variables (date slotLabel : string).

Lemma reduce_contribution (l : list Reservation) (acc : Z) :
  fold_left
    (fun sum r => if coversSlot slotLabel r then sum + r_requiredSlots r else sum)
    (List.filter (onDateConfirmed date) l) acc
  = acc + sumZ (map (contribution date slotLabel) l).
Proof.
  revert acc. induction l as [| r l IH]; intros acc; simpl.
  - lia.
  - unfold contribution at 1.
    destruct (onDateConfirmed date r); simpl.
    + rewrite IH. destruct (coversSlot slotLabel r); lia.
    + rewrite IH. lia.
Qed.

Lemma getSlotOccupancy_sum (l : list Reservation) :
  getSlotOccupancy date slotLabel l = sumZ (map (contribution date slotLabel) l).
Proof.
  unfold getSlotOccupancy.
  change (fun r => String.eqb (r_date r) date
                   && String.eqb (r_status r) "confirmed")
    with (onDateConfirmed date).
  rewrite reduce_contribution. lia.
Qed.

Lemma sumZ_app (l1 l2 : list Z) : sumZ (l1 ++ l2) = sumZ l1 + sumZ l2.
Proof. induction l1; simpl; lia. Qed.

Lemma getSlotOccupancy_insert (l1 l2 : list Reservation) (r : Reservation) :
  getSlotOccupancy date slotLabel (l1 ++ r :: l2)
  = getSlotOccupancy date slotLabel (l1 ++ l2) + contribution date slotLabel r.
Proof.
  rewrite !getSlotOccupancy_sum, !map_app, !sumZ_app. simpl. lia.
Qed.

Lemma contribution_nonneg (r : Reservation) :
  0 <= r_requiredSlots r -> 0 <= contribution date slotLabel r.
Proof. unfold contribution. destruct (_ && _); lia. Qed.

Lemma getSlotOccupancy_nonneg (l : list Reservation) :
  nonNegativeUnits l -> 0 <= getSlotOccupancy date slotLabel l.
Proof.
  rewrite getSlotOccupancy_sum.
  induction 1 as [| r l Hr _ IH]; simpl; [lia |].
  pose proof (contribution_nonneg r Hr). lia.
Qed.

Lemma contribution_cancelled (r : Reservation) :
  contribution date slotLabel (withStatusCancelled r) = 0.
Proof.
  unfold contribution, onDateConfirmed. simpl.
  rewrite andb_false_r. reflexivity.
Qed.

Lemma getSlotOccupancy_markCancelled (id : string) (l : list Reservation) :
  nonNegativeUnits l ->
  getSlotOccupancy date slotLabel (markCancelled id l)
  <= getSlotOccupancy date slotLabel l.
Proof.
  rewrite !getSlotOccupancy_sum.
  induction 1 as [| r l Hr _ IH]; simpl; [lia |].
  destruct (String.eqb (r_id r) id).
  - rewrite contribution_cancelled.
    pose proof (contribution_nonneg r Hr). lia.
  - lia.
Qed.

Variable slotMin : Z.
Hypothesis slotLabel_reads : timeToMinutes slotLabel = Some slotMin.

Lemma coversSlot_holdsInstant (r : Reservation) :
  coversSlot slotLabel r = holdsInstant slotMin r.
Proof.
  unfold coversSlot, holdsInstant. rewrite slotLabel_reads.
  destruct (timeToMinutes (r_startTime r)) as [s |];
    destruct (timeToMinutes (r_endTime r)) as [e |]; try reflexivity.
  rewrite Z.geb_leb. reflexivity.
Qed.

Lemma contribution_countedAt (r : Reservation) :
  contribution date slotLabel r
  = if countedAt date slotMin r then r_requiredSlots r else 0.
Proof.
  unfold contribution, countedAt, onDateConfirmed.
  rewrite coversSlot_holdsInstant.
  destruct (String.eqb (r_date r) date), (String.eqb (r_status r) "confirmed");
    reflexivity.
Qed.

Lemma getSlotOccupancy_occupancyAt (l : list Reservation) :
  getSlotOccupancy date slotLabel l = occupancyAt date slotMin l.
Proof.
  rewrite getSlotOccupancy_sum. unfold occupancyAt.
  induction l as [| r l IH]; simpl; [reflexivity |].
  rewrite contribution_countedAt, IH.
  destruct (countedAt date slotMin r); simpl; lia.
Qed.

End Occupancy.

Lemma occupancyAt_insert (date : string) (instant : Z)
    (l1 l2 : list Reservation) (r : Reservation) :
  occupancyAt date instant (l1 ++ r :: l2)
  = occupancyAt date instant (l1 ++ l2)
    + (if countedAt date instant r then r_requiredSlots r else 0).
Proof.
  unfold occupancyAt.
  rewrite !List.filter_app, !map_app, !sumZ_app. simpl.
  destruct (countedAt date instant r); simpl; lia.
Qed.

(** The occupancy of the label [canBook] builds for an instant is the
    occupancy at that instant. *)
Lemma getSlotOccupancy_labelOfMinutes (date : string) (m : Z)
    (l : list Reservation) :
  0 <= m ->
  getSlotOccupancy date (fmtTime (m / 60) (Z.rem m 60)) l = occupancyAt date m l.
Proof.
  intros Hm. apply getSlotOccupancy_occupancyAt.
  apply (timeToMinutes_labelOfMinutes m Hm).
Qed.

(** ** The loop of [canBook] *)

Section CanBookLoop.

Variables (date : string) (product : Product) (settings : Settings).

Lemma canBook_loop_fuel_mono (reservations : list Reservation) (endMin : Z)
    (fuel fuel' : nat) (m : Z) (b : bool) :
  canBook_loop fuel date product reservations settings endMin m = Some b ->
  (fuel <= fuel')%nat ->
  canBook_loop fuel' date product reservations settings endMin m = Some b.
Proof.
  revert fuel' m. induction fuel as [| fuel IH]; intros fuel' m; simpl.
  - discriminate.
  - intros H Hle. destruct fuel' as [| fuel']; [lia |]. simpl.
    destruct (m <? endMin); [| exact H].
    destruct (_ >? _); [exact H |].
    apply IH; [exact H | lia].
Qed.

(** The verdict depends on the reservations only through the occupancy at
    the instants from [m] up to [endMin]. *)
Lemma canBook_loop_ext (rs rs' : list Reservation) (endMin : Z) (fuel : nat) :
  0 <= slotIntervalMin settings ->
  forall m : Z,
    0 <= m ->
    (forall x, m <= x < endMin -> occupancyAt date x rs = occupancyAt date x rs') ->
    canBook_loop fuel date product rs settings endMin m
    = canBook_loop fuel date product rs' settings endMin m.
Proof.
  intros Hstep. induction fuel as [| fuel IH]; intros m Hm Hocc; simpl.
  - reflexivity.
  - destruct (Z.ltb_spec m endMin) as [Hlt | Hge]; [| reflexivity].
    rewrite !getSlotOccupancy_labelOfMinutes by assumption.
    rewrite (Hocc m) by lia.
    destruct (_ >? _); [reflexivity |].
    apply IH; [lia |]. intros x Hx. apply Hocc. lia.
Qed.

(** The verdict of the loop when the interval is positive: enough fuel
    gives a result, and the result is [false] exactly when one of the
    stepped instants below [endMin] is over capacity. *)
Lemma canBook_loop_spec (reservations : list Reservation) (endMin : Z) :
  0 < slotIntervalMin settings ->
  forall (n : nat) (m : Z),
    0 <= m ->
    (Z.to_nat (endMin - m) <= n)%nat ->
    exists b : bool,
      (forall fuel, (n < fuel)%nat ->
         canBook_loop fuel date product reservations settings endMin m = Some b)
      /\ (b = false <->
          exists k : Z,
            0 <= k
            /\ m + k * slotIntervalMin settings < endMin
            /\ maxCapacity settings
               < occupancyAt date (m + k * slotIntervalMin settings) reservations
                 + p_requiredSlots product).
Proof.
  intros Hstep. induction n as [| n IH]; intros m Hm Hn.
  - exists true. split.
    + intros [| fuel] Hf; [lia |]. simpl.
      destruct (Z.ltb_spec m endMin); [lia | reflexivity].
    + split; [discriminate |]. intros (k & Hk & Hlt & _). nia.
  - destruct (Z.ltb_spec m endMin) as [Hlt | Hge].
    + destruct (Z.ltb_spec (maxCapacity settings)
                  (occupancyAt date m reservations + p_requiredSlots product))
        as [Hover | Hfit].
      * exists false. split.
        -- intros [| fuel] Hf; [lia |]. simpl.
           destruct (Z.ltb_spec m endMin); [| lia].
           rewrite getSlotOccupancy_labelOfMinutes by assumption.
           rewrite Z.gtb_ltb.
           destruct (Z.ltb_spec (maxCapacity settings)
                       (occupancyAt date m reservations + p_requiredSlots product));
             [reflexivity | lia].
        -- split; [intros _ | reflexivity].
           exists 0. rewrite Z.mul_0_l, Z.add_0_r. repeat split; [lia | assumption..].
      * destruct (IH (m + slotIntervalMin settings)) as (b & Hrun & Hiff);
          [lia | lia |].
        exists b. split.
        -- intros [| fuel] Hf; [lia |]. simpl.
           destruct (Z.ltb_spec m endMin); [| lia].
           rewrite getSlotOccupancy_labelOfMinutes by assumption.
           rewrite Z.gtb_ltb.
           destruct (Z.ltb_spec (maxCapacity settings)
                       (occupancyAt date m reservations + p_requiredSlots product));
             [lia |].
           apply Hrun. lia.
        -- rewrite Hiff. split.
           ++ intros (k & Hk & Hklt & Hkover). exists (k + 1).
              replace (m + (k + 1) * slotIntervalMin settings)
                with (m + slotIntervalMin settings + k * slotIntervalMin settings)
                by lia.
              repeat split; [lia | assumption..].
           ++ intros (k & Hk & Hklt & Hkover).
              destruct (Z.eq_dec k 0) as [-> | Hk0].
              ** rewrite Z.mul_0_l, Z.add_0_r in Hkover. lia.
              ** exists (k - 1).
                 replace (m + slotIntervalMin settings
                          + (k - 1) * slotIntervalMin settings)
                   with (m + k * slotIntervalMin settings) by lia.
                 repeat split; [lia | assumption..].
    + exists true. split.
      * intros [| fuel] Hf; [lia |]. simpl.
        destruct (Z.ltb_spec m endMin); [lia | reflexivity].
      * split; [discriminate |]. intros (k & Hk & Hklt & _). nia.
Qed.

End CanBookLoop.

(** Lower occupancy at every label never turns an admissible booking into
    an inadmissible one. *)
Lemma canBook_loop_antitone (date : string) (product : Product)
    (settings : Settings) (rs rs' : list Reservation) (endMin : Z) :
  (forall slotLabel,
     getSlotOccupancy date slotLabel rs' <= getSlotOccupancy date slotLabel rs) ->
  forall (fuel : nat) (m : Z),
    canBook_loop fuel date product rs settings endMin m = Some true ->
    canBook_loop fuel date product rs' settings endMin m = Some true.
Proof.
  intros Hle. induction fuel as [| fuel IH]; intros m; simpl.
  - discriminate.
  - destruct (m <? endMin); [| trivial].
    rewrite !Z.gtb_ltb.
    pose proof (Hle (fmtTime (m / 60) (Z.rem m 60))) as Hm.
    destruct (Z.ltb_spec (maxCapacity settings)
                (getSlotOccupancy date (fmtTime (m / 60) (Z.rem m 60)) rs
                 + p_requiredSlots product)); [discriminate |].
    destruct (Z.ltb_spec (maxCapacity settings)
                (getSlotOccupancy date (fmtTime (m / 60) (Z.rem m 60)) rs'
                 + p_requiredSlots product)); [lia |].
    apply IH.
Qed.

(** More fuel does not change a verdict. *)
Lemma canBook_fuel_mono (date startTime : string) (product : Product)
    (reservations : list Reservation) (settings : Settings)
    (fuel fuel' : nat) (b : bool) :
  canBook fuel date startTime product reservations settings = Some b ->
  (fuel <= fuel')%nat ->
  canBook fuel' date startTime product reservations settings = Some b.
Proof.
  unfold canBook. destruct (timeToMinutes startTime); [| trivial].
  destruct (_ >? _); [trivial |].
  apply canBook_loop_fuel_mono.
Qed.

(** ** The booking validator *)

(** C1.  For a start label that reads as a non-negative instant, a positive
    slot interval and a booking that ends no later than closing time,
    [canBook] returns a verdict, and the verdict is [false] exactly when
    one of the instants [startMin + k * slotIntervalMin] below
    [startMin + durationMin] has occupancy plus the product's units above
    [maxCapacity]; it is [true] otherwise.  The last stepped instant below
    the end is among the checked ones also when the duration is not a
    multiple of the interval.  Holidays play no part in the verdict. *)
Theorem canBook_exhaustive (date startTime : string) (startMin : Z)
    (product : Product) (reservations : list Reservation)
    (settings : Settings) :
  timeToMinutes startTime = Some startMin ->
  0 <= startMin ->
  0 < slotIntervalMin settings ->
  startMin + p_durationMin product
    <= closeHour settings * 60 + closeMin settings ->
  let endMin := startMin + p_durationMin product in
  let over (m : Z) :=
    maxCapacity settings
    < occupancyAt date m reservations + p_requiredSlots product in
  exists b : bool,
    (exists fuel0 : nat, forall fuel, (fuel0 <= fuel)%nat ->
       canBook fuel date startTime product reservations settings = Some b)
    /\ (forall fuel b',
          canBook fuel date startTime product reservations settings = Some b' ->
          b' = b)
    /\ (b = false <->
        exists k : Z,
          0 <= k /\ startMin + k * slotIntervalMin settings < endMin
          /\ over (startMin + k * slotIntervalMin settings))
    /\ (b = true <->
        forall k : Z,
          0 <= k -> startMin + k * slotIntervalMin settings < endMin ->
          ~ over (startMin + k * slotIntervalMin settings))
    /\ (forall kLast : Z,
          0 <= kLast ->
          startMin + kLast * slotIntervalMin settings < endMin ->
          endMin <= startMin + (kLast + 1) * slotIntervalMin settings ->
          over (startMin + kLast * slotIntervalMin settings) ->
          b = false).
Proof.
  intros Hread Hstart Hstep Hclose endMin over.
  destruct (canBook_loop_spec date product settings reservations endMin Hstep
              (Z.to_nat (endMin - startMin)) startMin Hstart (le_n _))
    as (b & Hrun & Hiff).
  assert (Henough : forall fuel, (S (Z.to_nat (endMin - startMin)) <= fuel)%nat ->
            canBook fuel date startTime product reservations settings = Some b).
  { intros fuel Hfuel. unfold canBook. rewrite Hread. rewrite Z.gtb_ltb.
    destruct (Z.ltb_spec (closeHour settings * 60 + closeMin settings)
                (startMin + p_durationMin product)); [lia |].
    apply Hrun. lia. }
  exists b. split; [| split; [| split; [exact Hiff | split]]].
  - exists (S (Z.to_nat (endMin - startMin))). exact Henough.
  - intros fuel b' Hb'.
    pose proof (canBook_fuel_mono _ _ _ _ _ fuel
                  (Nat.max fuel (S (Z.to_nat (endMin - startMin)))) b' Hb'
                  (Nat.le_max_l _ _)) as Hmore.
    rewrite Henough in Hmore by apply Nat.le_max_r.
    congruence.
  - split.
    + intros -> k Hk Hlt Hover.
      assert (true = false) by (apply Hiff; exists k; auto). discriminate.
    + intros Hall. destruct b; [reflexivity |].
      destruct Hiff as [Hex _]. destruct (Hex eq_refl) as (k & Hk & Hlt & Hover).
      exfalso. exact (Hall k Hk Hlt Hover).
  - intros kLast Hk Hlt _ Hover. apply Hiff. exists kLast. auto.
Qed.

(** C4.  When the start label reads as an instant and the instant plus the
    product's duration lies after closing time, [canBook] returns [false]
    whatever the reservations, the capacity and the fuel are. *)
Theorem canBook_rejects_after_close (fuel : nat) (date startTime : string)
    (startMin : Z) (product : Product) (reservations : list Reservation)
    (settings : Settings) :
  timeToMinutes startTime = Some startMin ->
  closeHour settings * 60 + closeMin settings
    < startMin + p_durationMin product ->
  canBook fuel date startTime product reservations settings = Some false.
Proof.
  intros Hread Hlate. unfold canBook. rewrite Hread, Z.gtb_ltb.
  destruct (Z.ltb_spec (closeHour settings * 60 + closeMin settings)
              (startMin + p_durationMin product)); [reflexivity | lia].
Qed.

(** ** The occupancy calculator *)

(** C2.  For a slot label that reads as the instant [slotMin],
    [getSlotOccupancy] is the sum of [requiredSlots] over the reservations
    that are confirmed, on the queried date, and whose times satisfy
    [startTime <= slotMin < endTime]; a reservation that ends at the
    queried instant adds nothing; and a booking that starts where a
    reservation ends, or ends where a reservation starts, gets the same
    verdict from [canBook] with and without that reservation. *)
Theorem getSlotOccupancy_half_open (date slotLabel : string) (slotMin : Z)
    (reservations : list Reservation) :
  timeToMinutes slotLabel = Some slotMin ->
  getSlotOccupancy date slotLabel reservations
    = occupancyAt date slotMin reservations
  /\ (forall r l1 l2,
        reservations = (l1 ++ r :: l2)%list ->
        timeToMinutes (r_endTime r) = Some slotMin ->
        getSlotOccupancy date slotLabel reservations
        = getSlotOccupancy date slotLabel (l1 ++ l2))
  /\ (forall fuel product settings r l1 l2 t,
        reservations = (l1 ++ r :: l2)%list ->
        0 <= slotMin ->
        0 <= slotIntervalMin settings ->
        (timeToMinutes (r_endTime r) = Some t /\ t <= slotMin)
        \/ (timeToMinutes (r_startTime r) = Some t
            /\ slotMin + p_durationMin product <= t) ->
        canBook fuel date slotLabel product reservations settings
        = canBook fuel date slotLabel product (l1 ++ l2) settings).
Proof.
  intros Hread. split; [| split].
  - apply getSlotOccupancy_occupancyAt. exact Hread.
  - intros r l1 l2 -> Hend.
    rewrite !(getSlotOccupancy_occupancyAt date slotLabel slotMin Hread).
    rewrite occupancyAt_insert.
    unfold countedAt, holdsInstant. rewrite Hend.
    destruct (timeToMinutes (r_startTime r));
      rewrite ?Z.ltb_irrefl, ?andb_false_r; lia.
  - intros fuel product settings r l1 l2 t -> Hmin Hstep Htouch.
    unfold canBook. rewrite Hread.
    destruct (_ >? _); [reflexivity |].
    apply canBook_loop_ext; [assumption | assumption |].
    intros x Hx. rewrite occupancyAt_insert.
    unfold countedAt, holdsInstant.
    destruct Htouch as [[Ht Hle] | [Ht Hle]]; rewrite Ht.
    + destruct (timeToMinutes (r_startTime r)); rewrite ?andb_false_r; [| lia].
      destruct (Z.ltb_spec x t); [lia |]. rewrite !andb_false_r. lia.
    + destruct (timeToMinutes (r_endTime r)); rewrite ?andb_false_r; [| lia].
      destruct (Z.leb_spec t x); [lia |]. simpl. rewrite andb_false_r. lia.
Qed.

(** C7.  Adding a confirmed reservation on the queried date that covers the
    queried slot raises the occupancy by its units, so never lowers it when
    the units are not negative; a reservation whose status is cancelled can
    be added or removed without changing the occupancy; and after
    [handleCancel]'s update of the set the occupancy of every slot is at
    most what it was, so every booking [canBook] admitted before is still
    admitted. *)
Theorem getSlotOccupancy_monotone (date slotLabel : string)
    (reservations : list Reservation) :
  nonNegativeUnits reservations ->
  (forall r l1 l2,
     reservations = (l1 ++ l2)%list ->
     0 <= r_requiredSlots r ->
     r_status r = "confirmed" -> r_date r = date ->
     coversSlot slotLabel r = true ->
     getSlotOccupancy date slotLabel (l1 ++ r :: l2)
       = getSlotOccupancy date slotLabel reservations + r_requiredSlots r
     /\ getSlotOccupancy date slotLabel reservations
        <= getSlotOccupancy date slotLabel (l1 ++ r :: l2))
  /\ (forall r l1 l2,
        reservations = (l1 ++ l2)%list ->
        r_status r = "cancelled" ->
        getSlotOccupancy date slotLabel (l1 ++ r :: l2)
        = getSlotOccupancy date slotLabel reservations)
  /\ (forall id,
        getSlotOccupancy date slotLabel (markCancelled id reservations)
        <= getSlotOccupancy date slotLabel reservations)
  /\ (forall id fuel startTime product settings,
        canBook fuel date startTime product reservations settings = Some true ->
        canBook fuel date startTime product
          (markCancelled id reservations) settings = Some true).
Proof.
  intros Hnn. split; [| split; [| split]].
  - intros r l1 l2 -> Hr Hst Hd Hcov.
    rewrite getSlotOccupancy_insert.
    unfold contribution, onDateConfirmed.
    rewrite Hst, Hd, Hcov, String.eqb_refl. simpl. lia.
  - intros r l1 l2 -> Hst.
    rewrite getSlotOccupancy_insert.
    unfold contribution, onDateConfirmed. rewrite Hst. simpl.
    rewrite andb_false_r. simpl. lia.
  - intros id. apply getSlotOccupancy_markCancelled. exact Hnn.
  - intros id fuel startTime product settings. unfold canBook.
    destruct (timeToMinutes startTime); [| trivial].
    destruct (_ >? _); [trivial |].
    apply canBook_loop_antitone.
    intros l. apply getSlotOccupancy_markCancelled. exact Hnn.
Qed.

(** ** Cancellation *)

(** C10.  [handleCancel]'s update keeps the length and the order of the
    set; at every position the record keeps all its fields except possibly
    [status]; a record whose [id] is not the cancelled one is unchanged,
    and a record whose [id] is the cancelled one gets status
    ["cancelled"]. *)
Theorem markCancelled_frame (id : string) (reservations : list Reservation) :
  length (markCancelled id reservations) = length reservations
  /\ forall (i : nat) (r : Reservation),
       reservations !! i = Some r ->
       exists r' : Reservation,
         markCancelled id reservations !! i = Some r'
         /\ r_id r' = r_id r /\ r_name r' = r_name r
         /\ r_phone r' = r_phone r /\ r_note r' = r_note r
         /\ r_startTime r' = r_startTime r /\ r_endTime r' = r_endTime r
         /\ r_date r' = r_date r /\ r_productId r' = r_productId r
         /\ r_productName r' = r_productName r
         /\ r_requiredSlots r' = r_requiredSlots r
         /\ r_durationMin r' = r_durationMin r
         /\ r_createdAt r' = r_createdAt r
         /\ (r_id r = id -> r_status r' = "cancelled")
         /\ (r_id r <> id -> r' = r).
Proof.
  split.
  - unfold markCancelled. apply length_map.
  - intros i r Hi. unfold markCancelled.
    rewrite list_lookup_fmap, Hi. simpl.
    destruct (String.eqb_spec (r_id r) id) as [Heq | Hne].
    + exists (withStatusCancelled r). simpl.
      repeat split; try reflexivity. intros Hne. contradiction.
    + exists r. repeat split; try reflexivity. intros Heq. contradiction.
Qed.

(** ** The slot grid generator *)

Section SlotGrid.

Variable settings : Settings.
Variable endTotal : Z.

(** The carry of whole hours keeps the minute of the day. *)
Lemma carry_hours (h m' : Z) :
  60 <= m' -> (h + m' / 60) * 60 + Z.rem m' 60 = h * 60 + m'.
Proof.
  intros Hm. rewrite Z.rem_mod_nonneg by lia.
  pose proof (Z.div_mod m' 60 ltac:(lia)). lia.
Qed.

Lemma generateTimeSlots_loop_done (fuel : nat) (h m : Z) (acc : list Slot) :
  endTotal <= h * 60 + m ->
  generateTimeSlots_loop (S fuel) settings endTotal h m acc = Some acc.
Proof.
  intros Hge. simpl.
  destruct (Z.ltb_spec (h * 60 + m) endTotal); [lia | reflexivity].
Qed.

(** With a positive interval the loop ends, and what it appends is the run
    of slots at [h * 60 + m], [h * 60 + m + interval], ... below
    [endTotal]. *)
Lemma generateTimeSlots_loop_spec :
  0 < slotIntervalMin settings ->
  forall (n : nat) (h m : Z) (acc : list Slot),
    (Z.to_nat (endTotal - (h * 60 + m)) <= n)%nat ->
    exists new : list Slot,
      (forall fuel, (n < fuel)%nat ->
         generateTimeSlots_loop fuel settings endTotal h m acc
         = Some (acc ++ new)%list)
      /\ (forall (k : nat) (s : Slot),
            new !! k = Some s ->
            slotOffset s = h * 60 + m + Z.of_nat k * slotIntervalMin settings
            /\ slotOffset s < endTotal
            /\ label s = fmtTime (hour s) (min s))
      /\ endTotal
         <= h * 60 + m + Z.of_nat (length new) * slotIntervalMin settings
      /\ (endTotal <= h * 60 + m -> new = []).
Proof.
  intros Hstep. induction n as [| n IH]; intros h m acc Hn.
  - exists []. rewrite app_nil_r.
    split; [| split; [| split]]; [| intros k s Hk | simpl; lia | reflexivity].
    + intros [| fuel] Hf; [lia |].
      apply generateTimeSlots_loop_done. lia.
    + rewrite lookup_nil in Hk. discriminate.
  - destruct (Z.ltb_spec (h * 60 + m) endTotal) as [Hlt | Hge].
    + set (s0 := mkSlot h m (fmtTime h m)).
      set (m' := m + slotIntervalMin settings).
      assert (Hnext : exists h1 m1,
                 h1 * 60 + m1 = h * 60 + m + slotIntervalMin settings
                 /\ forall fuel acc',
                      generateTimeSlots_loop (S fuel) settings endTotal h m acc'
                      = generateTimeSlots_loop fuel settings endTotal h1 m1
                          (acc' ++ [s0])%list).
      { destruct (Z.leb_spec 60 m') as [Hcarry | Hno].
        - exists (h + m' / 60), (Z.rem m' 60). split.
          + rewrite carry_hours by assumption. unfold m'. lia.
          + intros fuel acc'. simpl.
            destruct (Z.ltb_spec (h * 60 + m) endTotal); [| lia].
            fold m'. rewrite Z.geb_leb.
            destruct (Z.leb_spec 60 m'); [reflexivity | lia].
        - exists h, m'. split; [unfold m'; lia |].
          intros fuel acc'. simpl.
          destruct (Z.ltb_spec (h * 60 + m) endTotal); [| lia].
          fold m'. rewrite Z.geb_leb.
          destruct (Z.leb_spec 60 m'); [lia | reflexivity]. }
      destruct Hnext as (h1 & m1 & Htot & Hunfold).
      destruct (IH h1 m1 (acc ++ [s0])%list) as (new & Hrun & Hslots & Hlen & _);
        [lia |].
      exists (s0 :: new).
      split; [| split; [| split]]; [| intros k s Hk | | lia].
      * intros [| fuel] Hf; [lia |].
        rewrite Hunfold, Hrun by lia.
        rewrite <- app_assoc. reflexivity.
      * destruct k as [| k]; simpl in Hk.
        -- injection Hk as <-. unfold slotOffset. simpl.
           split; [lia | split; [exact Hlt | reflexivity]].
        -- destruct (Hslots k s Hk) as (Hoff & Hbelow & Hlabel).
           split; [rewrite Hoff, Htot; lia | split; assumption].
      * rewrite Htot in Hlen. simpl length. lia.
    + exists []. rewrite app_nil_r.
      split; [| split; [| split]]; [| intros k s Hk | simpl; lia | reflexivity].
      * intros [| fuel] Hf; [lia |].
        apply generateTimeSlots_loop_done. lia.
      * rewrite lookup_nil in Hk. discriminate.
Qed.

End SlotGrid.

(** The grid of a configuration with a positive interval. *)
Lemma generateTimeSlots_grid (settings : Settings) :
  0 < slotIntervalMin settings ->
  exists slots : list Slot,
    (exists fuel0 : nat, forall fuel, (fuel0 <= fuel)%nat ->
       generateTimeSlots fuel settings = Some slots)
    /\ (forall (k : nat) (s : Slot),
          slots !! k = Some s ->
          slotOffset s
            = openTotal settings + Z.of_nat k * slotIntervalMin settings
          /\ slotOffset s < closeTotal settings
          /\ timeToMinutes (label s) = Some (slotOffset s))
    /\ closeTotal settings
       <= openTotal settings
          + Z.of_nat (length slots) * slotIntervalMin settings
    /\ (closeTotal settings <= openTotal settings -> slots = []).
Proof.
  intros Hstep.
  destruct (generateTimeSlots_loop_spec settings (closeTotal settings) Hstep
              (Z.to_nat (closeTotal settings - openTotal settings))
              (openHour settings) (openMin settings) [] (le_n _))
    as (slots & Hrun & Hslots & Hlen & Hempty).
  exists slots.
  split; [| split; [| split]]; [| intros k s Hk | exact Hlen | exact Hempty].
  - exists (S (Z.to_nat (closeTotal settings - openTotal settings))).
    intros fuel Hf. unfold generateTimeSlots.
    apply (Hrun fuel). unfold openTotal in *. lia.
  - destruct (Hslots k s Hk) as (Hoff & Hbelow & Hlabel).
    split; [exact Hoff | split; [exact Hbelow |]].
    rewrite Hlabel. apply timeToMinutes_fmtTime.
Qed.

(** The result does not depend on how much fuel was enough. *)
Lemma generateTimeSlots_loop_fuel_mono (settings : Settings) (endTotal : Z)
    (fuel fuel' : nat) (h m : Z) (acc slots : list Slot) :
  generateTimeSlots_loop fuel settings endTotal h m acc = Some slots ->
  (fuel <= fuel')%nat ->
  generateTimeSlots_loop fuel' settings endTotal h m acc = Some slots.
Proof.
  revert fuel' h m acc. induction fuel as [| fuel IH]; intros fuel' h m acc; simpl.
  - discriminate.
  - intros H Hle. destruct fuel' as [| fuel']; [lia |]. simpl.
    destruct (h * 60 + m <? endTotal); [| exact H].
    destruct (_ >=? _); (apply IH; [exact H | lia]).
Qed.

(** Without a positive interval the minute of the day never advances, and
    the loop does not end while it is before closing time. *)
Lemma generateTimeSlots_loop_diverges (settings : Settings) (endTotal : Z) :
  slotIntervalMin settings <= 0 ->
  forall (fuel : nat) (h m : Z) (acc : list Slot),
    h * 60 + m < endTotal ->
    generateTimeSlots_loop fuel settings endTotal h m acc = None.
Proof.
  intros Hstep. induction fuel as [| fuel IH]; intros h m acc Hlt; simpl.
  - reflexivity.
  - destruct (Z.ltb_spec (h * 60 + m) endTotal); [| lia].
    rewrite Z.geb_leb.
    destruct (Z.leb_spec 60 (m + slotIntervalMin settings)) as [Hcarry | Hno].
    + apply IH. rewrite carry_hours by assumption. lia.
    + apply IH. lia.
Qed.

Lemma generateTimeSlots_unique (settings : Settings) (fuel : nat)
    (slots' slots : list Slot) :
  generateTimeSlots fuel settings = Some slots' ->
  (exists fuel0 : nat, forall fuel, (fuel0 <= fuel)%nat ->
     generateTimeSlots fuel settings = Some slots) ->
  slots' = slots.
Proof.
  intros Hsome (fuel0 & Hrun).
  pose proof (generateTimeSlots_loop_fuel_mono _ _ fuel (Nat.max fuel fuel0)
                _ _ _ _ Hsome (Nat.le_max_l _ _)) as Hmore.
  fold (generateTimeSlots (Nat.max fuel fuel0) settings) in Hmore.
  rewrite (Hrun _ (Nat.le_max_r _ _)) in Hmore. congruence.
Qed.

(** C3.  With [openTime < closeTime] and a positive interval,
    [generateTimeSlots] returns a list of slots whose [k]-th offset is
    [openTime + k * slotIntervalMin]: the first is [openTime], the offsets
    grow strictly, and each lies in [openTime, closeTime).  The label of
    each slot reads back as its offset. *)
Theorem generateTimeSlots_within_hours (settings : Settings) :
  openTotal settings < closeTotal settings ->
  0 < slotIntervalMin settings ->
  exists slots : list Slot,
    (exists fuel0 : nat, forall fuel, (fuel0 <= fuel)%nat ->
       generateTimeSlots fuel settings = Some slots)
    /\ (forall (k : nat) (s : Slot),
          slots !! k = Some s ->
          slotOffset s
            = openTotal settings + Z.of_nat k * slotIntervalMin settings
          /\ openTotal settings <= slotOffset s < closeTotal settings
          /\ timeToMinutes (label s) = Some (slotOffset s))
    /\ (forall (j k : nat) (a b : Slot),
          slots !! j = Some a -> slots !! k = Some b -> (j < k)%nat ->
          slotOffset b - slotOffset a
            = Z.of_nat (k - j) * slotIntervalMin settings
          /\ slotOffset a < slotOffset b)
    /\ (exists s0 : Slot,
          slots !! 0%nat = Some s0 /\ slotOffset s0 = openTotal settings)
    /\ (forall fuel slots',
          generateTimeSlots fuel settings = Some slots' -> slots' = slots).
Proof.
  intros Hhours Hstep.
  destruct (generateTimeSlots_grid settings Hstep)
    as (slots & Hrun & Hslots & Hlen & _).
  exists slots. split; [exact Hrun |]. split; [| split; [| split]];
    [| | | intros fuel slots' Hslots';
           apply (generateTimeSlots_unique settings fuel slots' slots Hslots' Hrun)].
  - intros k s Hk. destruct (Hslots k s Hk) as (Hoff & Hlt & Hlabel).
    repeat split; try assumption. nia.
  - intros j k a b Hj Hk Hjk.
    destruct (Hslots j a Hj) as (Ha & _). destruct (Hslots k b Hk) as (Hb & _).
    split; nia.
  - destruct slots as [| s0 slots'].
    + simpl in Hlen. lia.
    + exists s0. split; [reflexivity |].
      destruct (Hslots 0%nat s0 eq_refl) as (Hoff & _). lia.
Qed.

(** The claim of C6 fails for a zero interval: the model of
    [generateTimeSlots] returns nothing on [zeroIntervalSettings], whatever
    the fuel. *)
Lemma generateTimeSlots_zero_interval_loops :
  ~ exists (fuel : nat) (slots : list Slot),
      generateTimeSlots fuel zeroIntervalSettings = Some slots.
Proof.
  intros (fuel & slots & H). unfold generateTimeSlots in H.
  rewrite generateTimeSlots_loop_diverges in H; [discriminate | | ];
    vm_compute; [discriminate | reflexivity].
Qed.

(** C6, amended.  [generateTimeSlots] returns when the interval is positive
    or closing time is not after opening time, and in the latter case it
    returns the empty list; with an interval that is not positive and
    opening time before closing time it returns for no amount of fuel.  Its
    only divisions are by the constant 60. *)
Theorem generateTimeSlots_termination (settings : Settings) :
  (0 < slotIntervalMin settings
   \/ closeTotal settings <= openTotal settings ->
   exists slots : list Slot,
     (exists fuel0 : nat, forall fuel, (fuel0 <= fuel)%nat ->
        generateTimeSlots fuel settings = Some slots)
     /\ (closeTotal settings <= openTotal settings -> slots = []))
  /\ (slotIntervalMin settings <= 0 ->
      openTotal settings < closeTotal settings ->
      forall fuel, generateTimeSlots fuel settings = None).
Proof.
  split.
  - intros [Hstep | Hclosed].
    + destruct (generateTimeSlots_grid settings Hstep)
        as (slots & Hrun & _ & _ & Hempty).
      exists slots. split; assumption.
    + exists []. split; [| reflexivity].
      exists 1%nat. intros [| fuel] Hf; [lia |].
      unfold generateTimeSlots.
      apply generateTimeSlots_loop_done. exact Hclosed.
  - intros Hstep Hhours fuel. unfold generateTimeSlots.
    apply generateTimeSlots_loop_diverges; assumption.
Qed.

(** ** The availability aggregator *)

Lemma totalAvail_sum (dateStr : string) (reservations : list Reservation)
    (settings : Settings) (slots : list Slot) :
  Forall (fun s => timeToMinutes (label s) = Some (slotOffset s)) slots ->
  totalAvail dateStr reservations settings slots
  = sumZ (map (freeUnits dateStr reservations settings) slots).
Proof.
  unfold totalAvail. intros Hlabels.
  enough (Hgen : forall acc,
             fold_left
               (fun total slot =>
                  let occ := getSlotOccupancy dateStr (label slot) reservations in
                  total + Z.max 0 (maxCapacity settings - occ))
               slots acc
             = acc + sumZ (map (freeUnits dateStr reservations settings) slots))
    by (rewrite Hgen; lia).
  induction Hlabels as [| s slots Hs _ IH]; intros acc; simpl.
  - lia.
  - rewrite IH. unfold freeUnits at 2.
    rewrite (getSlotOccupancy_occupancyAt dateStr (label s) (slotOffset s) Hs).
    lia.
Qed.

Lemma occupancyAt_nonneg (dateStr : string) (instant : Z)
    (reservations : list Reservation) :
  nonNegativeUnits reservations -> 0 <= occupancyAt dateStr instant reservations.
Proof.
  unfold occupancyAt. induction 1 as [| r l Hr _ IH]; simpl; [lia |].
  destruct (countedAt dateStr instant r); simpl; lia.
Qed.

Lemma freeUnits_sum_bounds (dateStr : string) (reservations : list Reservation)
    (settings : Settings) (slots : list Slot) :
  nonNegativeUnits reservations ->
  0 <= maxCapacity settings ->
  0 <= sumZ (map (freeUnits dateStr reservations settings) slots)
    <= Z.of_nat (length slots) * maxCapacity settings.
Proof.
  intros Hnn Hcap. induction slots as [| s slots IH].
  - simpl. lia.
  - cbn [map sumZ fold_right length].
    fold (sumZ (map (freeUnits dateStr reservations settings) slots)).
    pose proof (occupancyAt_nonneg dateStr (slotOffset s) reservations Hnn).
    unfold freeUnits at 1 3. lia.
Qed.

(** With a negative capacity no slot has free units. *)
Lemma freeUnits_sum_negative (dateStr : string) (reservations : list Reservation)
    (settings : Settings) (slots : list Slot) :
  nonNegativeUnits reservations ->
  maxCapacity settings < 0 ->
  sumZ (map (freeUnits dateStr reservations settings) slots) = 0.
Proof.
  intros Hnn Hcap. induction slots as [| s slots IH]; [reflexivity |].
  cbn [map sumZ fold_right].
  fold (sumZ (map (freeUnits dateStr reservations settings) slots)).
  pose proof (occupancyAt_nonneg dateStr (slotOffset s) reservations Hnn).
  rewrite IH. unfold freeUnits. lia.
Qed.

(** C9.  With [openTime < closeTime], a positive interval, a capacity that
    is not zero and reservations whose units are not negative,
    [getDateAvailability] returns the sum over the grid slots of
    [max(0, maxCapacity - occupancy)] divided by the number of slots times
    [maxCapacity], a number between 0 and 1.  The quotient is taken in the
    rationals.  The data model has positive capacities and units. *)
Theorem getDateAvailability_ratio (dateStr : string)
    (reservations : list Reservation) (settings : Settings) :
  openTotal settings < closeTotal settings ->
  0 < slotIntervalMin settings ->
  maxCapacity settings <> 0 ->
  nonNegativeUnits reservations ->
  exists (slots : list Slot) (q : Q),
    (exists fuel0 : nat, forall fuel, (fuel0 <= fuel)%nat ->
       generateTimeSlots fuel settings = Some slots
       /\ getDateAvailability fuel dateStr reservations settings
          = Some (Js.Finite q))
    /\ q = (inject_Z (sumZ (map (freeUnits dateStr reservations settings) slots))
            / inject_Z (Z.of_nat (length slots) * maxCapacity settings))%Q
    /\ (0 <= q)%Q /\ (q <= 1)%Q.
Proof.
  intros Hhours Hstep Hcap Hnn.
  destruct (generateTimeSlots_grid settings Hstep)
    as (slots & (fuel0 & Hrun) & Hslots & Hlen & _).
  assert (Hlabels : Forall (fun s => timeToMinutes (label s) = Some (slotOffset s))
                      slots).
  { apply Forall_lookup. intros k s Hk. apply (Hslots k s Hk). }
  assert (Hcount : 0 < Z.of_nat (length slots)) by nia.
  set (total := sumZ (map (freeUnits dateStr reservations settings) slots)).
  set (maxPossible := Z.of_nat (length slots) * maxCapacity settings).
  assert (Hnz : maxPossible <> 0) by (unfold maxPossible; nia).
  exists slots, (inject_Z total / inject_Z maxPossible)%Q.
  split; [| split; [reflexivity |]].
  - exists fuel0. intros fuel Hf. split; [apply Hrun; exact Hf |].
    unfold getDateAvailability. rewrite (Hrun fuel Hf).
    rewrite totalAvail_sum by assumption.
    fold total. fold maxPossible. unfold Js.div.
    destruct (Z.eqb_spec maxPossible 0); [contradiction | reflexivity].
  - destruct (Z.lt_total (maxCapacity settings) 0) as [Hneg | [Hzero | Hpos]];
      [| contradiction |].
    + assert (Htotal : total = 0)
        by (apply freeUnits_sum_negative; assumption).
      rewrite Htotal.
      assert (Hq : (inject_Z 0 / inject_Z maxPossible == 0)%Q)
        by (unfold Qdiv; apply Qmult_0_l).
      rewrite Hq. split; [apply Qle_refl | discriminate].
    + assert (Hmax : 0 < maxPossible) by (unfold maxPossible; nia).
      assert (Hbounds : 0 <= total <= maxPossible)
        by (apply freeUnits_sum_bounds; [assumption | lia]).
      split.
      * apply Qle_shift_div_l.
        -- change 0%Q with (inject_Z 0). rewrite <- Zlt_Qlt. exact Hmax.
        -- rewrite Qmult_0_l. change 0%Q with (inject_Z 0).
           rewrite <- Zle_Qle. lia.
      * apply Qle_shift_div_r.
        -- change 0%Q with (inject_Z 0). rewrite <- Zlt_Qlt. exact Hmax.
        -- rewrite Qmult_1_l. rewrite <- Zle_Qle. lia.
Qed.

(** ** The application: holidays *)

Lemma existsb_eqb_In (x : string) (l : list string) :
  existsb (String.eqb x) l = true <-> In x l.
Proof.
  rewrite existsb_exists. split.
  - intros (y & Hy & Heq). apply String.eqb_eq in Heq. subst. exact Hy.
  - intros Hx. exists x. split; [exact Hx | apply String.eqb_refl].
Qed.

Lemma bookingsOn_markCancelled (dateStr id : string) (l : list Reservation) :
  length (bookingsOn dateStr (markCancelled id l))
  = length (bookingsOn dateStr l).
Proof.
  unfold bookingsOn, markCancelled.
  induction l as [| r l IH]; simpl; [reflexivity |].
  destruct (String.eqb (r_id r) id); simpl;
    destruct (String.eqb (r_date r) dateStr); simpl; congruence.
Qed.

Lemma bookingsOn_other_date (dateStr : string) (l : list Reservation)
    (r : Reservation) :
  r_date r <> dateStr ->
  bookingsOn dateStr (l ++ [r]) = bookingsOn dateStr l.
Proof.
  intros Hne. unfold bookingsOn. rewrite List.filter_app. simpl.
  destruct (String.eqb_spec (r_date r) dateStr); [contradiction |].
  apply app_nil_r.
Qed.

Lemma calendarDayClick_holiday (past : bool) (dateStr : string) (st : AppState) :
  In dateStr (holidays (st_settings st)) ->
  calendarDayClick past dateStr st = st.
Proof.
  intros Hhol. unfold calendarDayClick.
  apply existsb_eqb_In in Hhol. rewrite Hhol.
  rewrite orb_true_r. reflexivity.
Qed.

(** Case analysis on the screen and the selections that [appStep] reads. *)
Ltac app_cases :=
  repeat case_match; simplify_eq; simpl; repeat split; try done; try congruence.

Lemma appStep_holiday (dateStr : string) (fuel : nat) (ev : Event)
    (st st' : AppState) :
  appStep fuel ev st = Some st' ->
  keepsHoliday dateStr ev = true ->
  In dateStr (holidays (st_settings st)) ->
  selectedDate st <> Some dateStr ->
  In dateStr (holidays (st_settings st'))
  /\ selectedDate st' <> Some dateStr
  /\ length (bookingsOn dateStr (st_reservations st'))
     = length (bookingsOn dateStr (st_reservations st)).
Proof.
  intros Hstep Hkeep Hhol Hsel.
  destruct ev as [d past | i | i | name phone note newId createdAt | | t
                  | id past | maxCap oH oM cH cM months hol | id];
    unfold appStep in Hstep; simpl in Hkeep.
  - destruct (match tab st with TabReserve => _ | _ => _ end);
      injection Hstep as <-; [| auto].
    unfold calendarDayClick.
    destruct (String.eqb_spec d dateStr) as [-> | Hne].
    + rewrite (proj2 (existsb_eqb_In _ _) Hhol), orb_true_r. simpl. auto.
    + destruct (negb _); simpl; [| auto].
      repeat split; [assumption | congruence].
  - app_cases.
  - app_cases.
  - app_cases.
    rewrite bookingsOn_other_date; [reflexivity |]. simpl. congruence.
  - app_cases.
  - app_cases.
  - app_cases.
    apply bookingsOn_markCancelled.
  - app_cases.
    apply existsb_eqb_In. exact Hkeep.
  - app_cases.
    apply bookingsOn_markCancelled.
Qed.

Lemma appRun_holiday (dateStr : string) (fuel : nat) (evs : list Event) :
  forall st st' : AppState,
    appRun fuel evs st = Some st' ->
    forallb (keepsHoliday dateStr) evs = true ->
    In dateStr (holidays (st_settings st)) ->
    selectedDate st <> Some dateStr ->
    In dateStr (holidays (st_settings st'))
    /\ selectedDate st' <> Some dateStr
    /\ length (bookingsOn dateStr (st_reservations st'))
       = length (bookingsOn dateStr (st_reservations st)).
Proof.
  induction evs as [| ev evs IH]; intros st st' Hrun Hkeep Hhol Hsel.
  - injection Hrun as <-. auto.
  - simpl in Hrun, Hkeep. apply andb_prop in Hkeep as [Hev Hevs].
    destruct (appStep fuel ev st) as [st1 |] eqn:Hstep; [| discriminate].
    destruct (appStep_holiday dateStr fuel ev st st1 Hstep Hev Hhol Hsel)
      as (Hhol1 & Hsel1 & Hlen1).
    destruct (IH st1 st' Hrun Hevs Hhol1 Hsel1) as (Hhol' & Hsel' & Hlen').
    repeat split; [assumption.. | congruence].
Qed.

(** [canBook] does not read the holidays. *)
Lemma canBook_loop_holidays (hol : list string) (date : string)
    (product : Product) (reservations : list Reservation)
    (settings : Settings) (endMin : Z) (fuel : nat) :
  forall m : Z,
    canBook_loop fuel date product reservations settings endMin m
    = canBook_loop fuel date product reservations
        (withHolidays hol settings) endMin m.
Proof.
  induction fuel as [| fuel IH]; intros m; simpl; [reflexivity |].
  rewrite IH. reflexivity.
Qed.

(** X27.  What the calendar's guard does ensure.  For a date among the
    holidays, the click on its day button leaves the state as it is,
    whatever the reservations and the capacity are: the date is not
    selected.  In a session that starts with another date or none
    selected, and in which the date stays among the holidays, the date is
    never selected and no reservation on it is added to the set.
    [canBook] itself returns the same verdict whatever the holidays are.
    The guard is the only place where the holidays are read on the way to
    a booking, and it does not cover a date that is selected already. *)
Lemma holiday_rejected_at_date_selection (dateStr : string) (st : AppState) :
  In dateStr (holidays (st_settings st)) ->
  (forall fuel past, appStep fuel (DayClick dateStr past) st = Some st)
  /\ (selectedDate st <> Some dateStr ->
      forall fuel evs st',
        forallb (keepsHoliday dateStr) evs = true ->
        appRun fuel evs st = Some st' ->
        selectedDate st' <> Some dateStr
        /\ length (bookingsOn dateStr (st_reservations st'))
           = length (bookingsOn dateStr (st_reservations st)))
  /\ (forall fuel startTime product reservations hol,
        canBook fuel dateStr startTime product reservations (st_settings st)
        = canBook fuel dateStr startTime product reservations
            (withHolidays hol (st_settings st))).
Proof.
  intros Hhol. split; [| split].
  - intros fuel past. simpl.
    rewrite calendarDayClick_holiday by assumption.
    destruct (match tab st with TabReserve => _ | _ => _ end); reflexivity.
  - intros Hsel fuel evs st' Hkeep Hrun.
    destruct (appRun_holiday dateStr fuel evs st st' Hrun Hkeep Hhol Hsel)
      as (_ & Hsel' & Hlen).
    split; assumption.
  - intros fuel startTime product reservations hol. unfold canBook.
    destruct (timeToMinutes startTime); [| reflexivity].
    simpl. destruct (_ >? _); [reflexivity |].
    apply canBook_loop_holidays.
Qed.

(** On a holiday with no reservations the validator alone admits the
    booking. *)
Example canBook_on_holiday :
  canBook 10 newYear "10:00" halfProduct [] holidaySettings = Some true.
Proof. vm_compute. reflexivity. Qed.

(** C5.  A booking request for a holiday is not always rejected.  A date
    that is selected while it is open, and that the settings editor then
    makes a holiday, stays selected: saving the settings does not clear the
    selection, and neither the slot picker, nor [canBook], nor the form,
    nor [handleConfirm] reads the holidays.  From the state in which the
    date is a holiday and nothing is booked, the click on a slot and the
    filled-in form add a confirmed reservation on that date. *)
Theorem holiday_request_accepted :
  lateHolidaySession = (selectedThenClosed ++ holidayRequest)%list
  /\ exists st st' : AppState,
       appRun 50 selectedThenClosed (initialState [] DEFAULT_SETTINGS)
       = Some st
       /\ In newYear (holidays (st_settings st))
       /\ st_reservations st = []
       /\ tab st = TabReserve
       /\ appRun 50 holidayRequest st = Some st'
       /\ In newYear (holidays (st_settings st'))
       /\ map r_date (st_reservations st') = [newYear]
       /\ map r_status (st_reservations st') = ["confirmed"]
       /\ appRun 50 lateHolidaySession (initialState [] DEFAULT_SETTINGS)
          = Some st'.
Proof.
  split; [reflexivity |].
  eexists. eexists.
  split; [vm_compute; reflexivity |].
  split; [left; reflexivity |].
  split; [reflexivity |].
  split; [reflexivity |].
  split; [vm_compute; reflexivity |].
  split; [left; reflexivity |].
  split; [reflexivity |].
  split; [reflexivity |].
  vm_compute. reflexivity.
Qed.

(** ** The application: cancel and delete *)

Lemma markCancelled_ids (id : string) (l : list Reservation) :
  map r_id (markCancelled id l) = map r_id l.
Proof.
  unfold markCancelled. induction l as [| r l IH]; simpl; [reflexivity |].
  rewrite IH. destruct (String.eqb (r_id r) id); reflexivity.
Qed.

Lemma markCancelled_inactive (id : string) (l : list Reservation) :
  isActive id (markCancelled id l) = false.
Proof.
  unfold isActive, markCancelled. induction l as [| r l IH]; simpl; [reflexivity |].
  rewrite IH, orb_false_r.
  destruct (String.eqb (r_id r) id) eqn:Hid; simpl; [reflexivity |].
  rewrite Hid. apply andb_false_r.
Qed.

Lemma appStep_keeps_records (fuel : nat) (ev : Event) (st st' : AppState) :
  appStep fuel ev st = Some st' ->
  (length (st_reservations st) <= length (st_reservations st'))%nat.
Proof.
  intros Hstep.
  destruct ev; unfold appStep in Hstep;
    repeat case_match; simplify_eq; simpl;
    unfold calendarDayClick, markCancelled;
    repeat case_match; simpl;
    rewrite ?length_app, ?length_map; simpl; lia.
Qed.

(** The claim of C8 fails on [adminState]: after the delete button of the
    administrator's list is used on reservation ["a"], the set still holds
    a record with that identifier. *)
Lemma admin_delete_keeps_record :
  exists st' : AppState,
    appStep 0 (AdminDeleteClick "a") adminState = Some st'
    /\ ~ Forall (fun r => r_id r <> "a") (st_reservations st')
    /\ map r_status (st_reservations st') = ["cancelled"].
Proof.
  eexists. split; [vm_compute; reflexivity |]. split; [| reflexivity].
  intros Hall. inversion Hall as [| r l Hr _]; subst.
  apply Hr. reflexivity.
Qed.

(** C8, amended.  The delete button of the administrator's list runs the
    handler of the cancel button: for a confirmed reservation it keeps
    every record of the set, in order and with its identifier, and leaves
    no confirmed reservation with the given identifier.  No event of the
    application makes the set shorter. *)
Theorem admin_delete_is_cancel (id : string) (st : AppState) :
  let after := st_reservations (onDeleteReservation id st) in
  onDeleteReservation id st = onCancel id st
  /\ (forall fuel,
        tab st = TabAdmin -> isActive id (st_reservations st) = true ->
        appStep fuel (AdminDeleteClick id) st
        = Some (onDeleteReservation id st))
  /\ length after = length (st_reservations st)
  /\ map r_id after = map r_id (st_reservations st)
  /\ isActive id after = false
  /\ (forall fuel ev st',
        appStep fuel ev st = Some st' ->
        (length (st_reservations st) <= length (st_reservations st'))%nat).
Proof.
  simpl. repeat split.
  - intros fuel Htab Hact. rewrite Htab, Hact. reflexivity.
  - unfold markCancelled. apply length_map.
  - apply markCancelled_ids.
  - apply markCancelled_inactive.
  - intros fuel ev st'. apply appStep_keeps_records.
Qed.

(** ** Scenarios *)

(** Capacity 6, hours 09:00 to 19:00, interval 30: beside a half-day
    booking at 10:00 a second one at 10:30 is admitted, and beside both a
    one-unit booking at 11:00 is rejected. *)
Example second_half_accepted :
  canBook 10 newYear "10:30" halfProduct [firstHalf] DEFAULT_SETTINGS
  = Some true.
Proof. vm_compute. reflexivity. Qed.

Example third_booking_rejected :
  canBook 10 newYear "11:00" quarterProduct [firstHalf; secondHalf]
    DEFAULT_SETTINGS
  = Some false.
Proof. vm_compute. reflexivity. Qed.

(** A booking that starts at 12:00 does not meet one that ends at 12:00. *)
Example back_to_back_accepted :
  getSlotOccupancy newYear "12:00" [firstHalf] = 0
  /\ canBook 10 newYear "12:00" halfProduct
       [firstHalf; sampleReservation "d" "10:00" "12:00" 3 "confirmed"]
       DEFAULT_SETTINGS
     = Some true.
Proof. split; vm_compute; reflexivity. Qed.

(** A 45-minute booking at 10:00 is checked at 10:00 and at 10:30: the
    second instant, which starts its last and partial slot, rejects it. *)
Example partial_slot_checked :
  canBook 10 newYear "10:00" shortProduct [fullHalfHour] DEFAULT_SETTINGS
  = Some false.
Proof. vm_compute. reflexivity. Qed.

(** A start label that does not read as a time passes both comparisons of
    [canBook]. *)
Example unreadable_start_accepted :
  timeToMinutes "noon" = None
  /\ canBook 0 newYear "noon" guideFullProduct [] DEFAULT_SETTINGS = Some true.
Proof. split; reflexivity. Qed.

(** The label [canBook] builds for a negative instant reads back an hour
    earlier, since [%] keeps the sign of the instant. *)
Example negative_instant_label :
  labelOfMinutes (-30) = "-1:-30"
  /\ timeToMinutes (labelOfMinutes (-30)) = Some (-90).
Proof. split; vm_compute; reflexivity. Qed.

(** With a capacity of zero the ratio is [0 / 0]. *)
Example zero_capacity_ratio :
  getDateAvailability 30 newYear [] zeroCapacitySettings = Some Js.NaN.
Proof. vm_compute. reflexivity. Qed.

(** ** The theorems at concrete inputs *)

(** A half-day booking at 10:00 beside a confirmed reservation of three
    units. *)
Lemma canBook_exhaustive_witness :
  timeToMinutes "10:00" = Some 600
  /\ exists b : bool,
       exists fuel0 : nat, forall fuel, (fuel0 <= fuel)%nat ->
         canBook fuel newYear "10:00" halfProduct
           [firstHalf]
           DEFAULT_SETTINGS = Some b.
Proof.
  split; [reflexivity |].
  destruct (canBook_exhaustive newYear "10:00" 600 halfProduct
              [firstHalf]
              DEFAULT_SETTINGS)
    as (b & Hrun & _).
  - reflexivity.
  - lia.
  - reflexivity.
  - vm_compute. discriminate.
  - exists b. exact Hrun.
Defined.

(** The four-hour product at 18:00 on a day that closes at 19:00. *)
Lemma canBook_rejects_after_close_witness :
  timeToMinutes "18:00" = Some 1080
  /\ canBook 0 newYear "18:00" guideFullProduct [] DEFAULT_SETTINGS = Some false.
Proof.
  split; [reflexivity |].
  apply (canBook_rejects_after_close 0 newYear "18:00" 1080
           guideFullProduct [] DEFAULT_SETTINGS).
  - reflexivity.
  - reflexivity.
Defined.

(** The occupancy at 12:00 beside a reservation that ends at 12:00. *)
Lemma getSlotOccupancy_half_open_witness :
  timeToMinutes "12:00" = Some 720
  /\ getSlotOccupancy newYear "12:00"
       [firstHalf]
     = occupancyAt newYear 720
         [firstHalf].
Proof.
  split; [reflexivity |].
  apply (getSlotOccupancy_half_open newYear "12:00" 720
           [firstHalf]).
  reflexivity.
Defined.

Lemma getSlotOccupancy_monotone_witness :
  nonNegativeUnits [firstHalf]
  /\ forall id,
       getSlotOccupancy newYear "10:30"
         (markCancelled id [firstHalf])
       <= getSlotOccupancy newYear "10:30"
            [firstHalf].
Proof.
  assert (Hnn : nonNegativeUnits
                  [firstHalf]).
  { constructor; [vm_compute; discriminate | constructor]. }
  split; [exact Hnn |].
  apply (getSlotOccupancy_monotone newYear "10:30"
           [firstHalf] Hnn).
Defined.

(** The default business hours, 09:00 to 19:00 in steps of 30 minutes. *)
Lemma generateTimeSlots_within_hours_witness :
  openTotal DEFAULT_SETTINGS < closeTotal DEFAULT_SETTINGS
  /\ exists slots : list Slot,
       (exists fuel0 : nat, forall fuel, (fuel0 <= fuel)%nat ->
          generateTimeSlots fuel DEFAULT_SETTINGS = Some slots)
       /\ exists s0 : Slot,
            slots !! 0%nat = Some s0
            /\ slotOffset s0 = openTotal DEFAULT_SETTINGS.
Proof.
  split; [reflexivity |].
  destruct (generateTimeSlots_within_hours DEFAULT_SETTINGS)
    as (slots & Hrun & _ & _ & Hfirst & _).
  - reflexivity.
  - reflexivity.
  - exists slots. split; assumption.
Defined.

Lemma getDateAvailability_ratio_witness :
  nonNegativeUnits [firstHalf]
  /\ exists (slots : list Slot) (q : Q),
       (exists fuel0 : nat, forall fuel, (fuel0 <= fuel)%nat ->
          generateTimeSlots fuel DEFAULT_SETTINGS = Some slots
          /\ getDateAvailability fuel newYear
               [firstHalf]
               DEFAULT_SETTINGS = Some (Js.Finite q))
       /\ (0 <= q)%Q /\ (q <= 1)%Q.
Proof.
  assert (Hnn : nonNegativeUnits
                  [firstHalf]).
  { constructor; [vm_compute; discriminate | constructor]. }
  split; [exact Hnn |].
  destruct (getDateAvailability_ratio newYear
              [firstHalf]
              DEFAULT_SETTINGS)
    as (slots & q & Hrun & _ & Hlo & Hhi).
  - reflexivity.
  - reflexivity.
  - discriminate.
  - exact Hnn.
  - exists slots, q. repeat split; assumption.
Defined.

(** New Year's Day is a holiday and nothing is booked. *)
Lemma holiday_rejected_at_date_selection_witness :
  In newYear (holidays (st_settings (initialState [] holidaySettings)))
  /\ forall fuel past,
       appStep fuel (DayClick newYear past) (initialState [] holidaySettings)
       = Some (initialState [] holidaySettings).
Proof.
  assert (Hhol : In newYear
                   (holidays (st_settings (initialState [] holidaySettings))))
    by (left; reflexivity).
  split; [exact Hhol |].
  apply (holiday_rejected_at_date_selection newYear
           (initialState [] holidaySettings) Hhol).
Defined.

(** * Further results on the code *)

(** ** Time labels *)

Lemma toNumber_pad2_inj (a b : Z) : pad2 a = pad2 b -> a = b.
Proof.
  intros Heq. apply (f_equal Js.toNumber) in Heq.
  rewrite !toNumber_pad2 in Heq. congruence.
Qed.

(** X1.  [timeToMinutes] reads a label printed by [fmtTime] as
    [h * 60 + m], for all integers, and [fmtTime] gives different labels to
    different pairs of hour and minute. *)
Theorem fmtTime_round_trip (h m : Z) :
  timeToMinutes (fmtTime h m) = Some (h * 60 + m)
  /\ forall h' m', fmtTime h m = fmtTime h' m' <-> h = h' /\ m = m'.
Proof.
  split; [apply timeToMinutes_fmtTime |].
  intros h' m'. split; [| intros [-> ->]; reflexivity].
  intros Heq. apply (f_equal (Js.split ":")) in Heq.
  unfold fmtTime in Heq.
  rewrite !split_colon, !split_digits in Heq by apply pad2_digits.
  injection Heq as Hh Hm.
  split; apply toNumber_pad2_inj; assumption.
Qed.

(** X2.  The label [canBook] builds for an instant reads back as the
    instant when the instant is not negative or is a whole number of
    hours, and as the instant minus 60 otherwise: [Math.floor] rounds the
    hour down while [%] keeps the sign of the minutes. *)
Theorem labelOfMinutes_reads_back (m : Z) :
  timeToMinutes (labelOfMinutes m)
  = Some (if (m <? 0) && negb (Z.rem m 60 =? 0) then m - 60 else m).
Proof.
  unfold labelOfMinutes. rewrite timeToMinutes_fmtTime. f_equal.
  destruct (Z.ltb_spec m 0) as [Hneg | Hpos]; simpl.
  - pose proof (Z.div_mod m 60 ltac:(lia)) as Hfloor.
    pose proof (Z.mod_pos_bound m 60 ltac:(lia)) as Hmod.
    pose proof (Z.quot_rem' m 60) as Htrunc.
    pose proof (Z.rem_bound_pos (- m) 60 ltac:(lia) ltac:(lia)) as Hrem.
    rewrite Z.rem_opp_l' in Hrem.
    destruct (Z.eqb_spec (Z.rem m 60) 0); simpl; lia.
  - rewrite Z.rem_mod_nonneg by lia.
    pose proof (Z.div_mod m 60 ltac:(lia)). lia.
Qed.

(** X3.  A label without a colon does not read as a time: it covers no
    reservation, and as a start time it makes [canBook] answer [true]
    whatever the reservations, the capacity and the closing time are. *)
Theorem colon_free_label (s : string) :
  colon_free s ->
  timeToMinutes s = None
  /\ (forall date reservations, getSlotOccupancy date s reservations = 0)
  /\ (forall fuel date product reservations settings,
        canBook fuel date s product reservations settings = Some true).
Proof.
  intros Hs.
  assert (Hnone : timeToMinutes s = None).
  { unfold timeToMinutes. rewrite split_digits by assumption.
    simpl. destruct (Js.toNumber s); reflexivity. }
  split; [exact Hnone | split].
  - intros date reservations. rewrite getSlotOccupancy_sum.
    induction reservations as [| r l IH]; simpl; [reflexivity |].
    rewrite IH. unfold contribution, coversSlot. rewrite Hnone.
    destruct (timeToMinutes (r_startTime r)), (timeToMinutes (r_endTime r));
      rewrite andb_false_r; reflexivity.
  - intros fuel date product reservations settings.
    unfold canBook. rewrite Hnone. reflexivity.
Qed.

(** ** Occupancy and the validator *)

Lemma sumZ_Permutation (l l' : list Z) : Permutation l l' -> sumZ l = sumZ l'.
Proof. induction 1; simpl; lia. Qed.

Lemma canBook_loop_occ_ext (date : string) (product : Product)
    (settings : Settings) (rs rs' : list Reservation) (endMin : Z) :
  (forall slotLabel,
     getSlotOccupancy date slotLabel rs = getSlotOccupancy date slotLabel rs') ->
  forall (fuel : nat) (m : Z),
    canBook_loop fuel date product rs settings endMin m
    = canBook_loop fuel date product rs' settings endMin m.
Proof.
  intros Hocc. induction fuel as [| fuel IH]; intros m; simpl; [reflexivity |].
  rewrite Hocc, IH. reflexivity.
Qed.

(** X4.  The order of the reservation list does not matter: two lists with
    the same records give the same occupancy for every slot and the same
    verdict of [canBook]. *)
Theorem reservation_order_irrelevant (rs rs' : list Reservation) :
  Permutation rs rs' ->
  (forall date slotLabel,
     getSlotOccupancy date slotLabel rs = getSlotOccupancy date slotLabel rs')
  /\ (forall fuel date startTime product settings,
        canBook fuel date startTime product rs settings
        = canBook fuel date startTime product rs' settings).
Proof.
  intros Hperm.
  assert (Hocc : forall date slotLabel,
             getSlotOccupancy date slotLabel rs
             = getSlotOccupancy date slotLabel rs').
  { intros date slotLabel. rewrite !getSlotOccupancy_sum.
    apply sumZ_Permutation. apply Permutation_map. exact Hperm. }
  split; [exact Hocc |].
  intros fuel date startTime product settings. unfold canBook.
  destruct (timeToMinutes startTime); [| reflexivity].
  destruct (_ >? _); [reflexivity |].
  apply canBook_loop_occ_ext. apply Hocc.
Qed.

(** The verdict of the loop in terms of the labels it builds, for any
    starting instant. *)
Lemma canBook_loop_spec_label (date : string) (product : Product)
    (settings : Settings) (reservations : list Reservation) (endMin : Z) :
  0 < slotIntervalMin settings ->
  forall (n : nat) (m : Z),
    (Z.to_nat (endMin - m) <= n)%nat ->
    exists b : bool,
      (forall fuel, (n < fuel)%nat ->
         canBook_loop fuel date product reservations settings endMin m = Some b)
      /\ (b = false <->
          exists k : Z,
            0 <= k
            /\ m + k * slotIntervalMin settings < endMin
            /\ maxCapacity settings
               < getSlotOccupancy date
                   (labelOfMinutes (m + k * slotIntervalMin settings))
                   reservations
                 + p_requiredSlots product).
Proof.
  intros Hstep. induction n as [| n IH]; intros m Hn.
  - exists true. split.
    + intros [| fuel] Hf; [lia |]. simpl.
      destruct (Z.ltb_spec m endMin); [lia | reflexivity].
    + split; [discriminate |]. intros (k & Hk & Hlt & _). nia.
  - destruct (Z.ltb_spec m endMin) as [Hlt | Hge].
    + destruct (Z.ltb_spec (maxCapacity settings)
                  (getSlotOccupancy date (labelOfMinutes m) reservations
                   + p_requiredSlots product))
        as [Hover | Hfit].
      * exists false. split.
        -- intros [| fuel] Hf; [lia |]. simpl.
           destruct (Z.ltb_spec m endMin); [| lia].
           fold (labelOfMinutes m). rewrite Z.gtb_ltb.
           destruct (Z.ltb_spec (maxCapacity settings)
                       (getSlotOccupancy date (labelOfMinutes m) reservations
                        + p_requiredSlots product));
             [reflexivity | lia].
        -- split; [intros _ | reflexivity].
           exists 0. rewrite Z.mul_0_l, Z.add_0_r.
           split; [lia | split; assumption].
      * destruct (IH (m + slotIntervalMin settings)) as (b & Hrun & Hiff);
          [lia |].
        exists b. split.
        -- intros [| fuel] Hf; [lia |]. simpl.
           destruct (Z.ltb_spec m endMin); [| lia].
           fold (labelOfMinutes m). rewrite Z.gtb_ltb.
           destruct (Z.ltb_spec (maxCapacity settings)
                       (getSlotOccupancy date (labelOfMinutes m) reservations
                        + p_requiredSlots product));
             [lia |].
           apply Hrun. lia.
        -- rewrite Hiff. split.
           ++ intros (k & Hk & Hklt & Hkover). exists (k + 1).
              replace (m + (k + 1) * slotIntervalMin settings)
                with (m + slotIntervalMin settings + k * slotIntervalMin settings)
                by lia.
              split; [lia | split; assumption].
           ++ intros (k & Hk & Hklt & Hkover).
              destruct (Z.eq_dec k 0) as [-> | Hk0].
              ** rewrite Z.mul_0_l, Z.add_0_r in Hkover. lia.
              ** exists (k - 1).
                 replace (m + slotIntervalMin settings
                          + (k - 1) * slotIntervalMin settings)
                   with (m + k * slotIntervalMin settings) by lia.
                 split; [lia | split; assumption].
    + exists true. split.
      * intros [| fuel] Hf; [lia |]. simpl.
        destruct (Z.ltb_spec m endMin); [lia | reflexivity].
      * split; [discriminate |]. intros (k & Hk & Hklt & _). nia.
Qed.

Lemma getSlotOccupancy_free_day (date slotLabel : string)
    (reservations : list Reservation) :
  Forall (fun r => onDateConfirmed date r = false) reservations ->
  getSlotOccupancy date slotLabel reservations = 0.
Proof.
  intros Hfree. rewrite getSlotOccupancy_sum.
  induction Hfree as [| r l Hr _ IH]; simpl; [reflexivity |].
  rewrite IH. unfold contribution. rewrite Hr. reflexivity.
Qed.

(** X5.  On a date that has no confirmed reservation, a booking of positive
    duration that ends by closing time is accepted exactly when the
    product's units do not exceed the capacity. *)
Theorem canBook_free_day (date startTime : string) (startMin : Z)
    (product : Product) (reservations : list Reservation)
    (settings : Settings) :
  timeToMinutes startTime = Some startMin ->
  0 < slotIntervalMin settings ->
  0 < p_durationMin product ->
  startMin + p_durationMin product <= closeTotal settings ->
  Forall (fun r => onDateConfirmed date r = false) reservations ->
  exists fuel0 : nat, forall fuel, (fuel0 <= fuel)%nat ->
    canBook fuel date startTime product reservations settings
    = Some (p_requiredSlots product <=? maxCapacity settings).
Proof.
  intros Hread Hstep Hdur Hclose Hfree.
  set (endMin := startMin + p_durationMin product).
  destruct (canBook_loop_spec_label date product settings reservations endMin
              Hstep (Z.to_nat (endMin - startMin)) startMin (le_n _))
    as (b & Hrun & Hiff).
  exists (S (Z.to_nat (endMin - startMin))). intros fuel Hfuel.
  unfold canBook. rewrite Hread, Z.gtb_ltb. fold (closeTotal settings).
  destruct (Z.ltb_spec (closeTotal settings) (startMin + p_durationMin product));
    [lia |].
  fold endMin. rewrite (Hrun fuel) by lia. f_equal.
  destruct (Z.leb_spec (p_requiredSlots product) (maxCapacity settings))
    as [Hfit | Hover].
  - destruct b; [reflexivity |].
    destruct Hiff as [Hex _]. destruct (Hex eq_refl) as (k & _ & _ & Hk).
    rewrite getSlotOccupancy_free_day in Hk by assumption. lia.
  - apply Hiff. exists 0. rewrite Z.mul_0_l, Z.add_0_r.
    rewrite getSlotOccupancy_free_day by assumption.
    unfold endMin. lia.
Qed.

(** X6.  With a slot interval of zero the loop of [canBook] stays at the
    start instant: the booking is rejected when that instant is over
    capacity, and otherwise [canBook] does not return. *)
Theorem canBook_zero_interval (date startTime : string) (startMin : Z)
    (product : Product) (reservations : list Reservation)
    (settings : Settings) :
  timeToMinutes startTime = Some startMin ->
  slotIntervalMin settings = 0 ->
  0 < p_durationMin product ->
  startMin + p_durationMin product <= closeTotal settings ->
  let over :=
    maxCapacity settings
    <? getSlotOccupancy date (labelOfMinutes startMin) reservations
       + p_requiredSlots product in
  forall fuel,
    canBook (S fuel) date startTime product reservations settings
    = if over then Some false else None.
Proof.
  intros Hread Hzero Hdur Hclose over fuel.
  unfold canBook. rewrite Hread, Z.gtb_ltb. fold (closeTotal settings).
  destruct (Z.ltb_spec (closeTotal settings) (startMin + p_durationMin product));
    [lia |].
  assert (Hlt : (startMin <? startMin + p_durationMin product) = true)
    by (apply Z.ltb_lt; lia).
  destruct over eqn:Hover; subst over.
  - simpl. fold (labelOfMinutes startMin).
    rewrite Hlt, Z.gtb_ltb, Hover. reflexivity.
  - generalize (S fuel) as n.
    induction n as [| n IH]; simpl; [reflexivity |].
    fold (labelOfMinutes startMin).
    rewrite Hlt, Z.gtb_ltb, Hover, Hzero, Z.add_0_r. exact IH.
Qed.

Lemma canBook_loop_capacity (date : string) (product : Product)
    (reservations : list Reservation) (settings : Settings) (n endMin : Z) :
  maxCapacity settings <= n ->
  forall (fuel : nat) (m : Z),
    canBook_loop fuel date product reservations settings endMin m = Some true ->
    canBook_loop fuel date product reservations (withMaxCapacity n settings)
      endMin m = Some true.
Proof.
  intros Hn. induction fuel as [| fuel IH]; intros m; simpl; [discriminate |].
  destruct (m <? endMin); [| trivial].
  rewrite !Z.gtb_ltb.
  destruct (Z.ltb_spec (maxCapacity settings)
              (getSlotOccupancy date (fmtTime (m / 60) (Z.rem m 60)) reservations
               + p_requiredSlots product)); [discriminate |].
  destruct (Z.ltb_spec n
              (getSlotOccupancy date (fmtTime (m / 60) (Z.rem m 60)) reservations
               + p_requiredSlots product)); [lia |].
  apply IH.
Qed.

(** X7.  A booking that [canBook] accepts is still accepted after any
    reservation with units that are not negative is taken out of the set,
    and after the capacity is raised. *)
Theorem canBook_accepts_more (fuel : nat) (date startTime : string)
    (product : Product) (l1 l2 : list Reservation) (r : Reservation)
    (settings : Settings) :
  0 <= r_requiredSlots r ->
  canBook fuel date startTime product (l1 ++ r :: l2) settings = Some true ->
  canBook fuel date startTime product (l1 ++ l2) settings = Some true
  /\ forall n, maxCapacity settings <= n ->
       canBook fuel date startTime product (l1 ++ r :: l2)
         (withMaxCapacity n settings) = Some true.
Proof.
  intros Hr. unfold canBook.
  destruct (timeToMinutes startTime); [| auto].
  simpl. destruct (_ >? _); [discriminate |].
  intros Htrue. split.
  - revert Htrue. apply canBook_loop_antitone. intros slotLabel.
    rewrite getSlotOccupancy_insert.
    pose proof (contribution_nonneg date slotLabel r Hr). lia.
  - intros n Hn. apply canBook_loop_capacity; assumption.
Qed.

(** X8.  On the button of a slot that [canBook] accepts for a product of
    positive duration, the number of free units shown is at least the
    units the product needs. *)
Theorem available_slot_has_room (fuel : nat) (date : string) (slot : Slot)
    (startMin : Z) (product : Product) (reservations : list Reservation)
    (settings : Settings) :
  timeToMinutes (label slot) = Some startMin ->
  0 <= startMin ->
  0 < p_durationMin product ->
  canBook fuel date (label slot) product reservations settings = Some true ->
  p_requiredSlots product <= remaining date reservations settings slot.
Proof.
  intros Hread Hstart Hdur. unfold canBook, remaining. rewrite Hread.
  destruct (_ >? _); [discriminate |].
  destruct fuel as [| fuel]; simpl; [discriminate |].
  destruct (Z.ltb_spec startMin (startMin + p_durationMin product)); [| lia].
  rewrite getSlotOccupancy_labelOfMinutes by assumption.
  rewrite (getSlotOccupancy_occupancyAt date (label slot) startMin Hread).
  rewrite Z.gtb_ltb.
  destruct (Z.ltb_spec (maxCapacity settings)
              (occupancyAt date startMin reservations + p_requiredSlots product));
    [discriminate | lia].
Qed.

(** ** The slot grid and the slot picker *)

Lemma filter_none {A : Type} (f : A -> bool) (l : list A) :
  (forall x, In x l -> f x = false) -> List.filter f l = [].
Proof.
  induction l as [| x l IH]; intros Hall; simpl; [reflexivity |].
  rewrite (Hall x) by (left; reflexivity).
  apply IH. intros y Hy. apply Hall. right. exact Hy.
Qed.

(** A filter whose test, once false, stays false along the list keeps a
    prefix. *)
Lemma filter_prefix {A : Type} (f : A -> bool) (l : list A) :
  (forall (i j : nat) (x y : A),
     (i < j)%nat -> l !! i = Some x -> l !! j = Some y ->
     f y = true -> f x = true) ->
  exists n : nat, List.filter f l = take n l.
Proof.
  induction l as [| x l IH]; intros Hdown.
  - exists 0%nat. reflexivity.
  - simpl. destruct (f x) eqn:Hx.
    + destruct IH as (n & Hn).
      { intros i j a b Hij Ha Hb.
        apply (Hdown (S i) (S j)); [lia | assumption..]. }
      exists (S n). simpl. rewrite Hn. reflexivity.
    + exists 0%nat. simpl. apply filter_none.
      intros y Hy. apply list_elem_of_In, list_elem_of_lookup in Hy.
      destruct Hy as (j & Hj).
      destruct (f y) eqn:Hfy; [| reflexivity].
      pose proof (Hdown 0%nat (S j) x y ltac:(lia) eq_refl Hj Hfy).
      congruence.
Qed.

(** The list [generateTimeSlots] returns, whatever the fuel that was
    enough. *)
Lemma generateTimeSlots_result (settings : Settings) (fuel : nat)
    (slots : list Slot) :
  0 < slotIntervalMin settings ->
  generateTimeSlots fuel settings = Some slots ->
  (forall (k : nat) (s : Slot),
     slots !! k = Some s ->
     slotOffset s = openTotal settings + Z.of_nat k * slotIntervalMin settings
     /\ slotOffset s < closeTotal settings
     /\ timeToMinutes (label s) = Some (slotOffset s))
  /\ closeTotal settings
     <= openTotal settings + Z.of_nat (length slots) * slotIntervalMin settings
  /\ (closeTotal settings <= openTotal settings -> slots = []).
Proof.
  intros Hstep Hsome.
  destruct (generateTimeSlots_grid settings Hstep)
    as (slots0 & Hrun & Hslots & Hlen & Hempty).
  rewrite (generateTimeSlots_unique settings fuel slots slots0 Hsome Hrun).
  split; [exact Hslots | split; assumption].
Qed.

(** X9.  The slots [TimeSlotPicker] offers for a product are an initial
    part of the grid, and with opening before closing time there is none
    exactly when the product's duration is longer than the business
    hours. *)
Theorem validSlots_prefix (product : Product) (settings : Settings)
    (fuel : nat) (slots : list Slot) :
  0 < slotIntervalMin settings ->
  generateTimeSlots fuel settings = Some slots ->
  (exists n : nat, validSlots product settings slots = take n slots)
  /\ (openTotal settings < closeTotal settings ->
      (validSlots product settings slots = []
       <-> closeTotal settings < openTotal settings + p_durationMin product)).
Proof.
  intros Hstep Hsome.
  destruct (generateTimeSlots_result settings fuel slots Hstep Hsome)
    as (Hslots & Hlen & _).
  split.
  - apply filter_prefix. intros i j x y Hij Hx Hy Hfits.
    destruct (Hslots i x Hx) as (Hox & _). destruct (Hslots j y Hy) as (Hoy & _).
    unfold slotOffset in Hox, Hoy.
    apply Z.leb_le in Hfits. apply Z.leb_le.
    fold (closeTotal settings) in *. nia.
  - intros Hhours. destruct slots as [| s0 slots'].
    { simpl in Hlen. lia. }
    destruct (Hslots 0%nat s0 eq_refl) as (H0 & _).
    unfold slotOffset in H0. split.
    + unfold validSlots. simpl. fold (closeTotal settings).
      destruct (Z.leb_spec (hour s0 * 60 + min s0 + p_durationMin product)
                  (closeTotal settings)); [discriminate | lia].
    + intros Hlong. apply filter_none. intros s Hs.
      apply list_elem_of_In, list_elem_of_lookup in Hs. destruct Hs as (k & Hk).
      destruct (Hslots k s Hk) as (Hoff & _). unfold slotOffset in Hoff.
      apply Z.leb_gt. fold (closeTotal settings). nia.
Qed.

(** X10.  The number of slots is the business hours divided by the
    interval, rounded up (and zero when closing is not after opening), and
    no two slots have the same label. *)
Theorem generateTimeSlots_count (settings : Settings) (fuel : nat)
    (slots : list Slot) :
  0 < slotIntervalMin settings ->
  generateTimeSlots fuel settings = Some slots ->
  Z.of_nat (length slots)
  = Z.max 0 ((closeTotal settings - openTotal settings
              + slotIntervalMin settings - 1) / slotIntervalMin settings)
  /\ NoDup (map label slots).
Proof.
  intros Hstep Hsome.
  destruct (generateTimeSlots_result settings fuel slots Hstep Hsome)
    as (Hslots & Hlen & Hempty).
  split.
  - destruct (Z.le_gt_cases (closeTotal settings) (openTotal settings))
      as [Hclosed | Hhours].
    + rewrite (Hempty Hclosed). simpl.
      assert ((closeTotal settings - openTotal settings
               + slotIntervalMin settings - 1) / slotIntervalMin settings <= 0).
      { apply Z.lt_succ_r. apply Z.div_lt_upper_bound; lia. }
      lia.
    + assert (Hlast : Z.of_nat (length slots) * slotIntervalMin settings
                      < closeTotal settings - openTotal settings
                        + slotIntervalMin settings).
      { destruct (length slots) as [| n] eqn:Hn; [lia |].
        destruct (lookup_lt_is_Some_2 slots n ltac:(lia)) as (s & Hs).
        destruct (Hslots n s Hs) as (Hoff & Hbelow & _). nia. }
      rewrite Z.max_r.
      * apply (Z.div_unique_pos _ _ _
                 (closeTotal settings - openTotal settings
                  + slotIntervalMin settings - 1
                  - slotIntervalMin settings * Z.of_nat (length slots))); lia.
      * apply Z.div_pos; lia.
  - apply NoDup_alt. intros i j l Hi Hj.
    rewrite list_lookup_fmap in Hi, Hj.
    destruct (slots !! i) as [si |] eqn:Hsi; [| discriminate].
    destruct (slots !! j) as [sj |] eqn:Hsj; [| discriminate].
    simpl in Hi, Hj. injection Hi as Hi. injection Hj as Hj.
    destruct (Hslots i si Hsi) as (Hoi & _ & Hri).
    destruct (Hslots j sj Hsj) as (Hoj & _ & Hrj).
    rewrite Hi in Hri. rewrite Hj in Hrj.
    assert (Hsame : slotOffset si = slotOffset sj) by congruence.
    apply Nat2Z.inj. nia.
Qed.

Lemma generateTimeSlots_loop_clock (settings : Settings) (endTotal : Z)
    (P : Slot -> Prop) (h0 : Z) :
  0 < slotIntervalMin settings ->
  (forall h m, h0 <= h -> 0 <= m < 60 -> P (mkSlot h m (fmtTime h m))) ->
  forall (fuel : nat) (h m : Z) (acc slots : list Slot),
    h0 <= h -> 0 <= m < 60 -> Forall P acc ->
    generateTimeSlots_loop fuel settings endTotal h m acc = Some slots ->
    Forall P slots.
Proof.
  intros Hstep HP. induction fuel as [| fuel IH];
    intros h m acc slots Hh Hm Hacc; simpl; [discriminate |].
  destruct (h * 60 + m <? endTotal); [| intros [= <-]; exact Hacc].
  assert (Hacc' : Forall P (acc ++ [mkSlot h m (fmtTime h m)])).
  { apply Forall_app. split; [exact Hacc |].
    constructor; [apply HP; assumption | constructor]. }
  rewrite Z.geb_leb.
  destruct (Z.leb_spec 60 (m + slotIntervalMin settings)) as [Hcarry | Hno].
  - apply IH; [| | exact Hacc'].
    + pose proof (Z.div_pos (m + slotIntervalMin settings) 60
                    ltac:(lia) ltac:(lia)). lia.
    + apply Z.rem_bound_pos; lia.
  - apply IH; [exact Hh | lia | exact Hacc'].
Qed.

(** X11.  When the opening minute is a minute of the hour and the interval
    is positive, every slot is a clock time: its minute lies in 0..59, its
    hour is its offset divided by 60 and not before the opening hour, and
    its label is the hour and the minute padded to two digits. *)
Theorem generateTimeSlots_clock_times (settings : Settings) (fuel : nat)
    (slots : list Slot) :
  0 < slotIntervalMin settings ->
  0 <= openMin settings < 60 ->
  generateTimeSlots fuel settings = Some slots ->
  Forall
    (fun s =>
       0 <= min s < 60
       /\ openHour settings <= hour s
       /\ hour s = slotOffset s / 60
       /\ label s = (pad2 (hour s) ++ ":" ++ pad2 (min s))%string)
    slots.
Proof.
  intros Hstep Hmin Hsome. unfold generateTimeSlots in Hsome.
  refine (generateTimeSlots_loop_clock settings _ _ (openHour settings) Hstep _
            fuel _ _ [] slots (Z.le_refl _) Hmin (List.Forall_nil _) Hsome).
  intros h m Hh Hm. simpl. unfold slotOffset. simpl.
  split; [exact Hm | split; [exact Hh | split; [| reflexivity]]].
  apply (Z.div_unique_pos _ _ _ m); lia.
Qed.

(** ** The booking form *)

(** X12.  For a start label that reads as an instant, the end label that
    [BookingForm] stores reads as the instant plus the product's duration
    (when that is not negative), so the stored reservation covers exactly
    the instants from its start up to, and not including, start plus
    duration. *)
Theorem bookingEndTime_reads (startTime : string) (startMin : Z)
    (product : Product) (r : Reservation) :
  timeToMinutes startTime = Some startMin ->
  0 <= startMin + p_durationMin product ->
  r_startTime r = startTime ->
  r_endTime r = bookingEndTime startTime product ->
  timeToMinutes (r_endTime r) = Some (startMin + p_durationMin product)
  /\ forall x,
       holdsInstant x r
       = (startMin <=? x) && (x <? startMin + p_durationMin product).
Proof.
  intros Hread Hend Hstart Hstored.
  assert (Hreads : timeToMinutes (r_endTime r)
                   = Some (startMin + p_durationMin product)).
  { rewrite Hstored. unfold bookingEndTime. rewrite Hread.
    apply (timeToMinutes_labelOfMinutes _ Hend). }
  split; [exact Hreads |].
  intros x. unfold holdsInstant. rewrite Hstart, Hread, Hreads. reflexivity.
Qed.

(** ** The availability ratio and the calendar dot *)

Lemma freeUnits_free_day (dateStr : string) (reservations : list Reservation)
    (settings : Settings) (slots : list Slot) :
  0 <= maxCapacity settings ->
  Forall (fun r => onDateConfirmed dateStr r = false) reservations ->
  sumZ (map (freeUnits dateStr reservations settings) slots)
  = Z.of_nat (length slots) * maxCapacity settings.
Proof.
  intros Hcap Hfree.
  assert (Hocc : forall x, occupancyAt dateStr x reservations = 0).
  { intros x. unfold occupancyAt.
    induction Hfree as [| r l Hr _ IH]; simpl; [reflexivity |].
    unfold countedAt. unfold onDateConfirmed in Hr.
    destruct (String.eqb (r_status r) "confirmed"),
             (String.eqb (r_date r) dateStr); simpl in *;
      try discriminate; exact IH. }
  induction slots as [| s slots IH]; [reflexivity |].
  cbn [map sumZ fold_right length].
  fold (sumZ (map (freeUnits dateStr reservations settings) slots)).
  rewrite IH. unfold freeUnits. rewrite Hocc. lia.
Qed.

(** X13.  With opening before closing time, a positive interval and a
    positive capacity, the ratio of a date without confirmed reservations
    is 1. *)
Theorem getDateAvailability_free_day (dateStr : string)
    (reservations : list Reservation) (settings : Settings) :
  openTotal settings < closeTotal settings ->
  0 < slotIntervalMin settings ->
  0 < maxCapacity settings ->
  Forall (fun r => onDateConfirmed dateStr r = false) reservations ->
  exists fuel0 : nat, forall fuel, (fuel0 <= fuel)%nat ->
    exists q : Q,
      getDateAvailability fuel dateStr reservations settings
      = Some (Js.Finite q)
      /\ (q == 1)%Q.
Proof.
  intros Hhours Hstep Hcap Hfree.
  destruct (generateTimeSlots_grid settings Hstep)
    as (slots & (fuel0 & Hrun) & Hslots & Hlen & _).
  assert (Hlabels : Forall (fun s => timeToMinutes (label s) = Some (slotOffset s))
                      slots).
  { apply Forall_lookup. intros k s Hk. apply (Hslots k s Hk). }
  assert (Hmax : 0 < Z.of_nat (length slots) * maxCapacity settings) by nia.
  exists fuel0. intros fuel Hf.
  exists (inject_Z (Z.of_nat (length slots) * maxCapacity settings)
          / inject_Z (Z.of_nat (length slots) * maxCapacity settings))%Q.
  split.
  - unfold getDateAvailability. rewrite (Hrun fuel Hf).
    rewrite totalAvail_sum by assumption.
    rewrite freeUnits_free_day by (assumption || lia).
    unfold Js.div.
    destruct (Z.eqb_spec (Z.of_nat (length slots) * maxCapacity settings) 0);
      [lia | reflexivity].
  - apply Qmult_inv_r. intros Hzero.
    unfold Qeq in Hzero. simpl in Hzero. lia.
Qed.

(** X14.  On a day that is not disabled, with opening before closing time,
    a positive interval, a positive capacity and units that are not
    negative, the dot is red exactly when every slot of the grid is
    occupied up to the capacity or beyond. *)
Theorem danger_dot_iff_full (dateStr : string)
    (reservations : list Reservation) (settings : Settings) :
  openTotal settings < closeTotal settings ->
  0 < slotIntervalMin settings ->
  0 < maxCapacity settings ->
  nonNegativeUnits reservations ->
  ~ In dateStr (holidays settings) ->
  exists (slots : list Slot) (color : DotColor),
    (exists fuel0 : nat, forall fuel, (fuel0 <= fuel)%nat ->
       generateTimeSlots fuel settings = Some slots
       /\ availDot fuel false dateStr reservations settings
          = Some (Some color))
    /\ (color = Danger
        <-> Forall
              (fun s =>
                 maxCapacity settings
                 <= occupancyAt dateStr (slotOffset s) reservations)
              slots).
Proof.
  intros Hhours Hstep Hcap Hnn Hday.
  destruct (generateTimeSlots_grid settings Hstep)
    as (slots & (fuel0 & Hrun) & Hslots & Hlen & _).
  assert (Hlabels : Forall (fun s => timeToMinutes (label s) = Some (slotOffset s))
                      slots).
  { apply Forall_lookup. intros k s Hk. apply (Hslots k s Hk). }
  set (total := sumZ (map (freeUnits dateStr reservations settings) slots)).
  set (maxPossible := Z.of_nat (length slots) * maxCapacity settings).
  assert (Hmax : 0 < maxPossible) by (unfold maxPossible; nia).
  assert (Hbounds : 0 <= total <= maxPossible)
    by (apply freeUnits_sum_bounds; [assumption | lia]).
  exists slots, (dotColor (Js.Finite (inject_Z total / inject_Z maxPossible)%Q)).
  split.
  - exists fuel0. intros fuel Hf. split; [apply Hrun; exact Hf |].
    unfold availDot.
    assert (Hnot : existsb (String.eqb dateStr) (holidays settings) = false).
    { destruct (existsb _ _) eqn:Hex; [| reflexivity].
      apply existsb_eqb_In in Hex. contradiction. }
    rewrite Hnot. simpl.
    unfold getDateAvailability. rewrite (Hrun fuel Hf).
    rewrite totalAvail_sum by assumption.
    fold total. fold maxPossible. unfold Js.div.
    destruct (Z.eqb_spec maxPossible 0); [lia | reflexivity].
  - assert (Hfull : total = 0
                    <-> Forall
                          (fun s =>
                             maxCapacity settings
                             <= occupancyAt dateStr (slotOffset s) reservations)
                          slots).
    { unfold total. clear. induction slots as [| s slots IH]; simpl.
      - split; [constructor | reflexivity].
      - fold (sumZ (map (freeUnits dateStr reservations settings) slots)).
        assert (Hrest : 0 <= sumZ (map (freeUnits dateStr reservations settings)
                                     slots)).
        { clear. induction slots as [| t slots IHs]; simpl; [lia |].
          fold (sumZ (map (freeUnits dateStr reservations settings) slots)).
          unfold freeUnits at 1. lia. }
        unfold freeUnits at 1. split.
        + intros Hsum. constructor; [lia |]. apply IH. lia.
        + intros Hall. inversion Hall as [| ? ? Hs Hrest']; subst.
          apply IH in Hrest'. lia. }
    rewrite <- Hfull. unfold dotColor.
    destruct (Qle_bool (inject_Z total / inject_Z maxPossible) 0) eqn:Hle.
    + split; [intros _ | reflexivity].
      apply Qle_bool_iff in Hle.
      destruct (Z.eq_dec total 0) as [Hz | Hnz]; [exact Hz | exfalso].
      apply (Qle_not_lt _ _ Hle). apply Qlt_shift_div_l.
      * change 0%Q with (inject_Z 0). rewrite <- Zlt_Qlt. exact Hmax.
      * rewrite Qmult_0_l. change 0%Q with (inject_Z 0).
        rewrite <- Zlt_Qlt. lia.
    + split.
      * destruct (negb _); discriminate.
      * intros Hzero. exfalso.
        assert (Htrue : Qle_bool (inject_Z total / inject_Z maxPossible) 0 = true).
        { apply Qle_bool_iff. rewrite Hzero.
          unfold Qdiv. rewrite Qmult_0_l. apply Qle_refl. }
        congruence.
Qed.

(** X15.  When closing time is not after opening time the grid is empty,
    the ratio is [0 / 0], and a day that is not disabled gets the green
    dot. *)
Theorem closed_day_ratio (fuel : nat) (dateStr : string)
    (reservations : list Reservation) (settings : Settings) :
  closeTotal settings <= openTotal settings ->
  ~ In dateStr (holidays settings) ->
  generateTimeSlots (S fuel) settings = Some []
  /\ getDateAvailability (S fuel) dateStr reservations settings = Some Js.NaN
  /\ availDot (S fuel) false dateStr reservations settings
     = Some (Some Success).
Proof.
  intros Hclosed Hday.
  assert (Hgrid : generateTimeSlots (S fuel) settings = Some []).
  { unfold generateTimeSlots. apply generateTimeSlots_loop_done. exact Hclosed. }
  assert (Hratio : getDateAvailability (S fuel) dateStr reservations settings
                   = Some Js.NaN).
  { unfold getDateAvailability. rewrite Hgrid. reflexivity. }
  split; [exact Hgrid | split; [exact Hratio |]].
  unfold availDot. rewrite Hratio.
  destruct (existsb _ _) eqn:Hex; [| reflexivity].
  apply existsb_eqb_In in Hex. contradiction.
Qed.

(** ** Cancelling *)

Lemma markCancelled_ids_absent (id : string) (l : list Reservation) :
  (~ In id (map r_id l) -> markCancelled id l = l)
  /\ length (markCancelled id l) = length l.
Proof.
  unfold markCancelled. split; [| apply length_map].
  induction l as [| r l IH]; simpl; intros Hnot; [reflexivity |].
  destruct (String.eqb_spec (r_id r) id) as [Heq | _].
  - exfalso. apply Hnot. left. exact Heq.
  - rewrite IH; [reflexivity |]. intros Hin. apply Hnot. right. exact Hin.
Qed.

(** X16.  Cancelling an identifier that no record carries changes nothing;
    cancelling twice is cancelling once; and two cancellations can be done
    in either order. *)
Theorem markCancelled_algebra (id : string) (reservations : list Reservation) :
  (~ In id (map r_id reservations) -> markCancelled id reservations = reservations)
  /\ markCancelled id (markCancelled id reservations)
     = markCancelled id reservations
  /\ forall id',
       markCancelled id (markCancelled id' reservations)
       = markCancelled id' (markCancelled id reservations).
Proof.
  split; [apply markCancelled_ids_absent | unfold markCancelled; split].
  - rewrite map_map. apply map_ext. intros r.
    destruct (String.eqb (r_id r) id) eqn:Hid; simpl; rewrite Hid; reflexivity.
  - intros id'. rewrite !map_map. apply map_ext. intros r.
    destruct (String.eqb (r_id r) id) eqn:Hid;
      destruct (String.eqb (r_id r) id') eqn:Hid'; simpl;
      rewrite ?Hid, ?Hid'; reflexivity.
Qed.

(** X17.  A booking that is confirmed under an identifier no other record
    carries, and then cancelled, stays in the set as the last record with
    status cancelled, the earlier records are untouched, and the occupancy
    of every slot is what it was before the booking. *)
Theorem confirm_then_cancel (newId createdAt : string) (info : BookingInfo)
    (st : AppState) :
  ~ In newId (map r_id (st_reservations st)) ->
  let st' := handleCancel newId (handleConfirm newId createdAt info st) in
  st_reservations st'
  = (st_reservations st
     ++ [withStatusCancelled (newReservation newId createdAt info)])%list
  /\ forall date slotLabel,
       getSlotOccupancy date slotLabel (st_reservations st')
       = getSlotOccupancy date slotLabel (st_reservations st).
Proof.
  intros Hfresh.
  assert (Hset : st_reservations
                   (handleCancel newId (handleConfirm newId createdAt info st))
                 = (st_reservations st
                    ++ [withStatusCancelled
                          (newReservation newId createdAt info)])%list).
  { simpl. unfold markCancelled. rewrite map_app.
    fold (markCancelled newId (st_reservations st)).
    rewrite (proj1 (markCancelled_ids_absent newId (st_reservations st)) Hfresh).
    simpl. rewrite String.eqb_refl. reflexivity. }
  simpl. split; [exact Hset |].
  intros date slotLabel. simpl in Hset. rewrite Hset.
  rewrite (getSlotOccupancy_insert date slotLabel (st_reservations st) []).
  rewrite contribution_cancelled, app_nil_r. lia.
Qed.

(** ** The holiday editor *)

Lemma leb_trans (a b c : string) :
  String.leb a b = true -> String.leb b c = true -> String.leb a c = true.
Proof.
  unfold String.leb. revert b c.
  induction a as [| x a IH]; intros [| y b] [| z c]; simpl;
    try reflexivity; try discriminate.
  unfold Ascii.compare.
  destruct (N.compare_spec (N_of_ascii x) (N_of_ascii y)) as [Hxy | Hxy | Hxy];
    destruct (N.compare_spec (N_of_ascii y) (N_of_ascii z)) as [Hyz | Hyz | Hyz];
    destruct (N.compare_spec (N_of_ascii x) (N_of_ascii z)) as [Hxz | Hxz | Hxz];
    try reflexivity; try discriminate; try lia.
  apply IH.
Qed.

Lemma leb_refl (a : string) : String.leb a a = true.
Proof. destruct (String.leb_total a a); assumption. Qed.

Lemma insertSorted_Permutation (x : string) (l : list string) :
  Permutation (x :: l) (insertSorted x l).
Proof.
  induction l as [| y l IH]; simpl; [reflexivity |].
  destruct (String.leb x y); [reflexivity |].
  rewrite perm_swap. constructor. exact IH.
Qed.

Lemma insertSorted_ascending (x : string) (l : list string) :
  ascending l -> ascending (insertSorted x l).
Proof.
  unfold ascending. induction 1 as [| y l Hl IH Hy]; simpl.
  - constructor; constructor.
  - destruct (String.leb x y) eqn:Hxy.
    + constructor; [constructor; assumption |].
      constructor; [exact Hxy |].
      eapply List.Forall_impl; [| exact Hy].
      intros z Hz. simpl in Hz. exact (leb_trans x y z Hxy Hz).
    + constructor; [exact IH |].
      assert (Hyx : String.leb y x = true)
        by (destruct (String.leb_total x y); congruence).
      rewrite <- (insertSorted_Permutation x l). constructor; assumption.
Qed.

Lemma sortStrings_Permutation (l : list string) :
  Permutation l (sortStrings l).
Proof.
  induction l as [| x l IH]; simpl; [reflexivity |].
  rewrite <- insertSorted_Permutation. constructor. exact IH.
Qed.

Lemma sortStrings_ascending (l : list string) : ascending (sortStrings l).
Proof.
  induction l as [| x l IH]; simpl.
  - constructor.
  - apply insertSorted_ascending. exact IH.
Qed.

(** An ascending list is determined by its elements. *)
Lemma ascending_unique (l l' : list string) :
  ascending l -> ascending l' -> Permutation l l' -> l = l'.
Proof.
  unfold ascending. intros Hl. revert l'.
  induction Hl as [| x l Hl IH Hx]; intros l' Hl' Hperm.
  - apply Permutation_nil in Hperm. congruence.
  - destruct Hl' as [| y l' Hl' Hy].
    + symmetry in Hperm. apply Permutation_nil in Hperm. discriminate.
    + assert (Hxy : x = y).
      { apply String.leb_antisym.
        - assert (Hin : In y (x :: l))
            by (eapply Permutation_in;
                [symmetry; exact Hperm | left; reflexivity]).
          destruct Hin as [-> | Hin]; [apply leb_refl |].
          rewrite List.Forall_forall in Hx. apply Hx. exact Hin.
        - assert (Hin : In x (y :: l'))
            by (eapply Permutation_in; [exact Hperm | left; reflexivity]).
          destruct Hin as [-> | Hin]; [apply leb_refl |].
          rewrite List.Forall_forall in Hy. apply Hy. exact Hin. }
      subst y. f_equal. apply IH; [exact Hl' |].
      apply Permutation_cons_inv in Hperm. exact Hperm.
Qed.

Lemma filter_ascending (f : string -> bool) (l : list string) :
  ascending l -> ascending (List.filter f l).
Proof.
  unfold ascending. induction 1 as [| x l Hl IH Hx]; simpl; [constructor |].
  destruct (f x); [| exact IH].
  constructor; [exact IH |].
  rewrite List.Forall_forall in *. intros y Hy.
  apply List.filter_In in Hy. apply Hx. tauto.
Qed.

Lemma filter_Permutation_bool (f : string -> bool) (l l' : list string) :
  Permutation l l' -> Permutation (List.filter f l) (List.filter f l').
Proof.
  induction 1 as [| x l l' _ IH | x y l | l l' l'' _ IH1 _ IH2]; simpl.
  - reflexivity.
  - destruct (f x); [constructor |]; exact IH.
  - destruct (f x), (f y); try reflexivity. apply perm_swap.
  - etransitivity; eassumption.
Qed.

Lemma filter_other (d : string) (l : list string) :
  ~ In d l -> List.filter (fun h => negb (String.eqb h d)) l = l.
Proof.
  induction l as [| x l IH]; simpl; intros Hnot; [reflexivity |].
  destruct (String.eqb_spec x d) as [-> | _]; simpl.
  - exfalso. apply Hnot. left. reflexivity.
  - rewrite IH; [reflexivity |]. intros Hin. apply Hnot. right. exact Hin.
Qed.

Lemma existsb_eqb_false (x : string) (l : list string) :
  existsb (String.eqb x) l = false <-> ~ In x l.
Proof.
  rewrite <- existsb_eqb_In. destruct (existsb _ _); split; congruence.
Qed.

Lemma addHoliday_listed (ed : HolidayEditor) :
  (In (ed_holidayInput ed) (holidays (ed_local ed)) -> addHoliday ed = ed)
  /\ (ed_holidayInput ed <> "" ->
      ~ In (ed_holidayInput ed) (holidays (ed_local ed)) ->
      In (ed_holidayInput ed) (holidays (ed_local (addHoliday ed)))).
Proof.
  unfold addHoliday. split.
  - intros Hin.
    rewrite (proj2 (existsb_eqb_In _ _) Hin), andb_false_r. reflexivity.
  - intros Hd Hnew.
    rewrite (proj2 (String.eqb_neq _ _) Hd).
    rewrite (proj2 (existsb_eqb_false _ _) Hnew). simpl.
    eapply Permutation_in; [apply sortStrings_Permutation |].
    apply in_or_app. right. left. reflexivity.
Qed.

(** X18.  [addHoliday] does nothing when the input is empty or the date is
    already listed.  Otherwise the new list holds the old dates and the
    new one, each as often as before, in ascending order, and the input
    is cleared; a list without repetitions stays without repetitions. *)
Theorem addHoliday_sorted (ed : HolidayEditor) :
  let d := ed_holidayInput ed in
  let hol := holidays (ed_local ed) in
  let hol' := holidays (ed_local (addHoliday ed)) in
  (d = "" \/ In d hol -> addHoliday ed = ed)
  /\ (d <> "" -> ~ In d hol ->
      Permutation (d :: hol) hol'
      /\ ascending hol'
      /\ ed_holidayInput (addHoliday ed) = ""
      /\ (NoDup hol -> NoDup hol')).
Proof.
  simpl. unfold addHoliday. split.
  - intros [Hempty | Hin].
    + rewrite Hempty. reflexivity.
    + rewrite (proj2 (existsb_eqb_In _ _) Hin), andb_false_r. reflexivity.
  - intros Hd Hnew.
    rewrite (proj2 (String.eqb_neq _ _) Hd).
    rewrite (proj2 (existsb_eqb_false _ _) Hnew). simpl.
    assert (Hperm : Permutation
                      (ed_holidayInput ed :: holidays (ed_local ed))
                      (sortStrings
                         (holidays (ed_local ed) ++ [ed_holidayInput ed]))).
    { rewrite <- sortStrings_Permutation. apply Permutation_cons_append. }
    split; [exact Hperm | split; [apply sortStrings_ascending | split]];
      [reflexivity |].
    intros Hnodup. rewrite <- Hperm. apply NoDup_cons.
    split; [rewrite list_elem_of_In; exact Hnew | exact Hnodup].
Qed.

(** X19.  After [removeHoliday] the date is not listed, every other date
    is listed as before and in the same order, and an ascending list stays
    ascending.  Removing a date right after adding it to an ascending list
    that did not hold it gives the list back. *)
Theorem removeHoliday_undoes_add (d : string) (ed : HolidayEditor) :
  let hol := holidays (ed_local ed) in
  let hol' := holidays (ed_local (removeHoliday d ed)) in
  ~ In d hol'
  /\ (forall h, h <> d -> In h hol' <-> In h hol)
  /\ (ascending hol -> ascending hol')
  /\ (ascending hol -> ed_holidayInput ed = d -> d <> "" -> ~ In d hol ->
      holidays (ed_local (removeHoliday d (addHoliday ed))) = hol).
Proof.
  simpl. split; [| split; [| split]].
  - intros Hin. apply List.filter_In in Hin. destruct Hin as [_ Hne].
    rewrite String.eqb_refl in Hne. discriminate.
  - intros h Hne. rewrite List.filter_In.
    rewrite (proj2 (String.eqb_neq _ _) Hne). simpl. tauto.
  - apply filter_ascending.
  - intros Hasc Hinput Hd Hnew. unfold addHoliday. rewrite Hinput.
    rewrite (proj2 (String.eqb_neq _ _) Hd).
    rewrite (proj2 (existsb_eqb_false _ _) Hnew). simpl.
    apply ascending_unique.
    + apply filter_ascending, sortStrings_ascending.
    + exact Hasc.
    + rewrite <- (filter_Permutation_bool _ _ _
                    (sortStrings_Permutation _)).
      rewrite List.filter_app. simpl. rewrite String.eqb_refl. simpl.
      rewrite app_nil_r, filter_other by assumption. reflexivity.
Qed.

(** X20.  Once a date was typed into the holiday input, added and saved,
    the calendar does not select it: the click on its day button leaves
    the state unchanged. *)
Theorem saved_holiday_rejected (ed : HolidayEditor) (st : AppState)
    (past : bool) :
  ed_holidayInput ed <> "" ->
  let st' := handleSave (addHoliday ed) st in
  In (ed_holidayInput ed) (holidays (st_settings st'))
  /\ calendarDayClick past (ed_holidayInput ed) st' = st'.
Proof.
  intros Hd. simpl.
  assert (Hin : In (ed_holidayInput ed) (holidays (ed_local (addHoliday ed)))).
  { destruct (in_dec string_dec (ed_holidayInput ed) (holidays (ed_local ed)))
      as [Hold | Hnew].
    - rewrite (proj1 (addHoliday_listed ed)); assumption.
    - apply (proj2 (addHoliday_listed ed) Hd Hnew). }
  split; [exact Hin |].
  apply calendarDayClick_holiday. exact Hin.
Qed.

(** ** Sessions: the history of the reservation set *)

Lemma withStatusCancelled_idem (r : Reservation) :
  withStatusCancelled (withStatusCancelled r) = withStatusCancelled r.
Proof. reflexivity. Qed.

Lemma laterRecord_trans (r1 r2 r3 : Reservation) :
  laterRecord r1 r2 -> laterRecord r2 r3 -> laterRecord r1 r3.
Proof.
  unfold laterRecord. intros [-> | ->] [-> | ->]; auto.
Qed.

Lemma laterRecord_refl_all (l : list Reservation) : Forall2 laterRecord l l.
Proof. induction l; constructor; [left; reflexivity | assumption]. Qed.

Lemma laterRecord_markCancelled (id : string) (l : list Reservation) :
  Forall2 laterRecord l (markCancelled id l).
Proof.
  unfold markCancelled. induction l as [| r l IH]; simpl; constructor;
    [| exact IH].
  destruct (String.eqb (r_id r) id); [right | left]; reflexivity.
Qed.

Lemma appStep_history (fuel : nat) (ev : Event) (st st' : AppState) :
  appStep fuel ev st = Some st' ->
  exists kept added : list Reservation,
    st_reservations st' = (kept ++ added)%list
    /\ Forall2 laterRecord (st_reservations st) kept.
Proof.
  intros Hstep.
  destruct ev as [d past | i | i | name phone note newId createdAt | | t
                  | id past | maxCap oH oM cH cM months hol | id];
    unfold appStep, calendarDayClick, onCancel, onDeleteReservation,
      handleCancel, handleConfirm in Hstep;
    repeat case_match; simplify_eq; simpl;
    first
      [ solve [ eexists _, []; split; [symmetry; apply app_nil_r |];
                first [ apply laterRecord_refl_all
                      | apply laterRecord_markCancelled ] ]
      | solve [ eexists _, [_]; split;
                [reflexivity | apply laterRecord_refl_all] ] ].
Qed.

(** X21.  In any session the reservation set only grows at its end: the
    records it had are kept, in order, each one as it was or with status
    cancelled and nothing else changed; a cancelled record never changes
    again. *)
Theorem session_keeps_history (fuel : nat) (evs : list Event)
    (st st' : AppState) :
  appRun fuel evs st = Some st' ->
  exists kept added : list Reservation,
    st_reservations st' = (kept ++ added)%list
    /\ Forall2 laterRecord (st_reservations st) kept
    /\ (forall (i : nat) (r : Reservation),
          st_reservations st !! i = Some r ->
          r_status r = "cancelled" ->
          st_reservations st' !! i = Some r).
Proof.
  intros Hrun.
  assert (Hhist : exists kept added : list Reservation,
            st_reservations st' = (kept ++ added)%list
            /\ Forall2 laterRecord (st_reservations st) kept).
  { revert st Hrun. induction evs as [| ev evs IH]; intros st Hrun.
    - injection Hrun as <-. exists (st_reservations st), [].
      rewrite app_nil_r. split; [reflexivity | apply laterRecord_refl_all].
    - simpl in Hrun.
      destruct (appStep fuel ev st) as [st1 |] eqn:Hstep; [| discriminate].
      destruct (appStep_history fuel ev st st1 Hstep) as (k1 & a1 & Hs1 & Hk1).
      destruct (IH st1 Hrun) as (k2 & a2 & Hs2 & Hk2).
      rewrite Hs1 in Hk2.
      apply Forall2_app_inv_l in Hk2.
      destruct Hk2 as (k2a & k2b & Hka & Hkb & ->).
      exists k2a, (k2b ++ a2)%list. split.
      + rewrite Hs2, <- app_assoc. reflexivity.
      + clear - Hk1 Hka. revert k2a Hka.
        induction Hk1 as [| r r1 l l1 Hr _ IHl]; intros k2a Hka.
        * inversion Hka. constructor.
        * inversion Hka as [| ? r2 ? l2 Hr2 Hl2]; subst.
          constructor; [eapply laterRecord_trans; eassumption | apply IHl; assumption]. }
  destruct Hhist as (kept & added & Hset & Hkept).
  exists kept, added. split; [exact Hset | split; [exact Hkept |]].
  intros i r Hi Hcancelled. rewrite Hset.
  destruct (Forall2_lookup_l _ _ _ _ _ Hkept Hi) as (r' & Hi' & Hlater).
  rewrite lookup_app_l by (apply lookup_lt_is_Some; eauto).
  rewrite Hi'. f_equal.
  destruct Hlater as [-> | ->]; [reflexivity |].
  destruct r; simpl in *; subst; reflexivity.
Qed.

(** ** Sessions: complete selections and catalog snapshots *)

Lemma fromCatalog_markCancelled (id : string) (l : list Reservation) :
  Forall fromCatalog l -> Forall fromCatalog (markCancelled id l).
Proof.
  unfold markCancelled. induction 1 as [| r l Hr _ IH]; simpl; constructor;
    [| exact IH].
  destruct (String.eqb (r_id r) id); [| exact Hr].
  destruct Hr as [Hp _]. split; [exact Hp | right; reflexivity].
Qed.

Lemma appStep_catalog (fuel : nat) (ev : Event) (st st' : AppState) :
  appStep fuel ev st = Some st' ->
  selectionsComplete st -> Forall fromCatalog (st_reservations st) ->
  selectionsComplete st' /\ Forall fromCatalog (st_reservations st').
Proof.
  unfold selectionsComplete.
  destruct st as [rs s tb sd sp stime]. cbn -[In PRODUCTS].
  intros Hstep [Hprod Hform] Hcat.
  destruct ev as [d past | i | i | name phone note newId createdAt | | t
                  | id past | maxCap oH oM cH cM months hol | id];
    unfold appStep, calendarDayClick, onCancel, onDeleteReservation,
      handleCancel, handleConfirm in Hstep;
    cbn -[In PRODUCTS generateTimeSlots canBook validSlots] in Hstep;
    repeat case_match; simplify_eq; cbn -[In PRODUCTS].
  all: try (split; [split; [assumption | discriminate] | assumption]).
  all: try (split; [split; assumption | assumption]).
  all: try (split; [split; assumption
                   | apply fromCatalog_markCancelled; assumption]).
  - split; [split; [| discriminate] | assumption].
    intros p0 [= <-]. apply list_elem_of_In.
    eapply list_elem_of_lookup_2. eassumption.
  - split; [split; [assumption |] | assumption].
    intros _. eexists _, _. split; [reflexivity | split; [| reflexivity]].
    match goal with
    | Hne : negb (String.eqb ?d "") = true |- ?d <> "" =>
        intros ->; discriminate Hne
    end.
  - split; [split; discriminate |].
    apply Forall_app. split; [assumption |].
    constructor; [| constructor].
    split; [| left; reflexivity].
    eexists. split; [apply Hprod; reflexivity |].
    repeat split; reflexivity.
Qed.

(** X22.  Whenever the booking form is shown in a session that starts
    with complete selections (none, at start-up), a date that is not empty
    and a product of the catalog are selected; and when the set starts
    with snapshots of catalog products, every record of the set stays one:
    its product fields and its end time are those of a catalog product,
    and its status is confirmed or cancelled. *)
Theorem session_bookings_from_catalog (fuel : nat) (evs : list Event)
    (st st' : AppState) :
  selectionsComplete st ->
  Forall fromCatalog (st_reservations st) ->
  appRun fuel evs st = Some st' ->
  selectionsComplete st' /\ Forall fromCatalog (st_reservations st').
Proof.
  revert st. induction evs as [| ev evs IH]; intros st Hsel Hcat Hrun.
  - injection Hrun as <-. split; assumption.
  - simpl in Hrun.
    destruct (appStep fuel ev st) as [st1 |] eqn:Hstep; [| discriminate].
    destruct (appStep_catalog fuel ev st st1 Hstep Hsel Hcat) as [Hsel1 Hcat1].
    apply (IH st1 Hsel1 Hcat1 Hrun).
Qed.

(** ** Sessions: capacity and business hours *)

Lemma canBook_true_fits (fuel : nat) (date startTime : string) (startMin : Z)
    (product : Product) (reservations : list Reservation)
    (settings : Settings) :
  timeToMinutes startTime = Some startMin ->
  0 <= startMin ->
  0 < slotIntervalMin settings ->
  canBook fuel date startTime product reservations settings = Some true ->
  startMin + p_durationMin product <= closeTotal settings
  /\ forall k : Z,
       0 <= k ->
       startMin + k * slotIntervalMin settings
         < startMin + p_durationMin product ->
       occupancyAt date (startMin + k * slotIntervalMin settings) reservations
       + p_requiredSlots product <= maxCapacity settings.
Proof.
  intros Hread Hstart Hstep. unfold canBook. rewrite Hread, Z.gtb_ltb.
  fold (closeTotal settings).
  destruct (Z.ltb_spec (closeTotal settings) (startMin + p_durationMin product))
    as [Hlate | Hfits]; [discriminate |].
  intros Htrue. split; [exact Hfits |].
  set (endMin := startMin + p_durationMin product) in *.
  destruct (canBook_loop_spec date product settings reservations endMin Hstep
              (Z.to_nat (endMin - startMin)) startMin Hstart (le_n _))
    as (b & Hrun & Hiff).
  pose proof (canBook_loop_fuel_mono date product settings reservations endMin
                fuel (Nat.max fuel (S (Z.to_nat (endMin - startMin))))
                startMin true Htrue (Nat.le_max_l _ _)) as Hmore.
  rewrite Hrun in Hmore by lia.
  injection Hmore as ->.
  intros k Hk Hlt.
  destruct (Z.le_gt_cases
              (occupancyAt date (startMin + k * slotIntervalMin settings)
                 reservations + p_requiredSlots product)
              (maxCapacity settings)) as [Hle | Hgt]; [exact Hle |].
  assert (true = false) by (apply Hiff; exists k; auto). discriminate.
Qed.

(** Inside a cell of the grid no record starts: an instant of the cell is
    covered by at most what covers the start of the cell. *)
Lemma occupancyAt_cell (settings : Settings) (date : string) (g x : Z)
    (reservations : list Reservation) :
  0 < slotIntervalMin settings ->
  Forall (bookedOnGrid settings) reservations ->
  (slotIntervalMin settings | g - openTotal settings) ->
  g <= x < g + slotIntervalMin settings ->
  occupancyAt date x reservations <= occupancyAt date g reservations.
Proof.
  intros Hstep Hgrid [c Hc] Hx. unfold occupancyAt.
  induction Hgrid as [| r l Hr _ IH]; simpl; [lia |].
  destruct Hr as (Hunits & s & e & Hs & He & _ & _ & _ & [a Ha]).
  assert (Himp : countedAt date x r = true -> countedAt date g r = true).
  { unfold countedAt, holdsInstant. rewrite Hs, He.
    rewrite !andb_true_iff, Z.leb_le, Z.ltb_lt, Z.leb_le, Z.ltb_lt.
    intros [Hsd [Hsx Hxe]]. split; [exact Hsd | split; [| lia]].
    assert (Hlt : a * slotIntervalMin settings
                  < (c + 1) * slotIntervalMin settings) by lia.
    apply Z.mul_lt_mono_pos_r in Hlt; [| exact Hstep].
    assert (Hle : a * slotIntervalMin settings <= c * slotIntervalMin settings)
      by (apply Z.mul_le_mono_nonneg_r; lia).
    lia. }
  destruct (countedAt date x r) eqn:Hcx.
  - rewrite (Himp eq_refl). simpl. lia.
  - destruct (countedAt date g r); simpl; lia.
Qed.

Lemma occupancyAt_markCancelled (id : string) (date : string) (x : Z)
    (reservations : list Reservation) :
  nonNegativeUnits reservations ->
  occupancyAt date x (markCancelled id reservations)
  <= occupancyAt date x reservations.
Proof.
  unfold occupancyAt, markCancelled.
  induction 1 as [| r l Hr _ IH]; simpl; [lia |].
  destruct (String.eqb (r_id r) id).
  - unfold countedAt at 1. simpl.
    destruct (countedAt date x r); simpl; lia.
  - destruct (countedAt date x r); simpl; lia.
Qed.

Lemma bookedOnGrid_nonNegative (settings : Settings) (l : list Reservation) :
  Forall (bookedOnGrid settings) l -> nonNegativeUnits l.
Proof.
  unfold nonNegativeUnits. intros H.
  eapply List.Forall_impl; [| exact H]. intros r [Hr _]. exact Hr.
Qed.

Lemma bookedOnGrid_markCancelled (settings : Settings) (id : string)
    (l : list Reservation) :
  Forall (bookedOnGrid settings) l ->
  Forall (bookedOnGrid settings) (markCancelled id l).
Proof.
  unfold markCancelled. induction 1 as [| r l Hr _ IH]; simpl; constructor;
    [| exact IH].
  destruct (String.eqb (r_id r) id); exact Hr.
Qed.

Lemma PRODUCTS_positive (p : Product) :
  In p PRODUCTS -> 0 < p_requiredSlots p /\ 0 < p_durationMin p.
Proof.
  intros Hin. repeat (destruct Hin as [<- | Hin]; [simpl; lia |]).
  destruct Hin.
Qed.

Lemma appStep_sound (settings : Settings) (fuel : nat) (ev : Event)
    (st st' : AppState) :
  0 < slotIntervalMin settings ->
  0 <= openTotal settings ->
  keepsSettings ev = true ->
  appStep fuel ev st = Some st' ->
  sessionSound settings st -> sessionSound settings st'.
Proof.
  unfold sessionSound, pendingFits.
  destruct st as [rs s0 tb sd sp stime]. cbn -[In PRODUCTS occupancyAt].
  intros Hstep Hopen Hkeep Hrun (Hset & Hgrid & Hcap & Hprod & Hpend).
  subst s0.
  destruct ev as [d past | i | i | name phone note newId createdAt | | t
                  | id past | maxCap oH oM cH cM months hol | id];
    try discriminate Hkeep;
    unfold appStep, calendarDayClick, onCancel, onDeleteReservation,
      handleCancel, handleConfirm in Hrun;
    cbn -[In PRODUCTS generateTimeSlots canBook validSlots] in Hrun;
    repeat case_match; simplify_eq; cbn -[In PRODUCTS occupancyAt].
  all: try (split; [reflexivity | split; [assumption | split; [assumption
            | split; [assumption | first [assumption | discriminate]]]]]).
  - (* a product is picked *)
    split; [reflexivity | split; [assumption | split; [assumption | split]]];
      [| discriminate].
    intros p0 [= <-]. apply list_elem_of_In.
    eapply list_elem_of_lookup_2. eassumption.
  - (* a slot is picked *)
    split; [reflexivity | split; [assumption | split; [assumption | split]]];
      [assumption |].
    intros _.
    match goal with
    | Hgen : generateTimeSlots fuel settings = Some ?l,
      Hslot : validSlots ?p settings ?l !! i = Some ?slot,
      Hbook : canBook fuel ?d (label ?slot) ?p rs settings = Some true |- _ =>
        assert (Hin : In slot l)
          by (apply list_elem_of_lookup_2 in Hslot;
              apply list_elem_of_In in Hslot;
              apply List.filter_In in Hslot; tauto);
        apply list_elem_of_In, list_elem_of_lookup in Hin;
        destruct Hin as (k & Hk);
        destruct (generateTimeSlots_result settings fuel l Hstep Hgen)
          as (Hslots & _);
        destruct (Hslots k slot Hk) as (Hoff & _ & Hreads);
        assert (Hge : openTotal settings <= slotOffset slot) by nia;
        destruct (canBook_true_fits fuel d (label slot) (slotOffset slot) p rs
                    settings Hreads ltac:(lia) Hstep Hbook) as (Hclose & Hfits);
        exists d, p, (label slot), (slotOffset slot)
    end.
    repeat (split; [first [reflexivity | assumption] |]).
    split; [| split; [assumption | exact Hfits]].
    exists (Z.of_nat k). lia.
  - (* the form is confirmed *)
    destruct (Hpend ltac:(assumption))
      as (dd & pp & tt & startMin & [= ->] & [= ->] & [= ->] & Hreads
          & Hge & Hdiv & Hclose & Hfits).
    destruct (PRODUCTS_positive _ (Hprod _ eq_refl)) as (Hunits & Hdur).
    assert (Hend : timeToMinutes (bookingEndTime tt pp)
                   = Some (startMin + p_durationMin pp)).
    { unfold bookingEndTime. rewrite Hreads.
      apply (timeToMinutes_labelOfMinutes (startMin + p_durationMin pp)). lia. }
    split; [reflexivity | split; [| split; [| split; discriminate]]].
    + apply Forall_app. split; [assumption |].
      constructor; [| constructor].
      split; [simpl; lia |].
      exists startMin, (startMin + p_durationMin pp). simpl.
      repeat (split; [first [assumption | lia] |]). exact Hdiv.
    + intros date x.
      rewrite (occupancyAt_insert date x rs []), app_nil_r.
      pose proof (Hcap date x) as Hold.
      destruct (countedAt date x _) eqn:Hcounted; [| lia].
      unfold countedAt, holdsInstant in Hcounted. simpl in Hcounted.
      rewrite Hreads, Hend in Hcounted.
      rewrite !andb_true_iff, Z.leb_le, Z.ltb_lt in Hcounted.
      destruct Hcounted as [Hdate [Hsx Hxe]].
      apply String.eqb_eq in Hdate. subst date. simpl.
      set (step := slotIntervalMin settings) in *.
      set (k := (x - startMin) / step).
      pose proof (Z.div_mod (x - startMin) step ltac:(lia)) as Hdm.
      pose proof (Z.mod_pos_bound (x - startMin) step Hstep) as Hmod.
      fold k in Hdm.
      assert (Hk : 0 <= k) by (apply Z.div_pos; lia).
      assert (Hcell : startMin + k * step <= x < startMin + k * step + step)
        by lia.
      pose proof (Hfits k Hk ltac:(lia)) as Hfit.
      assert (Hgcell : (step | startMin + k * step - openTotal settings)).
      { replace (startMin + k * step - openTotal settings)
          with ((startMin - openTotal settings) + k * step) by lia.
        apply Z.divide_add_r; [exact Hdiv | apply Z.divide_factor_r]. }
      pose proof (occupancyAt_cell settings dd (startMin + k * step) x rs
                    Hstep Hgrid Hgcell Hcell) as Hle.
      eapply Z.le_trans; [| exact Hfit].
      apply Z.add_le_mono_r. exact Hle.
  - (* a reservation is cancelled from the list *)
    split; [reflexivity | split; [| split; [| split; [assumption |]]]].
    + apply bookedOnGrid_markCancelled. assumption.
    + intros date x.
      eapply Z.le_trans; [| apply (Hcap date x)].
      apply (occupancyAt_markCancelled id date x rs
               (bookedOnGrid_nonNegative _ _ Hgrid)).
    + intros Htime.
      destruct (Hpend Htime)
        as (d & p & t' & startMin & Hd & Hp & Ht & Hreads & Hge & Hdiv
            & Hclose & Hfits).
      exists d, p, t', startMin.
      repeat (split; [assumption |]).
      intros k Hk Hlt.
      eapply Z.le_trans; [| apply (Hfits k Hk Hlt)].
      apply Z.add_le_mono_r.
      apply (occupancyAt_markCancelled id d
               (startMin + k * slotIntervalMin settings) rs
               (bookedOnGrid_nonNegative _ _ Hgrid)).
  - (* a reservation is deleted by the administrator *)
    split; [reflexivity | split; [| split; [| split; [assumption |]]]].
    + apply bookedOnGrid_markCancelled. assumption.
    + intros date x.
      eapply Z.le_trans; [| apply (Hcap date x)].
      apply (occupancyAt_markCancelled id date x rs
               (bookedOnGrid_nonNegative _ _ Hgrid)).
    + intros Htime.
      destruct (Hpend Htime)
        as (d & p & t' & startMin & Hd & Hp & Ht & Hreads & Hge & Hdiv
            & Hclose & Hfits).
      exists d, p, t', startMin.
      repeat (split; [assumption |]).
      intros k Hk Hlt.
      eapply Z.le_trans; [| apply (Hfits k Hk Hlt)].
      apply Z.add_le_mono_r.
      apply (occupancyAt_markCancelled id d
               (startMin + k * slotIntervalMin settings) rs
               (bookedOnGrid_nonNegative _ _ Hgrid)).
Qed.

(** ** Sessions with their saves *)

Lemma handleConfirm_two_steps (newId createdAt : string) (info : BookingInfo)
    (st : AppState) :
  handleConfirm newId createdAt info st
  = confirmSaved (confirmClicked newId createdAt info st).
Proof. reflexivity. Qed.

Lemma appStep_FormConfirm (fuel : nat) (name phone note newId createdAt : string)
    (st : AppState) :
  appStep fuel (FormConfirm name phone note newId createdAt) st
  = Some match formInfo name phone note st with
         | Some info => handleConfirm newId createdAt info st
         | None => st
         end.
Proof.
  unfold appStep, formInfo.
  destruct (tab st); [| reflexivity | reflexivity].
  destruct (truthy (selectedTime st)); [| reflexivity].
  destruct (selectedDate st), (selectedProduct st), (selectedTime st);
    try reflexivity.
  cbv zeta. destruct (negb _ && negb _); reflexivity.
Qed.

(** While a confirmation waits for its save the selected time need not
    fit any more; the records stay sound under every event but a click on
    the confirm button. *)
Lemma appStep_records (settings : Settings) (fuel : nat) (ev : Event)
    (st st' : AppState) :
  keepsSettings ev = true ->
  isConfirm (Click ev) = false ->
  appStep fuel ev st = Some st' ->
  recordsSound settings st -> recordsSound settings st'.
Proof.
  unfold recordsSound.
  destruct st as [rs s0 tb sd sp stime]. cbn -[In PRODUCTS occupancyAt].
  intros Hkeep Hother Hrun (Hset & Hgrid & Hcap & Hprod).
  subst s0.
  destruct ev as [d past | i | i | name phone note newId createdAt | | t
                  | id past | maxCap oH oM cH cM months hol | id];
    try discriminate Hkeep; try discriminate Hother;
    unfold appStep, calendarDayClick, onCancel, onDeleteReservation,
      handleCancel in Hrun;
    cbn -[In PRODUCTS generateTimeSlots canBook validSlots] in Hrun;
    repeat case_match; simplify_eq; cbn -[In PRODUCTS occupancyAt].
  all: try (split; [reflexivity | split; [assumption | split; [assumption
            | first [assumption | discriminate]]]]).
  - (* a product is picked *)
    split; [reflexivity | split; [assumption | split; [assumption |]]].
    intros p0 [= <-]. apply list_elem_of_In.
    eapply list_elem_of_lookup_2. eassumption.
  - (* a reservation is cancelled from the list *)
    split; [reflexivity | split; [| split; [| assumption]]].
    + apply bookedOnGrid_markCancelled. assumption.
    + intros date x.
      eapply Z.le_trans; [| apply (Hcap date x)].
      apply (occupancyAt_markCancelled id date x rs
               (bookedOnGrid_nonNegative _ _ Hgrid)).
  - (* a reservation is deleted by the administrator *)
    split; [reflexivity | split; [| split; [| assumption]]].
    + apply bookedOnGrid_markCancelled. assumption.
    + intros date x.
      eapply Z.le_trans; [| apply (Hcap date x)].
      apply (occupancyAt_markCancelled id date x rs
               (bookedOnGrid_nonNegative _ _ Hgrid)).
Qed.

Lemma sessionSound_records (settings : Settings) (st : AppState) :
  sessionSound settings st
  <-> recordsSound settings st /\ pendingFits settings st.
Proof. unfold sessionSound, recordsSound. tauto. Qed.

(** What a running session keeps true: the records are sound, and the
    selected time fits unless a confirmation waits for its save. *)
Lemma asyncStep_sound (settings : Settings) (fuel : nat) (h : Happening)
    (r r' : Running) :
  0 < slotIntervalMin settings ->
  0 <= openTotal settings ->
  leavesSettings h = true ->
  negb (isConfirm h) || Nat.eqb (inFlight r) 0 = true ->
  asyncStep fuel h r = Some r' ->
  recordsSound settings (app r)
  /\ (inFlight r = 0%nat -> pendingFits settings (app r)) ->
  recordsSound settings (app r')
  /\ (inFlight r' = 0%nat -> pendingFits settings (app r')).
Proof.
  intros Hstep Hopen Hkeep Hone Hrun [Hrec Hpend].
  destruct h as [ev |].
  - destruct (isConfirm (Click ev)) eqn:Hconf.
    + (* the confirm button, with no save in flight *)
      simpl in Hone. apply Nat.eqb_eq in Hone.
      destruct ev; try discriminate Hconf. simpl in Hrun.
      destruct (formInfo name phone note (app r)) as [info |] eqn:Hinfo.
      * injection Hrun as <-. simpl. split; [| discriminate].
        assert (Hsound : sessionSound settings (app r))
          by (apply sessionSound_records; auto).
        pose proof (appStep_FormConfirm fuel name phone note newId createdAt
                      (app r)) as Hatomic.
        rewrite Hinfo in Hatomic.
        pose proof (appStep_sound settings fuel _ _ _ Hstep Hopen Hkeep
                      Hatomic Hsound) as Hafter.
        apply sessionSound_records in Hafter. destruct Hafter as [Hafter _].
        destruct Hafter as (Hset & Hgrid & Hcap & _).
        destruct Hrec as (_ & _ & _ & Hprod).
        split; [exact Hset | split; [exact Hgrid | split; [exact Hcap |]]].
        exact Hprod.
      * injection Hrun as <-. split; assumption.
    + (* another event *)
      assert (Hrun' : match appStep fuel ev (app r) with
                      | Some st' => Some (mkRunning st' (inFlight r))
                      | None => None
                      end = Some r')
        by (destruct ev; try exact Hrun; discriminate Hconf).
      destruct (appStep fuel ev (app r)) as [st' |] eqn:Hst; [| discriminate].
      injection Hrun' as <-. simpl. split.
      * apply (appStep_records settings fuel ev (app r) st' Hkeep Hconf Hst Hrec).
      * intros Hzero.
        assert (Hsound : sessionSound settings (app r))
          by (apply sessionSound_records; auto).
        pose proof (appStep_sound settings fuel ev _ _ Hstep Hopen Hkeep Hst
                      Hsound) as Hafter.
        apply sessionSound_records in Hafter. tauto.
  - (* a save is done *)
    simpl in Hrun. destruct (inFlight r) as [| n] eqn:Hn.
    + injection Hrun as <-. rewrite Hn. split; assumption.
    + injection Hrun as <-. simpl.
      destruct Hrec as (Hset & Hgrid & Hcap & _). split.
      * split; [exact Hset | split; [exact Hgrid | split; [exact Hcap |]]].
        discriminate.
      * intros _. unfold pendingFits. simpl. discriminate.
Qed.

Lemma asyncRun_sound (settings : Settings) (fuel : nat) (hs : list Happening) :
  0 < slotIntervalMin settings ->
  0 <= openTotal settings ->
  forallb leavesSettings hs = true ->
  forall r r' : Running,
    oneConfirmAtATime fuel hs r = true ->
    asyncRun fuel hs r = Some r' ->
    recordsSound settings (app r)
    /\ (inFlight r = 0%nat -> pendingFits settings (app r)) ->
    recordsSound settings (app r')
    /\ (inFlight r' = 0%nat -> pendingFits settings (app r')).
Proof.
  intros Hstep Hopen.
  induction hs as [| h hs IH]; intros Hkeep r r' Hone Hrun Hsound.
  - injection Hrun as <-. exact Hsound.
  - simpl in Hrun, Hkeep, Hone.
    apply andb_prop in Hkeep as [Hh Hhs].
    apply andb_prop in Hone as [Hone Hrest].
    destruct (asyncStep fuel h r) as [r1 |] eqn:Hr1; [| discriminate].
    apply (IH Hhs r1 r' Hrest Hrun).
    apply (asyncStep_sound settings fuel h r r1 Hstep Hopen Hh Hone Hr1 Hsound).
Qed.

(** X23.  In a session with its saves, in which the settings are not saved
    anew and no click on the confirm button lands while a confirmation
    waits for its save, with a positive interval and an opening time that
    is not negative, starting from a set of records booked on the grid
    that respects the capacity: at no instant of any date do the confirmed
    reservations need more than the capacity, and every record lies within
    the business hours and starts on the grid.  Other events may land
    while the save is under way. *)
Theorem one_confirm_at_a_time_never_overbooks (settings : Settings)
    (reservations : list Reservation) (fuel : nat) (hs : list Happening)
    (r' : Running) :
  0 < slotIntervalMin settings ->
  0 <= openTotal settings ->
  Forall (bookedOnGrid settings) reservations ->
  withinCapacity settings reservations ->
  forallb leavesSettings hs = true ->
  oneConfirmAtATime fuel hs (started (initialState reservations settings))
  = true ->
  asyncRun fuel hs (started (initialState reservations settings)) = Some r' ->
  withinCapacity settings (st_reservations (app r'))
  /\ Forall (bookedOnGrid settings) (st_reservations (app r'))
  /\ st_settings (app r') = settings.
Proof.
  intros Hstep Hopen Hgrid Hcap Hkeep Hone Hrun.
  assert (Hinit : recordsSound settings
                    (app (started (initialState reservations settings)))
                  /\ (inFlight (started (initialState reservations settings))
                      = 0%nat ->
                      pendingFits settings
                        (app (started (initialState reservations settings))))).
  { unfold recordsSound, pendingFits. simpl.
    split; [| discriminate].
    split; [reflexivity | split; [exact Hgrid | split; [exact Hcap |]]].
    discriminate. }
  destruct (asyncRun_sound settings fuel hs Hstep Hopen Hkeep _ _ Hone Hrun
              Hinit) as ((Hset & Hgrid' & Hcap' & _) & _).
  split; [exact Hcap' | split; assumption].
Qed.

(** X25.  A click on the confirm button of the form is not checked against
    the capacity: whatever the settings and the reservations are, it adds
    its record to the set and leaves the form on the screen, so that a
    second click before the save is done adds a second record for the same
    date, time and product.  At every instant the first record counts for,
    the occupancy rises by twice the product's units. *)
Theorem confirm_in_flight_not_checked (fuel : nat)
    (name phone note id1 t1 id2 t2 : string) (r : Running)
    (info : BookingInfo) :
  formInfo name phone note (app r) = Some info ->
  asyncRun fuel
    [ Click (FormConfirm name phone note id1 t1);
      Click (FormConfirm name phone note id2 t2) ] r
  = Some (mkRunning
            (persist (st_reservations (app r)
                      ++ [ newReservation id1 t1 info;
                           newReservation id2 t2 info ])%list (app r))
            (S (S (inFlight r))))
  /\ forall (date : string) (instant : Z),
       occupancyAt date instant
         (st_reservations (app r)
          ++ [ newReservation id1 t1 info; newReservation id2 t2 info ])%list
       = occupancyAt date instant (st_reservations (app r))
         + 2 * (if countedAt date instant (newReservation id1 t1 info)
                then i_requiredSlots info else 0).
Proof.
  intros Hinfo. split.
  - cbn [asyncRun asyncStep]. rewrite Hinfo.
    assert (Hagain : formInfo name phone note
                       (confirmClicked id1 t1 info (app r)) = Some info)
      by exact Hinfo.
    cbn [app inFlight]. rewrite Hagain. cbn [app inFlight].
    unfold confirmClicked, persist. simpl.
    rewrite <- app_assoc. reflexivity.
  - intros date instant.
    rewrite (occupancyAt_insert date instant (st_reservations (app r))
               [newReservation id2 t2 info]).
    rewrite (occupancyAt_insert date instant (st_reservations (app r)) []).
    rewrite app_nil_r.
    assert (Hsame : countedAt date instant (newReservation id2 t2 info)
                    = countedAt date instant (newReservation id1 t1 info))
      by reflexivity.
    rewrite Hsame.
    destruct (countedAt date instant (newReservation id1 t1 info));
      simpl; lia.
Qed.

(** With one half-day booking at 10:00 and a capacity of 6, the two clicks
    leave 9 units booked at 10:00. *)
Example double_click_overbooks :
  exists r' : Running,
    asyncRun 50 doubleClickSession
      (started (initialState [firstHalf] DEFAULT_SETTINGS)) = Some r'
    /\ oneConfirmAtATime 50 doubleClickSession
         (started (initialState [firstHalf] DEFAULT_SETTINGS)) = false
    /\ getSlotOccupancy newYear "10:00" (st_reservations (app r')) = 9
    /\ maxCapacity (st_settings (app r')) = 6
    /\ inFlight r' = 0%nat.
Proof.
  eexists. split; [vm_compute; reflexivity |].
  repeat split; vm_compute; reflexivity.
Qed.

Lemma asyncRun_savedAtOnce (fuel : nat) (evs : list Event) :
  forall st : AppState,
    asyncRun fuel (savedAtOnce evs) (started st)
    = option_map started (appRun fuel evs st)
    /\ oneConfirmAtATime fuel (savedAtOnce evs) (started st) = true.
Proof.
  induction evs as [| ev evs IH]; intros st; [split; reflexivity |].
  assert (Hother :
            isConfirm (Click ev) = false ->
            asyncRun fuel (Click ev :: savedAtOnce evs) (started st)
            = option_map started (appRun fuel (ev :: evs) st)
            /\ oneConfirmAtATime fuel (Click ev :: savedAtOnce evs)
                 (started st) = true).
  { intros Hconf.
    assert (Hstep : asyncStep fuel (Click ev) (started st)
                    = option_map started (appStep fuel ev st)).
    { destruct ev; try discriminate Hconf;
        cbn [asyncStep app inFlight started];
        destruct (appStep _ _ _); reflexivity. }
    cbn [asyncRun oneConfirmAtATime appRun]. rewrite Hstep, Hconf.
    destruct (appStep fuel ev st) as [st1 |]; simpl; [| split; reflexivity].
    apply (IH st1). }
  destruct ev; try (apply Hother; reflexivity).
  cbn [savedAtOnce asyncRun oneConfirmAtATime appRun asyncStep started app
       inFlight isConfirm negb orb Nat.eqb andb].
  rewrite appStep_FormConfirm.
  destruct (formInfo name phone note st) as [info |];
    cbn [asyncStep app inFlight isConfirm negb orb andb];
    [rewrite <- handleConfirm_two_steps |]; apply IH.
Qed.

(** X26.  [handleConfirm] as one step is the click on the confirm button
    followed by the end of its save: a session in which every confirmation
    is saved before the next event runs as the same events handled one
    after the other, and no click on the confirm button lands in it while
    a confirmation waits for its save. *)
Theorem saved_at_once_is_appRun (fuel : nat) (evs : list Event)
    (st : AppState) :
  asyncRun fuel (savedAtOnce evs) (started st)
  = option_map started (appRun fuel evs st)
  /\ oneConfirmAtATime fuel (savedAtOnce evs) (started st) = true
  /\ forall (newId createdAt : string) (info : BookingInfo),
       handleConfirm newId createdAt info st
       = confirmSaved (confirmClicked newId createdAt info st).
Proof.
  destruct (asyncRun_savedAtOnce fuel evs st) as [Hrun Hone].
  split; [exact Hrun | split; [exact Hone |]].
  intros newId createdAt info. apply handleConfirm_two_steps.
Qed.

(** ** Dates *)

Lemma uint_string_dash_free (d : uint) :
  dash_free (NilEmpty.string_of_uint d).
Proof.
  unfold dash_free.
  induction d; simpl; constructor; try assumption; discriminate.
Qed.

Lemma toString_dash_free (n : Z) : 0 <= n -> dash_free (Js.toString n).
Proof.
  intros Hn. unfold Js.toString. destruct n as [| p | p]; [| | lia].
  - unfold dash_free. simpl. constructor; [discriminate | constructor].
  - cbn [Z.to_int NilZero.string_of_int].
    pose proof (DecimalPos.Unsigned.to_uint_nonnil p) as Hnn.
    destruct (Pos.to_uint p) eqn:E; try contradiction;
      rewrite <- E; unfold NilZero.string_of_uint;
      rewrite E; rewrite <- E; apply uint_string_dash_free.
Qed.

Lemma dash_free_app (s t : string) :
  dash_free s -> dash_free t -> dash_free (s ++ t).
Proof.
  unfold dash_free. induction s as [| c s IH]; simpl; intros Hs Ht.
  - exact Ht.
  - inversion Hs; subst. constructor; auto.
Qed.

Lemma pad2_dash_free (n : Z) : 0 <= n -> dash_free (pad2 n).
Proof.
  intros Hn. unfold pad2, Js.padStart. apply dash_free_app.
  - generalize (2 - String.length (Js.toString n))%nat as k.
    unfold dash_free.
    induction k; simpl; constructor; [discriminate | assumption].
  - apply toString_dash_free. exact Hn.
Qed.

Lemma split_dash_free (s : string) :
  dash_free s -> Js.split "-" s = [s].
Proof.
  unfold dash_free. induction s as [| c s IH]; simpl; intros H.
  - reflexivity.
  - inversion H as [| ? ? Hc Hs]; subst.
    destruct (Ascii.eqb_spec c "-") as [-> | _]; [contradiction |].
    rewrite IH by assumption. reflexivity.
Qed.

Lemma split_dash (s t : string) :
  dash_free s -> Js.split "-" (s ++ "-" ++ t) = s :: Js.split "-" t.
Proof.
  unfold dash_free. induction s as [| c s IH]; simpl; intros H.
  - reflexivity.
  - inversion H as [| ? ? Hc Hs]; subst.
    destruct (Ascii.eqb_spec c "-") as [-> | _]; [contradiction |].
    simpl in IH. rewrite IH by assumption. reflexivity.
Qed.

Lemma toNumber_toString (n : Z) : Js.toNumber (Js.toString n) = Some n.
Proof.
  unfold Js.toString. destruct n as [| p | p]; [reflexivity | |].
  - cbn [Z.to_int NilZero.string_of_int].
    pose proof (DecimalPos.Unsigned.to_uint_nonnil p) as Hnn.
    pose proof (DecimalPos.Unsigned.of_to p) as Hof.
    assert (Hz : Z.of_uint (Pos.to_uint p) = Z.pos p)
      by (unfold Z.of_uint; rewrite Hof; reflexivity).
    rewrite <- Hz.
    destruct (Pos.to_uint p) eqn:E; try contradiction;
      apply toNumber_unsigned; discriminate.
  - cbn [Z.to_int NilZero.string_of_int].
    cbn [Js.toNumber NilZero.int_of_string Ascii.eqb Bool.eqb].
    rewrite NilZero.usu by apply DecimalPos.Unsigned.to_uint_nonnil.
    cbn [option_map Z.of_int]. unfold Z.of_uint.
    rewrite DecimalPos.Unsigned.of_to. reflexivity.
Qed.

(** X24.  [parseDate] hands to the date constructor the year, month and
    day that [fmtDate] printed, when the year is not negative; the month
    goes through the shift by one in both directions. *)
Theorem parseDate_fmtDate (fullYear month date : Z) :
  0 <= fullYear -> 0 <= month + 1 -> 0 <= date ->
  parseDate (fmtDate fullYear month date) = Some (fullYear, month, date).
Proof.
  intros Hy Hm Hd. unfold parseDate, fmtDate.
  rewrite split_dash by (apply toString_dash_free; exact Hy).
  rewrite split_dash by (apply pad2_dash_free; exact Hm).
  rewrite split_dash_free by (apply pad2_dash_free; exact Hd).
  cbn [map]. rewrite toNumber_toString, !toNumber_pad2.
  do 3 f_equal. lia.
Qed.

(** ** The further results at concrete inputs *)

Lemma colon_free_label_witness :
  colon_free "noon"
  /\ forall fuel date product reservations settings,
       canBook fuel date "noon" product reservations settings = Some true.
Proof.
  assert (H : colon_free "noon") by (repeat constructor; discriminate).
  split; [exact H |].
  apply (proj2 (proj2 (colon_free_label "noon" H))).
Defined.

Lemma reservation_order_irrelevant_witness :
  Permutation [firstHalf; secondHalf] [secondHalf; firstHalf]
  /\ forall date slotLabel,
       getSlotOccupancy date slotLabel [firstHalf; secondHalf]
       = getSlotOccupancy date slotLabel [secondHalf; firstHalf].
Proof.
  assert (H : Permutation [firstHalf; secondHalf] [secondHalf; firstHalf])
    by apply perm_swap.
  split; [exact H |].
  apply (proj1 (reservation_order_irrelevant _ _ H)).
Defined.

Lemma canBook_free_day_witness :
  timeToMinutes "10:00" = Some 600
  /\ exists fuel0 : nat, forall fuel, (fuel0 <= fuel)%nat ->
       canBook fuel newYear "10:00" halfProduct [] DEFAULT_SETTINGS
       = Some (p_requiredSlots halfProduct <=? maxCapacity DEFAULT_SETTINGS).
Proof.
  split; [reflexivity |].
  apply (canBook_free_day newYear "10:00" 600 halfProduct [] DEFAULT_SETTINGS).
  - reflexivity.
  - reflexivity.
  - reflexivity.
  - vm_compute. discriminate.
  - constructor.
Defined.

Lemma canBook_zero_interval_witness :
  timeToMinutes "10:00" = Some 600
  /\ forall fuel,
       canBook (S fuel) newYear "10:00" halfProduct [] zeroIntervalSettings
       = None.
Proof.
  split; [reflexivity |].
  apply (canBook_zero_interval newYear "10:00" 600 halfProduct []
           zeroIntervalSettings).
  - reflexivity.
  - reflexivity.
  - reflexivity.
  - vm_compute. discriminate.
Defined.

Lemma canBook_accepts_more_witness :
  canBook 10 newYear "10:30" halfProduct ([] ++ firstHalf :: []) DEFAULT_SETTINGS
  = Some true
  /\ canBook 10 newYear "10:30" halfProduct ([] ++ []) DEFAULT_SETTINGS
     = Some true.
Proof.
  assert (H : canBook 10 newYear "10:30" halfProduct ([] ++ firstHalf :: [])
                DEFAULT_SETTINGS = Some true) by (vm_compute; reflexivity).
  split; [exact H |].
  assert (Hunits : 0 <= r_requiredSlots firstHalf)
    by (vm_compute; discriminate).
  apply (proj1 (canBook_accepts_more 10 newYear "10:30" halfProduct [] []
                  firstHalf DEFAULT_SETTINGS Hunits H)).
Defined.

Lemma available_slot_has_room_witness :
  canBook 10 newYear (label halfPastTen) halfProduct [firstHalf]
    DEFAULT_SETTINGS = Some true
  /\ p_requiredSlots halfProduct
     <= remaining newYear [firstHalf] DEFAULT_SETTINGS halfPastTen.
Proof.
  assert (H : canBook 10 newYear (label halfPastTen) halfProduct [firstHalf]
                DEFAULT_SETTINGS = Some true) by (vm_compute; reflexivity).
  split; [exact H |].
  apply (available_slot_has_room 10 newYear halfPastTen 630 halfProduct
           [firstHalf] DEFAULT_SETTINGS).
  - reflexivity.
  - lia.
  - reflexivity.
  - exact H.
Defined.

Lemma validSlots_prefix_witness :
  exists slots : list Slot,
    generateTimeSlots 30 DEFAULT_SETTINGS = Some slots
    /\ exists n : nat,
         validSlots halfProduct DEFAULT_SETTINGS slots = take n slots.
Proof.
  eexists. split; [vm_compute; reflexivity |].
  refine (proj1 (validSlots_prefix halfProduct DEFAULT_SETTINGS 30 _ _ _)).
  - reflexivity.
  - vm_compute. reflexivity.
Defined.

Lemma generateTimeSlots_count_witness :
  exists slots : list Slot,
    generateTimeSlots 30 DEFAULT_SETTINGS = Some slots
    /\ NoDup (map label slots).
Proof.
  eexists. split; [vm_compute; reflexivity |].
  refine (proj2 (generateTimeSlots_count DEFAULT_SETTINGS 30 _ _ _)).
  - reflexivity.
  - vm_compute. reflexivity.
Defined.

Lemma generateTimeSlots_clock_times_witness :
  exists slots : list Slot,
    generateTimeSlots 30 DEFAULT_SETTINGS = Some slots
    /\ Forall
         (fun s =>
            0 <= min s < 60
            /\ openHour DEFAULT_SETTINGS <= hour s
            /\ hour s = slotOffset s / 60
            /\ label s = (pad2 (hour s) ++ ":" ++ pad2 (min s))%string)
         slots.
Proof.
  eexists. split; [vm_compute; reflexivity |].
  apply (generateTimeSlots_clock_times DEFAULT_SETTINGS 30).
  - reflexivity.
  - simpl. lia.
  - vm_compute. reflexivity.
Defined.

Lemma bookingEndTime_reads_witness :
  timeToMinutes "10:00" = Some 600
  /\ timeToMinutes (r_endTime firstHalf) = Some (600 + p_durationMin halfProduct).
Proof.
  split; [reflexivity |].
  refine (proj1 (bookingEndTime_reads "10:00" 600 halfProduct firstHalf
                   _ _ _ _)).
  - reflexivity.
  - vm_compute. discriminate.
  - reflexivity.
  - vm_compute. reflexivity.
Defined.

Lemma getDateAvailability_free_day_witness :
  openTotal DEFAULT_SETTINGS < closeTotal DEFAULT_SETTINGS
  /\ exists fuel0 : nat, forall fuel, (fuel0 <= fuel)%nat ->
       exists q : Q,
         getDateAvailability fuel newYear [] DEFAULT_SETTINGS
         = Some (Js.Finite q)
         /\ (q == 1)%Q.
Proof.
  split; [reflexivity |].
  apply (getDateAvailability_free_day newYear [] DEFAULT_SETTINGS).
  - reflexivity.
  - reflexivity.
  - reflexivity.
  - constructor.
Defined.

Lemma danger_dot_iff_full_witness :
  nonNegativeUnits [firstHalf]
  /\ exists (slots : list Slot) (color : DotColor),
       (exists fuel0 : nat, forall fuel, (fuel0 <= fuel)%nat ->
          generateTimeSlots fuel DEFAULT_SETTINGS = Some slots
          /\ availDot fuel false newYear [firstHalf] DEFAULT_SETTINGS
             = Some (Some color))
       /\ (color = Danger
           <-> Forall
                 (fun s =>
                    maxCapacity DEFAULT_SETTINGS
                    <= occupancyAt newYear (slotOffset s) [firstHalf])
                 slots).
Proof.
  assert (Hnn : nonNegativeUnits [firstHalf]).
  { constructor; [vm_compute; discriminate | constructor]. }
  split; [exact Hnn |].
  apply (danger_dot_iff_full newYear [firstHalf] DEFAULT_SETTINGS).
  - reflexivity.
  - reflexivity.
  - reflexivity.
  - exact Hnn.
  - intros [].
Defined.

Lemma closed_day_ratio_witness :
  closeTotal closedSettings <= openTotal closedSettings
  /\ getDateAvailability 1 newYear [firstHalf] closedSettings = Some Js.NaN.
Proof.
  assert (H : closeTotal closedSettings <= openTotal closedSettings)
    by (vm_compute; discriminate).
  split; [exact H |].
  refine (proj1 (proj2 (closed_day_ratio 0 newYear [firstHalf]
                          closedSettings H _))).
  intros [].
Defined.

Lemma confirm_then_cancel_witness :
  ~ In "k3j9x0q2a" (map r_id [firstHalf])
  /\ forall date slotLabel,
       getSlotOccupancy date slotLabel
         (st_reservations
            (handleCancel "k3j9x0q2a"
               (handleConfirm "k3j9x0q2a" "t0" sampleInfo
                  (initialState [firstHalf] DEFAULT_SETTINGS))))
       = getSlotOccupancy date slotLabel [firstHalf].
Proof.
  assert (H : ~ In "k3j9x0q2a" (map r_id [firstHalf])).
  { intros [Heq | []]. discriminate Heq. }
  split; [exact H |].
  apply (proj2 (confirm_then_cancel "k3j9x0q2a" "t0" sampleInfo
                  (initialState [firstHalf] DEFAULT_SETTINGS) H)).
Defined.

Lemma saved_holiday_rejected_witness :
  ed_holidayInput newYearEditor <> ""
  /\ calendarDayClick false newYear
       (handleSave (addHoliday newYearEditor) (initialState [] DEFAULT_SETTINGS))
     = handleSave (addHoliday newYearEditor) (initialState [] DEFAULT_SETTINGS).
Proof.
  assert (H : ed_holidayInput newYearEditor <> "") by discriminate.
  split; [exact H |].
  apply (proj2 (saved_holiday_rejected newYearEditor
                  (initialState [] DEFAULT_SETTINGS) false H)).
Defined.

Lemma session_keeps_history_witness :
  appRun 50 bookingSession (initialState [firstHalf] DEFAULT_SETTINGS)
  = Some (persist (firstHalf :: st_reservations bookedAndCancelled)
            bookedAndCancelled)
  /\ exists kept added : list Reservation,
       (firstHalf :: st_reservations bookedAndCancelled)
       = (kept ++ added)%list
       /\ Forall2 laterRecord [firstHalf] kept.
Proof.
  assert (H : appRun 50 bookingSession (initialState [firstHalf] DEFAULT_SETTINGS)
              = Some (persist (firstHalf :: st_reservations bookedAndCancelled)
                        bookedAndCancelled))
    by (vm_compute; reflexivity).
  split; [exact H |].
  destruct (session_keeps_history 50 bookingSession _ _ H)
    as (kept & added & Hset & Hkept & _).
  exists kept, added. split; assumption.
Defined.

Lemma session_bookings_from_catalog_witness :
  appRun 50 bookingSession (initialState [] DEFAULT_SETTINGS)
  = Some bookedAndCancelled
  /\ Forall fromCatalog (st_reservations bookedAndCancelled).
Proof.
  assert (H : appRun 50 bookingSession (initialState [] DEFAULT_SETTINGS)
              = Some bookedAndCancelled) by (vm_compute; reflexivity).
  split; [exact H |].
  refine (proj2 (session_bookings_from_catalog 50 bookingSession
                   (initialState [] DEFAULT_SETTINGS) bookedAndCancelled
                   _ _ H)).
  - split; simpl; discriminate.
  - constructor.
Defined.

(** [bookingSession] with its save, during which the form is left. *)
Lemma one_confirm_at_a_time_never_overbooks_witness :
  exists r' : Running,
    asyncRun 50 savedSession (started (initialState [] DEFAULT_SETTINGS))
    = Some r'
    /\ map r_status (st_reservations (app r')) = ["cancelled"]
    /\ withinCapacity DEFAULT_SETTINGS (st_reservations (app r')).
Proof.
  eexists.
  assert (H : asyncRun 50 savedSession
                (started (initialState [] DEFAULT_SETTINGS))
              = Some (started bookedAndCancelled)) by (vm_compute; reflexivity).
  split; [exact H |]. split; [reflexivity |].
  refine (proj1 (one_confirm_at_a_time_never_overbooks DEFAULT_SETTINGS [] 50
                   savedSession (started bookedAndCancelled) _ _ _ _ _ _ H)).
  - reflexivity.
  - vm_compute. discriminate.
  - constructor.
  - intros date x. vm_compute. discriminate.
  - reflexivity.
  - vm_compute. reflexivity.
Defined.

(** The form on the screen, for the half-day product at 10:00. *)
Lemma confirm_in_flight_not_checked_witness :
  formInfo "Sato" "06-0000-0000" "" formShown = Some sampleInfo
  /\ asyncRun 50
       [ Click (FormConfirm "Sato" "06-0000-0000" "" "k3j9x0q2a" "t0");
         Click (FormConfirm "Sato" "06-0000-0000" "" "m7c1v5z8e" "t1") ]
       (started formShown)
     = Some (mkRunning
               (persist (st_reservations formShown
                         ++ [ newReservation "k3j9x0q2a" "t0" sampleInfo;
                              newReservation "m7c1v5z8e" "t1" sampleInfo ])%list
                  formShown) 2).
Proof.
  assert (H : formInfo "Sato" "06-0000-0000" "" (app (started formShown))
              = Some sampleInfo) by (vm_compute; reflexivity).
  split; [exact H |].
  exact (proj1 (confirm_in_flight_not_checked 50 "Sato" "06-0000-0000" ""
                  "k3j9x0q2a" "t0" "m7c1v5z8e" "t1" (started formShown)
                  sampleInfo H)).
Defined.

Lemma parseDate_fmtDate_witness :
  fmtDate 2026 0 1 = newYear
  /\ parseDate (fmtDate 2026 0 1) = Some (2026, 0, 1).
Proof.
  split; [vm_compute; reflexivity |].
  apply (parseDate_fmtDate 2026 0 1); lia.
Defined.
